(** * GSM-AT library, connection API ([src/gsm/gsm_conn.c])

    A shallow embedding of the connection layer: the write buffer and its
    flush, the command hand-off to the producer mailbox, the close
    request, the poll timeout and the accessors.  Every C function of the
    file that the properties below talk about is a definition of the same
    name; the collaborators that live in other files of the library
    (allocator, producer mailbox, timeout scheduler, event hook,
    configuration constants) are taken from an environment record. *)

From Stdlib Require Import ZArith Lia.
From Stdlib.Strings Require Import Byte.
From stdpp Require Import base tactics option list numbers.

Local Open Scope Z_scope.

(** ** Result codes, commands, events *)

(** [gsmr_t]: the members the connection layer itself produces
    ([gsmOK], [gsmERR], [gsmERRMEM]), the one its parameter assertion
    produces ([gsmPARERR]) and the time-out of a blocking hand-off. *)
Inductive gsmr_t := gsmOK | gsmERR | gsmPARERR | gsmERRMEM | gsmTIMEOUT.

#[global] Instance gsmr_t_eq_dec : EqDecision gsmr_t.
Proof. solve_decision. Defined.

Inductive gsm_cmd_t :=
  GSM_CMD_IDLE | GSM_CMD_CIPSTART | GSM_CMD_CIPSTATUS | GSM_CMD_CIPSEND | GSM_CMD_CIPCLOSE.

#[global] Instance gsm_cmd_t_eq_dec : EqDecision gsm_cmd_t.
Proof. solve_decision. Defined.

(** The C test [res == gsmOK]. *)
Definition is_ok (r : gsmr_t) : bool :=
  match r with gsmOK => true | _ => false end.

Inductive gsm_evt_type_t :=
  GSM_EVT_NONE | GSM_EVT_CONN_ACTIVE | GSM_EVT_CONN_CLOSED
| GSM_EVT_CONN_DATA_RECV | GSM_EVT_CONN_DATA_SEND | GSM_EVT_CONN_POLL.

(** A connection handle is a pointer into the connection table
    [gsm.m.conns]: [None] is [NULL], [Some i] addresses slot [i]. *)
Definition gsm_conn_p := option nat.

(** [gsm.evt]: the event type and the connection it is directed at. *)
Record gsm_evt_t := mk_evt { evt_type : gsm_evt_type_t; evt_conn : gsm_conn_p }.

(** ** Connections *)

(** The fields of [gsm_conn_t] this file reads or writes.  The status
    flags are one-bit fields; [buff_buff = None] is the [NULL] buffer. *)
Record gsm_conn_t := mk_conn {
  num : Z;
  val_id : Z;
  status_active : bool;
  status_client : bool;
  status_in_closing : bool;
  buff_buff : option nat;
  buff_len : Z;
  buff_ptr : Z
}.

Definition set_buff_buff (b : option nat) (c : gsm_conn_t) : gsm_conn_t :=
  mk_conn (num c) (val_id c) (status_active c) (status_client c)
          (status_in_closing c) b (buff_len c) (buff_ptr c).
Definition set_buff_len (n : Z) (c : gsm_conn_t) : gsm_conn_t :=
  mk_conn (num c) (val_id c) (status_active c) (status_client c)
          (status_in_closing c) (buff_buff c) n (buff_ptr c).
Definition set_buff_ptr (n : Z) (c : gsm_conn_t) : gsm_conn_t :=
  mk_conn (num c) (val_id c) (status_active c) (status_client c)
          (status_in_closing c) (buff_buff c) (buff_len c) n.
Definition set_in_closing (b : bool) (c : gsm_conn_t) : gsm_conn_t :=
  mk_conn (num c) (val_id c) (status_active c) (status_client c)
          b (buff_buff c) (buff_len c) (buff_ptr c).

(** ** Heap blocks *)

(** Who may free a block: this layer ([Owned]), the command executor
    after a free-after-use hand-off was accepted ([Queued]), or nobody
    any more ([Freed]). *)
Inductive blk_state_t := Owned | Queued | Freed.

Record block := mk_block { blk_bytes : list byte; blk_state : blk_state_t }.

(** Pointer tests [p == NULL] and [p != NULL]. *)
Definition is_none {A} (p : option A) : bool :=
  match p with None => true | Some _ => false end.
Definition is_some {A} (p : option A) : bool :=
  match p with None => false | Some _ => true end.

(** A [const void*] payload pointer: [NULL], a block of the heap, or
    memory of the caller (the bytes readable from the pointer on). *)
Inductive data_ptr := DNull | DHeap (p : nat) | DUser (bs : list byte).

(** ** Command envelopes *)

Inductive gsm_conn_type_t := GSM_CONN_TYPE_TCP | GSM_CONN_TYPE_UDP | GSM_CONN_TYPE_SSL.

(** The union [msg] of [gsm_msg_t], one constructor per member used. *)
Inductive gsm_msg_body :=
| msg_empty
| msg_conn_start (cs_num : Z) (cs_conn_out : bool) (cs_type : gsm_conn_type_t)
                 (cs_host : list byte) (cs_port : Z) (cs_evt_func : nat) (cs_arg : Z)
| msg_conn_close (cc_conn : gsm_conn_p) (cc_val_id : Z)
| msg_conn_send (sd_conn : gsm_conn_p) (sd_data : data_ptr) (sd_btw : Z)
                (sd_bw : bool) (sd_remote_ip : option Z) (sd_remote_port : Z)
                (sd_fau : Z) (sd_val_id : Z).

Record gsm_msg_t := mk_msg { cmd_def : gsm_cmd_t; cmd : gsm_cmd_t; msg : gsm_msg_body }.

(** ** Observable actions *)

(** What the layer does to its collaborators, newest first in the
    trace.  [EvConnSend] marks an entry into the dispatcher [conn_send]
    with the bytes it was handed; [EvSubmit] a call of
    [gsmi_send_msg_to_producer_mbox] with the depth of the core lock at
    that moment and the status it gave back; [EvReadValId] the read of
    [conn->val_id] with the depth of the core lock at the read. *)
Inductive event :=
| EvMsgAlloc (ok : bool)
| EvAlloc (size : Z) (res : option nat)
| EvFree (p : nat)
| EvReadValId (conn : nat) (v : Z) (depth : nat)
| EvConnSend (conn : gsm_conn_p) (payload : list byte) (fau blocking : Z)
| EvSubmit (m : gsm_msg_t) (blocking timeout : Z) (depth : nat) (res : gsmr_t)
| EvConnCb (conn : gsm_conn_p) (e : gsm_evt_t)
| EvTimeoutAdd (interval : Z) (arg : gsm_conn_p).

(** ** The environment *)

(** What [gsm_conn.c] takes from the rest of the library.  The two
    configuration constants and the width of [size_t] come from headers;
    the three oracles answer, from the history so far, whether the
    allocator serves a request and what the producer mailbox returns. *)
Record Env := mk_env {
  GSM_CFG_CONN_MAX_DATA_LEN : Z;
  GSM_CFG_CONN_POLL_INTERVAL : Z;
  GSM_CFG_MAX_CONNS : Z;
  size_t_bits : Z;
  mem_alloc_ok : list event → Z → bool;
  msg_alloc_ok : list event → bool;
  mbox_result : list event → gsm_msg_t → Z → Z → gsmr_t
}.

(** ** The state of the core *)

#[projections(primitive)]
Record World := mk_world {
  conns : list gsm_conn_t;      (* gsm.m.conns *)
  evt : gsm_evt_t;              (* gsm.evt *)
  heap : list block;            (* blocks handed out by gsm_mem_alloc *)
  lock : nat;                   (* depth of the recursive core lock *)
  timeouts : list (Z * gsm_conn_p); (* pending one-shot timers of conn_timeout_cb *)
  trace : list event
}.

Definition set_conns (cs : list gsm_conn_t) (w : World) : World :=
  mk_world cs (evt w) (heap w) (lock w) (timeouts w) (trace w).
Definition set_evt (e : gsm_evt_t) (w : World) : World :=
  mk_world (conns w) e (heap w) (lock w) (timeouts w) (trace w).
Definition set_heap (h : list block) (w : World) : World :=
  mk_world (conns w) (evt w) h (lock w) (timeouts w) (trace w).
Definition set_lock (n : nat) (w : World) : World :=
  mk_world (conns w) (evt w) (heap w) n (timeouts w) (trace w).
Definition set_timeouts (ts : list (Z * gsm_conn_p)) (w : World) : World :=
  mk_world (conns w) (evt w) (heap w) (lock w) ts (trace w).
Definition emit (e : event) (w : World) : World :=
  mk_world (conns w) (evt w) (heap w) (lock w) (timeouts w) (e :: trace w).

(** ** A state monad with faults *)

Inductive fault := NullDeref | BadPointer | OutOfBounds | UseAfterFree | DoubleFree | LockUnderflow | Diverged.

Inductive outcome (A : Type) :=
| Ok (a : A) (w : World)
| Crash (f : fault).
Arguments Ok {A} a w.
Arguments Crash {A} f.

Definition M (A : Type) : Type := World → outcome A.

#[global] Instance M_ret : MRet M := λ A a w, Ok a w.
#[global] Instance M_bind : MBind M := λ A B f m w,
  match m w with
  | Ok a w' => f a w'
  | Crash e => Crash e
  end.

Definition crash {A} (f : fault) : M A := λ _, Crash f.
Definition get_world : M World := λ w, Ok w w.
Definition modify (f : World → World) : M unit := λ w, Ok tt (f w).
Definition log (e : event) : M unit := modify (emit e).

Section Model.

Variable env : Env.

(** ** [size_t] arithmetic *)

Definition size_mod : Z := 2 ^ size_t_bits env.
Definition size_wrap (z : Z) : Z := z mod size_mod.
Definition size_add (a b : Z) : Z := size_wrap (a + b).
Definition size_sub (a b : Z) : Z := size_wrap (a - b).
Definition size_mul (a b : Z) : Z := size_wrap (a * b).

(** Modelled from the spec: [GSM_MIN(x, y)] is the [min] of section
    4.1, the conditional macro [(x) < (y) ? (x) : (y)]. *)
Definition GSM_MIN (x y : Z) : Z := if x <? y then x else y.

Definition MAX_DATA_LEN : Z := GSM_CFG_CONN_MAX_DATA_LEN env.

(** ** Core lock *)

(** Modelled from the spec: [GSM_CORE_PROTECT] and [GSM_CORE_UNPROTECT]
    take and release the Core Lock of section 2, one global lock that
    the holder may take again ([flush_buff] calls [conn_send] with the
    lock held, and [conn_send] takes it to read the validation id).
    The state keeps the depth; releasing a lock that is not held is a
    fault. *)

Definition GSM_CORE_PROTECT : M unit := modify (λ w, set_lock (S (lock w)) w).

Definition GSM_CORE_UNPROTECT : M unit := λ w,
  match lock w with
  | O => Crash LockUnderflow
  | S n => Ok tt (set_lock n w)
  end.

(** ** Access to a connection through its handle *)

Definition conn_load (conn : gsm_conn_p) : M gsm_conn_t := λ w,
  match conn with
  | None => Crash NullDeref
  | Some i =>
      match conns w !! i with
      | Some c => Ok c w
      | None => Crash BadPointer
      end
  end.

Definition conn_update (conn : gsm_conn_p) (f : gsm_conn_t → gsm_conn_t) : M unit := λ w,
  match conn with
  | None => Crash NullDeref
  | Some i =>
      match conns w !! i with
      | Some c => Ok tt (set_conns (<[i := f c]> (conns w)) w)
      | None => Crash BadPointer
      end
  end.

(** ** Allocator *)

(** Modelled from the spec: [gsm_mem_alloc] and [gsm_mem_free] are the
    allocator of section 6, [allocate(size) -> buffer|null] and
    [free(buffer)].  A served request yields a fresh block of [size]
    bytes; freeing a block this layer does not own any more is a fault,
    freeing [NULL] does nothing. *)
Definition gsm_mem_alloc (size : Z) : M (option nat) := λ w,
  if mem_alloc_ok env (trace w) size then
    let p := length (heap w) in
    Ok (Some p)
       (emit (EvAlloc size (Some p))
             (set_heap (heap w ++ [mk_block (replicate (Z.to_nat size) x00) Owned]) w))
  else Ok None (emit (EvAlloc size None) w).

Definition gsm_mem_free (ptr : option nat) : M unit := λ w,
  match ptr with
  | None => Ok tt w
  | Some p =>
      match heap w !! p with
      | None => Crash BadPointer
      | Some b =>
          match blk_state b with
          | Owned => Ok tt (emit (EvFree p) (set_heap (<[p := mk_block (blk_bytes b) Freed]> (heap w)) w))
          | _ => Crash DoubleFree
          end
      end
  end.

(** [GSM_MEMCPY(&blk[off], src, n)], the [memcpy] of the C library:
    copy the first [n] bytes of [src] into block [p] at offset [off].
    Reading past [src], writing past the block or into a block that is
    not this layer's any more is a fault. *)
Definition GSM_MEMCPY (p : nat) (off : Z) (src : list byte) (n : Z) : M unit := λ w,
  match heap w !! p with
  | None => Crash BadPointer
  | Some b =>
      match blk_state b with
      | Owned =>
          if (n <=? Z.of_nat (length src)) && (off + n <=? Z.of_nat (length (blk_bytes b))) then
            Ok tt (set_heap (<[p := mk_block (take (Z.to_nat off) (blk_bytes b)
                                               ++ take (Z.to_nat n) src
                                               ++ drop (Z.to_nat (off + n)) (blk_bytes b)) Owned]>
                               (heap w)) w)
          else Crash OutOfBounds
      | _ => Crash UseAfterFree
      end
  end.

(** A buffer pointer ([uint8_t*]) passed as payload pointer. *)
Definition heap_ptr (b : option nat) : data_ptr :=
  match b with Some q => DHeap q | None => DNull end.

Definition is_null (d : data_ptr) : bool :=
  match d with DNull => true | _ => false end.

(** The [n] bytes a payload pointer designates in a given state. *)
Definition payload (w : World) (d : data_ptr) (n : Z) : list byte :=
  match d with
  | DNull => []
  | DUser bs => take (Z.to_nat n) bs
  | DHeap p =>
      match heap w !! p with
      | Some b => take (Z.to_nat n) (blk_bytes b)
      | None => []
      end
  end.

(** ** Command hand-off *)

(** Modelled from the spec: [GSM_MSG_VAR_ALLOC] allocates the command
    envelope and makes the calling function return [gsmERRMEM] when the
    allocator refuses (section 4.2, out-of-memory for envelope
    allocation).  The result says whether the envelope exists. *)
Definition GSM_MSG_VAR_ALLOC : M bool := λ w,
  let ok := msg_alloc_ok env (trace w) in
  Ok ok (emit (EvMsgAlloc ok) w).

(** After an accepted free-after-use send the block belongs to the
    executor. *)
Definition hand_over (m : gsm_msg_t) (h : list block) : list block :=
  match msg m with
  | msg_conn_send _ (DHeap p) _ _ _ _ fau _ =>
      if fau =? 0 then h
      else match h !! p with
           | Some b => match blk_state b with
                       | Owned => <[p := mk_block (blk_bytes b) Queued]> h
                       | _ => h
                       end
           | None => h
           end
  | _ => h
  end.

(** Modelled from the spec: [gsmi_send_msg_to_producer_mbox] is the
    [submit] of section 6, defined outside this file.  Its status is the
    environment's; when it accepts a free-after-use send, ownership of
    the payload moves to the executor (section 5). *)
Definition gsmi_send_msg_to_producer_mbox (m : gsm_msg_t) (blocking max_block_time : Z) : M gsmr_t := λ w,
  let r := mbox_result env (trace w) m blocking max_block_time in
  let w1 := emit (EvSubmit m blocking max_block_time (lock w) r) w in
  Ok r (if is_ok r then set_heap (hand_over m (heap w1)) w1 else w1).

(** ** Timeout scheduler and event hook *)

(** Modelled from the spec: [gsm_timeout_add] is the one-shot
    [schedule(interval_ms, callback, argument)] of section 6; the only
    callback this file registers is [conn_timeout_cb]. *)
Definition gsm_timeout_add (time : Z) (arg : gsm_conn_p) : M unit :=
  modify (λ w, emit (EvTimeoutAdd time arg) (set_timeouts (timeouts w ++ [(time, arg)]) w)).

(** Modelled from the spec: [gsmi_send_conn_cb] is the synchronous hook
    [emit(event)] of section 6; it delivers [gsm.evt] to the callback of
    the connection ([evt_fn] is the callback to use instead, [NULL] in
    this file). *)
Definition gsmi_send_conn_cb (conn : gsm_conn_p) (evt_fn : option nat) : M unit :=
  w ← get_world; log (EvConnCb conn (evt w)).

(** Modelled from the spec: [gsmi_is_valid_conn_ptr] (defined outside
    this file) accepts exactly the pointers that address a slot of the
    connection table (section 9, an arena of slots). *)
Definition gsmi_is_valid_conn_ptr (conn : gsm_conn_p) : M bool := λ w,
  Ok (match conn with
      | Some i => bool_decide (i < length (conns w))%nat
      | None => false
      end) w.

(** ** The functions of [gsm_conn.c] *)

(** Each function follows its C text statement by statement.  An early
    [return] is the [then] branch of a conditional whose [else] branch
    is the rest of the function.  [GSM_ASSERT(msg, c)] (from a header of
    the library) makes the function return the parameter error
    [gsmPARERR] when [c] is false. *)

Definition conn_timeout_cb (arg : gsm_conn_p) : M unit :=
  let conn := arg in
  c ← conn_load conn;
  if status_active c then
    modify (set_evt (mk_evt GSM_EVT_CONN_POLL conn));;
    gsmi_send_conn_cb conn None;;
    gsm_timeout_add (GSM_CFG_CONN_POLL_INTERVAL env) conn
  else mret tt.

Definition gsmi_conn_start_timeout (conn : gsm_conn_p) : M unit :=
  gsm_timeout_add (GSM_CFG_CONN_POLL_INTERVAL env) conn.

Definition conn_get_val_id (conn : gsm_conn_p) : M Z :=
  GSM_CORE_PROTECT;;
  c ← conn_load conn;
  w ← get_world;
  match conn with
  | Some i => log (EvReadValId i (val_id c) (lock w))
  | None => mret tt
  end;;
  GSM_CORE_UNPROTECT;;
  mret (val_id c).

(** [bw] is the caller's output cell ([None] when the pointer is
    [NULL]); its content after the call is returned with the status. *)
Definition conn_send (conn : gsm_conn_p) (ip : option Z) (port : Z) (data : data_ptr)
    (btw : Z) (bw : option Z) (fau : Z) (blocking : Z) : M (gsmr_t * option Z) :=
  if is_none conn then mret (gsmPARERR, bw) else
  if is_null data then mret (gsmPARERR, bw) else
  if negb (0 <? btw) then mret (gsmPARERR, bw) else
  w ← get_world;
  log (EvConnSend conn (payload w data btw) fau blocking);;
  let bw' := match bw with Some _ => Some 0 | None => None end in
  ok ← GSM_MSG_VAR_ALLOC;
  if negb ok then mret (gsmERRMEM, bw') else
  v ← conn_get_val_id conn;
  res ← gsmi_send_msg_to_producer_mbox
          (mk_msg GSM_CMD_CIPSEND GSM_CMD_IDLE
                  (msg_conn_send conn data btw (is_some bw) ip port fau v))
          blocking 60000;
  mret (res, bw').

Definition flush_buff (conn : gsm_conn_p) : M gsmr_t :=
  GSM_CORE_PROTECT;;
  res ← match conn with
        | None => mret gsmOK
        | Some _ =>
            c ← conn_load conn;
            match buff_buff c with
            | None => mret gsmOK
            | Some p =>
                res ← (if negb (buff_ptr c =? 0) then
                         '(r, _) ← conn_send conn None 0 (DHeap p) (buff_ptr c) None 1 0;
                         mret r
                       else mret gsmERR);
                (if negb (is_ok res) then
                   c' ← conn_load conn; gsm_mem_free (buff_buff c')
                 else mret tt);;
                conn_update conn (set_buff_buff None);;
                mret res
            end
        end;
  GSM_CORE_UNPROTECT;;
  mret res.

Definition gsm_conn_start (conn_out : bool) (type : gsm_conn_type_t) (host : option (list byte))
    (port : Z) (arg : Z) (evt_fn : option nat) (blocking : Z) : M gsmr_t :=
  match host with
  | None => mret gsmPARERR
  | Some h =>
      if negb (0 <? port) then mret gsmPARERR else
      match evt_fn with
      | None => mret gsmPARERR
      | Some fn =>
          ok ← GSM_MSG_VAR_ALLOC;
          if negb ok then mret gsmERRMEM else
          gsmi_send_msg_to_producer_mbox
            (mk_msg GSM_CMD_CIPSTART GSM_CMD_CIPSTATUS
                    (msg_conn_start (GSM_CFG_MAX_CONNS env) conn_out type h port fn arg))
            blocking 60000
      end
  end.

Definition gsm_conn_close (conn : gsm_conn_p) (blocking : Z) : M gsmr_t :=
  if is_none conn then mret gsmPARERR else
  GSM_CORE_PROTECT;;
  c ← conn_load conn;
  let res := if status_in_closing c || negb (status_active c) then gsmERR else gsmOK in
  GSM_CORE_UNPROTECT;;
  if negb (is_ok res) then mret res else
  ok ← GSM_MSG_VAR_ALLOC;
  if negb ok then mret gsmERRMEM else
  v ← conn_get_val_id conn;
  flush_buff conn;;
  res ← gsmi_send_msg_to_producer_mbox
          (mk_msg GSM_CMD_CIPCLOSE GSM_CMD_IDLE (msg_conn_close conn v)) blocking 1000;
  (if is_ok res && (blocking =? 0) then
     GSM_CORE_PROTECT;;
     conn_update conn (set_in_closing true);;
     GSM_CORE_UNPROTECT
   else mret tt);;
  mret res.

Definition gsm_conn_sendto (conn : gsm_conn_p) (ip : option Z) (port : Z) (data : data_ptr)
    (btw : Z) (bw : option Z) (blocking : Z) : M (gsmr_t * option Z) :=
  if is_none conn then mret (gsmPARERR, bw) else
  flush_buff conn;;
  conn_send conn ip port data btw bw 0 blocking.

Definition gsm_conn_send (conn : gsm_conn_p) (data : option (list byte)) (btw : Z)
    (bw : option Z) (blocking : Z) : M (gsmr_t * option Z) :=
  if is_none conn then mret (gsmPARERR, bw) else
  match data with
  | None => mret (gsmPARERR, bw)
  | Some d =>
      if negb (0 <? btw) then mret (gsmPARERR, bw) else
      GSM_CORE_PROTECT;;
      c ← conn_load conn;
      '(d, btw) ← match buff_buff c with
                  | Some p =>
                      let to_copy := GSM_MIN btw (size_sub (buff_len c) (buff_ptr c)) in
                      if negb (to_copy =? 0) then
                        GSM_MEMCPY p (buff_ptr c) d to_copy;;
                        conn_update conn (set_buff_ptr (size_add (buff_ptr c) to_copy));;
                        mret (drop (Z.to_nat to_copy) d, size_sub btw to_copy)
                      else mret (d, btw)
                  | None => mret (d, btw)
                  end;
      GSM_CORE_UNPROTECT;;
      res ← flush_buff conn;
      if negb (btw =? 0) then conn_send conn None 0 (DUser d) btw bw 0 blocking
      else mret (res, bw)
  end.

Definition gsm_get_conns_status (blocking : Z) : M gsmr_t :=
  ok ← GSM_MSG_VAR_ALLOC;
  if negb ok then mret gsmERRMEM else
  gsmi_send_msg_to_producer_mbox (mk_msg GSM_CMD_CIPSTATUS GSM_CMD_IDLE msg_empty) blocking 1000.

(** The [uint8_t] value of a one-bit flag or of a C truth value. *)
Definition Z_of_bool (b : bool) : Z := if b then 1 else 0.

Definition gsm_conn_is_client (conn : gsm_conn_p) : M Z :=
  if is_none conn then mret 0 else
  valid ← gsmi_is_valid_conn_ptr conn;
  if (valid : bool) then
    GSM_CORE_PROTECT;;
    c ← conn_load conn;
    GSM_CORE_UNPROTECT;;
    mret (Z_of_bool (status_active c && status_client c))
  else mret 0.

Definition gsm_conn_is_server (conn : gsm_conn_p) : M Z :=
  if is_none conn then mret 0 else
  valid ← gsmi_is_valid_conn_ptr conn;
  if (valid : bool) then
    GSM_CORE_PROTECT;;
    c ← conn_load conn;
    GSM_CORE_UNPROTECT;;
    mret (Z_of_bool (status_active c && negb (status_client c)))
  else mret 0.

Definition gsm_conn_is_active (conn : gsm_conn_p) : M Z :=
  if is_none conn then mret 0 else
  valid ← gsmi_is_valid_conn_ptr conn;
  if (valid : bool) then
    GSM_CORE_PROTECT;;
    c ← conn_load conn;
    GSM_CORE_UNPROTECT;;
    mret (Z_of_bool (status_active c))
  else mret 0.

Definition gsm_conn_is_closed (conn : gsm_conn_p) : M Z :=
  if is_none conn then mret 0 else
  valid ← gsmi_is_valid_conn_ptr conn;
  if (valid : bool) then
    GSM_CORE_PROTECT;;
    c ← conn_load conn;
    GSM_CORE_UNPROTECT;;
    mret (Z_of_bool (negb (status_active c)))
  else mret 0.

(** *** [gsm_conn_write], step by step as its comment numbers them *)

(** Step 1.1, the body of its [if]: send the buffer without blocking
    and free-after-use, free it by hand when that fails, reset the
    pointer. *)
Definition write_step1_1 (conn : gsm_conn_p) : M unit :=
  c ← conn_load conn;
  '(r, _) ← conn_send conn None 0 (heap_ptr (buff_buff c)) (buff_ptr c) None 1 0;
  (if negb (is_ok r) then gsm_mem_free (buff_buff c) else mret tt);;
  conn_update conn (set_buff_buff None).

(** Step 1: append to the buffer that is there, then step 1.1 when it
    is full or a flush is asked for.  The result is the advanced data
    pointer and the remaining length. *)
Definition write_step1 (conn : gsm_conn_p) (d : list byte) (btw : Z) (flush : Z)
    : M (list byte * Z) :=
  c ← conn_load conn;
  match buff_buff c with
  | None => mret (d, btw)
  | Some p =>
      let len := GSM_MIN (size_sub (buff_len c) (buff_ptr c)) btw in
      GSM_MEMCPY p (buff_ptr c) d len;;
      let d := drop (Z.to_nat len) d in
      let btw := size_sub btw len in
      conn_update conn (set_buff_ptr (size_add (buff_ptr c) len));;
      c ← conn_load conn;
      (if (buff_ptr c =? buff_len c) || negb (flush =? 0) then write_step1_1 conn
       else mret tt);;
      mret (d, btw)
  end.

(** Step 2: the [while (btw >= GSM_CFG_CONN_MAX_DATA_LEN)] loop.  [inl]
    is the early [return] of the function with that status, [inr] the
    data pointer and remaining length the loop ends with.  The loop
    shortens [btw] by a full chunk per round, so [fuel] rounds are
    enough whenever [fuel] is at least [btw] and the chunk size is
    positive. *)
Fixpoint write_step2 (fuel : nat) (conn : gsm_conn_p) (d : list byte) (btw : Z)
    : M (gsmr_t + list byte * Z) :=
  if btw <? MAX_DATA_LEN then mret (inr (d, btw)) else
  match fuel with
  | O => crash Diverged
  | S fuel' =>
      buff ← gsm_mem_alloc (size_mul 1 MAX_DATA_LEN);
      match buff with
      | Some p =>
          GSM_MEMCPY p 0 d MAX_DATA_LEN;;
          '(r, _) ← conn_send conn None 0 (DHeap p) MAX_DATA_LEN None 1 0;
          if negb (is_ok r) then
            gsm_mem_free (Some p);;
            mret (inl gsmERRMEM)
          else
            write_step2 fuel' conn (drop (Z.to_nat MAX_DATA_LEN) d) (size_sub btw MAX_DATA_LEN)
      | None => mret (inl gsmERRMEM)
      end
  end.

(** Step 3: make sure a buffer is there and copy the rest into it.
    [Some r] is the early [return r]. *)
Definition write_step3 (conn : gsm_conn_p) (d : list byte) (btw : Z) : M (option gsmr_t) :=
  c ← conn_load conn;
  (if is_none (buff_buff c) then
     b ← gsm_mem_alloc (size_mul 1 MAX_DATA_LEN);
     conn_update conn (λ c, set_buff_ptr 0 (set_buff_len MAX_DATA_LEN (set_buff_buff b c)))
   else mret tt);;
  if negb (btw =? 0) then
    c ← conn_load conn;
    match buff_buff c with
    | Some p =>
        GSM_MEMCPY p 0 d btw;;
        conn_update conn (set_buff_ptr btw);;
        mret None
    | None => mret (Some gsmERRMEM)
    end
  else mret None.

(** Step 4 and the report through [mem_available] ([None] when that
    pointer is [NULL], else the content of the caller's cell). *)
Definition write_step4 (conn : gsm_conn_p) (flush : Z) (mem_available : option Z)
    : M (gsmr_t * option Z) :=
  c ← conn_load conn;
  (if negb (flush =? 0) && is_some (buff_buff c) then
     flush_buff conn;; mret tt
   else mret tt);;
  c ← conn_load conn;
  let mem_available :=
    match mem_available with
    | Some _ =>
        match buff_buff c with
        | Some _ => Some (size_sub (buff_len c) (buff_ptr c))
        | None => Some 0
        end
    | None => None
    end in
  mret (gsmOK, mem_available).

Definition gsm_conn_write (conn : gsm_conn_p) (data : list byte) (btw : Z) (flush : Z)
    (mem_available : option Z) : M (gsmr_t * option Z) :=
  if is_none conn then mret (gsmPARERR, mem_available) else
  '(d, btw) ← write_step1 conn data btw flush;
  r2 ← write_step2 (Z.to_nat btw) conn d btw;
  match r2 with
  | inl r => mret (r, mem_available)
  | inr (d, btw) =>
      r3 ← write_step3 conn d btw;
      match r3 with
      | Some r => mret (r, mem_available)
      | None => write_step4 conn flush mem_available
      end
  end.

End Model.

(** Modelled from the spec: the scheduler of section 6 is one-shot.
    The oldest pending timer fires: the scheduler drops it and runs its
    callback; recurring behaviour exists only through re-scheduling
    from within the callback. *)
Definition gsm_timeout_fire (env : Env) : M unit := λ w,
  match timeouts w with
  | [] => Ok tt w
  | (_, arg) :: rest => conn_timeout_cb env arg (set_timeouts rest w)
  end.

(** The scheduler lets [n] timers fire, one after the other. *)
Fixpoint gsm_timeout_fires (env : Env) (n : nat) : M unit :=
  match n with
  | O => mret tt
  | S n' => gsm_timeout_fire env;; gsm_timeout_fires env n'
  end.

(** ** The remaining accessors *)

(** [int8_t res = conn->num]: the slot number, an unsigned byte, read
    as a signed one. *)
Definition int8_of (z : Z) : Z := (z + 128) mod 256 - 128.

Definition gsm_conn_getnum (conn : gsm_conn_p) : M Z :=
  if is_none conn then mret (-1) else
  valid ← gsmi_is_valid_conn_ptr conn;
  if (valid : bool) then
    c ← conn_load conn;
    mret (int8_of (num c))
  else mret (-1).

(** Modelled from the spec: an event of a connection kind is directed
    at a connection (the poll event of section 4.4, the events of the
    hook of section 6); the accessors [gsm_evt_conn_*_get_conn], which
    are defined with the events outside this file, give that one. *)
Definition gsm_evt_conn_active_get_conn (e : gsm_evt_t) : gsm_conn_p := evt_conn e.
Definition gsm_evt_conn_closed_get_conn (e : gsm_evt_t) : gsm_conn_p := evt_conn e.
Definition gsm_evt_conn_data_recv_get_conn (e : gsm_evt_t) : gsm_conn_p := evt_conn e.
Definition gsm_evt_conn_data_send_get_conn (e : gsm_evt_t) : gsm_conn_p := evt_conn e.
Definition gsm_evt_conn_poll_get_conn (e : gsm_evt_t) : gsm_conn_p := evt_conn e.

(** The event is only read; it is passed by value. *)
Definition gsm_conn_get_from_evt (e : gsm_evt_t) : gsm_conn_p :=
  match evt_type e with
  | GSM_EVT_CONN_ACTIVE => gsm_evt_conn_active_get_conn e
  | GSM_EVT_CONN_CLOSED => gsm_evt_conn_closed_get_conn e
  | GSM_EVT_CONN_DATA_RECV => gsm_evt_conn_data_recv_get_conn e
  | GSM_EVT_CONN_DATA_SEND => gsm_evt_conn_data_send_get_conn e
  | GSM_EVT_CONN_POLL => gsm_evt_conn_poll_get_conn e
  | _ => None
  end.

(** ** User argument, end points and the receive counter *)

(** The fields of [gsm_conn_t] that only the accessors below touch,
    kept slot by slot in a table of their own beside [gsm.m.conns]: the
    user argument (a [void*]), the end points and, for manual TCP
    receive, the bytes not yet acknowledged. *)
Record gsm_conn_info_t := mk_info {
  arg : Z;
  remote_ip : list byte;
  remote_port : Z;
  local_port : Z;
  tcp_available_data : Z
}.

Definition set_arg (a : Z) (x : gsm_conn_info_t) : gsm_conn_info_t :=
  mk_info a (remote_ip x) (remote_port x) (local_port x) (tcp_available_data x).
Definition set_tcp_available_data (n : Z) (x : gsm_conn_info_t) : gsm_conn_info_t :=
  mk_info (arg x) (remote_ip x) (remote_port x) (local_port x) n.

Definition info_load (conn : gsm_conn_p) (ci : list gsm_conn_info_t) : M gsm_conn_info_t := λ w,
  match conn with
  | None => Crash NullDeref
  | Some i =>
      match ci !! i with
      | Some x => Ok x w
      | None => Crash BadPointer
      end
  end.

Definition info_update (conn : gsm_conn_p) (f : gsm_conn_info_t → gsm_conn_info_t)
    (ci : list gsm_conn_info_t) : M (list gsm_conn_info_t) := λ w,
  match conn with
  | None => Crash NullDeref
  | Some i =>
      match ci !! i with
      | Some x => Ok (<[i := f x]> ci) w
      | None => Crash BadPointer
      end
  end.

(** Each accessor takes the table and, when it writes, returns the
    new one with its result. *)
Definition gsm_conn_set_arg (conn : gsm_conn_p) (a : Z) (ci : list gsm_conn_info_t)
    : M (gsmr_t * list gsm_conn_info_t) :=
  GSM_CORE_PROTECT;;
  ci' ← info_update conn (set_arg a) ci;
  GSM_CORE_UNPROTECT;;
  mret (gsmOK, ci').

Definition gsm_conn_get_arg (conn : gsm_conn_p) (ci : list gsm_conn_info_t) : M Z :=
  GSM_CORE_PROTECT;;
  x ← info_load conn ci;
  GSM_CORE_UNPROTECT;;
  mret (arg x).

(** [ip] is the caller's output cell, [None] when the pointer is
    [NULL]; its content after the call is returned with the result. *)
Definition gsm_conn_get_remote_ip (conn : gsm_conn_p) (ip : option (list byte))
    (ci : list gsm_conn_info_t) : M (Z * option (list byte)) :=
  if is_some conn && is_some ip then
    GSM_CORE_PROTECT;;
    x ← info_load conn ci;
    GSM_CORE_UNPROTECT;;
    mret (1, Some (remote_ip x))
  else mret (0, ip).

Definition gsm_conn_get_remote_port (conn : gsm_conn_p) (ci : list gsm_conn_info_t) : M Z :=
  if is_some conn then
    GSM_CORE_PROTECT;;
    x ← info_load conn ci;
    GSM_CORE_UNPROTECT;;
    mret (remote_port x)
  else mret 0.

Definition gsm_conn_get_local_port (conn : gsm_conn_p) (ci : list gsm_conn_info_t) : M Z :=
  if is_some conn then
    GSM_CORE_PROTECT;;
    x ← info_load conn ci;
    GSM_CORE_UNPROTECT;;
    mret (local_port x)
  else mret 0.

(** [manual] is the configuration switch
    [GSM_CFG_CONN_MANUAL_TCP_RECEIVE], [len] the length that
    [gsm_pbuf_length(pbuf, 1)] reports for the packet buffer.  The C
    text then tests the counter once more, with an empty body. *)
Definition gsm_conn_recved (env : Env) (manual : bool) (conn : gsm_conn_p) (len : Z)
    (ci : list gsm_conn_info_t) : M (gsmr_t * list gsm_conn_info_t) :=
  if manual then
    x ← info_load conn ci;
    if len <? tcp_available_data x then
      ci' ← info_update conn
              (set_tcp_available_data (size_sub env (tcp_available_data x) len)) ci;
      mret (gsmOK, ci')
    else mret (gsmOK, ci)
  else mret (gsmOK, ci).

(** * What the properties speak of *)

(** The bytes an action hands to the dispatcher, and the bytes a
    (newest first) trace handed to it, oldest first. *)
Definition handed_by (e : event) : list byte :=
  match e with EvConnSend _ bs _ _ => bs | _ => [] end.

Fixpoint handed (tr : list event) : list byte :=
  match tr with
  | [] => []
  | e :: tr' => handed tr' ++ handed_by e
  end.

(** The dispatcher calls of a trace, oldest first: payload,
    free-after-use flag, blocking flag. *)
Fixpoint dispatches (tr : list event) : list (list byte * Z * Z) :=
  match tr with
  | [] => []
  | EvConnSend _ bs fau blocking :: tr' => dispatches tr' ++ [(bs, fau, blocking)]
  | _ :: tr' => dispatches tr'
  end.

(** Did a buffer allocation of the trace fail? *)
Definition alloc_failed (e : event) : bool :=
  match e with EvAlloc _ None => true | _ => false end.

(** The blocks a trace freed, oldest first. *)
Fixpoint frees (tr : list event) : list nat :=
  match tr with
  | [] => []
  | EvFree p :: tr' => frees tr' ++ [p]
  | _ :: tr' => frees tr'
  end.

(** The commands of kind [k] a trace submitted to the producer mailbox. *)
Definition submitted (k : gsm_cmd_t) (e : event) : bool :=
  match e with
  | EvSubmit m _ _ _ _ => bool_decide (cmd_def m = k)
  | _ => false
  end.

(** How many close commands a trace submitted. *)
Definition close_commands (tr : list event) : nat :=
  length (List.filter (submitted GSM_CMD_CIPCLOSE) tr).

(** The bytes staged in the write buffer of connection [i]. *)
Definition staged (w : World) (i : nat) : list byte :=
  match conns w !! i with
  | Some c =>
      match buff_buff c with
      | Some p =>
          match heap w !! p with
          | Some b => take (Z.to_nat (buff_ptr c)) (blk_bytes b)
          | None => []
          end
      | None => []
      end
  | None => []
  end.

Section Observations.

Variable env : Env.

(** The configuration is sensible: a chunk has a positive size that a
    [size_t] can hold. *)
Definition env_wf : Prop :=
  0 < GSM_CFG_CONN_MAX_DATA_LEN env < size_mod env.

(** The environment never refuses: every allocation is served and the
    producer mailbox accepts every command. *)
Definition env_serves : Prop :=
  (∀ tr sz, mem_alloc_ok env tr sz = true)
  ∧ (∀ tr, msg_alloc_ok env tr = true)
  ∧ (∀ tr m b t, mbox_result env tr m b t = gsmOK).

(** The write buffer of a connection is sound: its block is live and
    owned by this layer, has the recorded capacity, and the used length
    does not exceed it. *)
Definition buff_wf (w : World) (c : gsm_conn_t) : Prop :=
  match buff_buff c with
  | None => True
  | Some p =>
      ∃ b, heap w !! p = Some b
           ∧ blk_state b = Owned
           ∧ Z.of_nat (length (blk_bytes b)) = buff_len c
           ∧ 0 ≤ buff_ptr c ≤ buff_len c
           ∧ buff_len c < size_mod env
  end.

(** The envelope [conn_send] fills in for a send command. *)
Definition conn_send_msg (conn : gsm_conn_p) (ip : option Z) (port : Z) (data : data_ptr)
    (btw : Z) (bw : option Z) (fau v : Z) : gsm_msg_t :=
  mk_msg GSM_CMD_CIPSEND GSM_CMD_IDLE
         (msg_conn_send conn data btw (is_some bw) ip port fau v).

(** [conn_send] zeroes the written-bytes cell when one is given. *)
Definition bw_reset (bw : option Z) : option Z :=
  match bw with Some _ => Some 0 | None => None end.

(** The fields of a connection the write path never touches. *)
Definition same_static (c c' : gsm_conn_t) : Prop :=
  num c' = num c ∧ val_id c' = val_id c ∧ status_active c' = status_active c
  ∧ status_client c' = status_client c ∧ status_in_closing c' = status_in_closing c.

(** The parts of the state the write path never touches. *)
Definition same_core (w w' : World) : Prop :=
  lock w' = lock w ∧ evt w' = evt w ∧ timeouts w' = timeouts w.

(** What step 1.1 and [flush_buff] have in common: the buffer [p] of
    connection [i] leaves the connection, its used bytes [bs] went to
    the dispatcher when there were any, and its block is either the
    executor's or freed. *)
Definition cleared (i : nat) (c : gsm_conn_t) (p : nat) (b : block)
    (w w' : World) (new : list event) : Prop :=
  conns w' = <[i := set_buff_buff None c]> (conns w)
  ∧ same_core w w'
  ∧ trace w' = new ++ trace w
  ∧ handed new = take (Z.to_nat (buff_ptr c)) (blk_bytes b)
  ∧ existsb alloc_failed new = false
  ∧ close_commands new = 0%nat
  ∧ ∃ st, heap w' = <[p := mk_block (blk_bytes b) st]> (heap w).

(** What [*mem_available] holds after the report: the free room of the
    buffer of [c], 0 without a buffer; nothing when the pointer is
    [NULL]. *)
Definition reported (mem_available : option Z) (c : gsm_conn_t) : option Z :=
  match mem_available with
  | Some _ =>
      match buff_buff c with
      | Some _ => Some (buff_len c - buff_ptr c)
      | None => Some 0
      end
  | None => None
  end.

(** The chunks a trace handed to the dispatcher, oldest first. *)
Definition chunks (tr : list event) : list (list byte) :=
  map (λ x, x.1.1) (dispatches tr).

(** The envelope [gsm_conn_close] fills in. *)
Definition close_msg (i : nat) (c : gsm_conn_t) : gsm_msg_t :=
  mk_msg GSM_CMD_CIPCLOSE GSM_CMD_IDLE (msg_conn_close (Some i) (val_id c)).

(** The validation ids of the connection table, by slot. *)
Definition vals (w : World) : list Z := val_id <$> conns w.

(** A send or close envelope names a connection and carries its
    validation id. *)
Definition msg_val_ok (vs : list Z) (m : gsm_msg_t) : Prop :=
  match cmd_def m, msg m with
  | GSM_CMD_CIPSEND, msg_conn_send (Some i) _ _ _ _ _ _ v => vs !! i = Some v
  | GSM_CMD_CIPSEND, _ => False
  | GSM_CMD_CIPCLOSE, msg_conn_close (Some i) v => vs !! i = Some v
  | GSM_CMD_CIPCLOSE, _ => False
  | _, _ => True
  end.

(** The actions of one dispatcher call entered at lock depth [d] with
    blocking flag [b]. *)
Definition ev_sent (vs : list Z) (d : nat) (b : Z) (e : event) : Prop :=
  match e with
  | EvSubmit m b' _ d' _ => d' = d ∧ b' = b ∧ msg_val_ok vs m
  | EvReadValId i v d' => d' = S d ∧ vs !! i = Some v
  | _ => True
  end.

(** The actions of one operation entered at lock depth [d0]: the
    validation id is read inside a critical section, and a submission
    happens outside every critical section of the operation or, without
    blocking, inside the one of [flush_buff]. *)
Definition ev_good (vs : list Z) (d0 : nat) (e : event) : Prop :=
  match e with
  | EvSubmit m b _ d _ => (d = d0 ∨ (d = S d0 ∧ b = 0)) ∧ msg_val_ok vs m
  | EvReadValId i v d => (d0 < d)%nat ∧ vs !! i = Some v
  | _ => True
  end.

(** The state [w'] follows [w]: same lock depth, same validation ids,
    and a trace grown by actions that satisfy [P]. *)
Definition extends (P : event → Prop) (w w' : World) : Prop :=
  lock w' = lock w ∧ vals w' = vals w
  ∧ ∃ new, trace w' = new ++ trace w ∧ Forall P new.

(** A trace that grew from [tr] by good actions only. *)
Definition grown (P : event → Prop) (tr l : list event) : Prop :=
  ∃ new, l = new ++ tr ∧ Forall P new.

(** The operations of the file that reach the producer mailbox. *)
Inductive api_call :=
| call_conn_send (conn : gsm_conn_p) (ip : option Z) (port : Z) (data : data_ptr)
                 (btw : Z) (bw : option Z) (fau blocking : Z)
| call_flush_buff (conn : gsm_conn_p)
| call_start (conn_out : bool) (type : gsm_conn_type_t) (host : option (list byte))
             (port arg : Z) (evt_fn : option nat) (blocking : Z)
| call_close (conn : gsm_conn_p) (blocking : Z)
| call_sendto (conn : gsm_conn_p) (ip : option Z) (port : Z) (data : data_ptr)
              (btw : Z) (bw : option Z) (blocking : Z)
| call_send (conn : gsm_conn_p) (data : option (list byte)) (btw : Z) (bw : option Z)
            (blocking : Z)
| call_get_conns_status (blocking : Z)
| call_write (conn : gsm_conn_p) (data : list byte) (btw flush : Z) (mem : option Z).

(** Running one of them, result dropped. *)
Definition run_call (k : api_call) : M unit :=
  match k with
  | call_conn_send conn ip port data btw bw fau blocking =>
      conn_send env conn ip port data btw bw fau blocking;; mret tt
  | call_flush_buff conn => flush_buff env conn;; mret tt
  | call_start conn_out type host port arg evt_fn blocking =>
      gsm_conn_start env conn_out type host port arg evt_fn blocking;; mret tt
  | call_close conn blocking => gsm_conn_close env conn blocking;; mret tt
  | call_sendto conn ip port data btw bw blocking =>
      gsm_conn_sendto env conn ip port data btw bw blocking;; mret tt
  | call_send conn data btw bw blocking =>
      gsm_conn_send env conn data btw bw blocking;; mret tt
  | call_get_conns_status blocking => gsm_get_conns_status env blocking;; mret tt
  | call_write conn data btw flush mem =>
      gsm_conn_write env conn data btw flush mem;; mret tt
  end.

(** A submitted send or close command carries the validation id of its
    connection, and that id was read with the core lock held (deeper
    than the depth [d0] the operation was entered at). *)
Definition carries_val_id (vs : list Z) (d0 : nat) (e : event) : Prop :=
  match e with
  | EvSubmit m _ _ _ _ => msg_val_ok vs m
  | EvReadValId i v d => (d0 < d)%nat ∧ vs !! i = Some v
  | _ => True
  end.


End Observations.

(** ** Poll events *)

(** The poll events a trace delivered to connection callbacks. *)
Definition is_poll (e : event) : bool :=
  match e with
  | EvConnCb _ (mk_evt GSM_EVT_CONN_POLL _) => true
  | _ => false
  end.

Definition polls (tr : list event) : nat := length (List.filter is_poll tr).

(** ** What a flush does *)

(** The dispatcher call a flush of connection [i] makes: the staged
    bytes, to be freed after use, without blocking; none when nothing
    is staged. *)
Definition flush_of (w : World) (i : nat) : list (list byte * Z * Z) :=
  match staged w i with
  | [] => []
  | s => [(s, 1, 0)]
  end.

(** The buffer of [c] has left this layer between heap [h] and heap
    [h']: its block went to the executor or was freed; nothing else
    changed. *)
Definition released (c : gsm_conn_t) (h h' : list block) : Prop :=
  match buff_buff c with
  | Some p =>
      ∃ b st, h !! p = Some b ∧ st ≠ Owned ∧ h' = <[p := mk_block (blk_bytes b) st]> h
  | None => h' = h
  end.

(** ** A sound state *)

(** A buffer at rest has the capacity of one chunk and room left: the
    write path sends a buffer as soon as it is full. *)
Definition buff_at_rest (env : Env) (c : gsm_conn_t) : Prop :=
  match buff_buff c with
  | Some _ => buff_len c = GSM_CFG_CONN_MAX_DATA_LEN env ∧ buff_ptr c < buff_len c
  | None => True
  end.

(** The state between two calls of the API: every write buffer is
    sound and at rest, no two connections share a buffer, and every
    block this layer still owns is the buffer of a connection. *)
Definition world_wf (env : Env) (w : World) : Prop :=
  (∀ i c, conns w !! i = Some c → buff_wf env w c ∧ buff_at_rest env c)
  ∧ (∀ i j c c' p, conns w !! i = Some c → conns w !! j = Some c' →
       buff_buff c = Some p → buff_buff c' = Some p → i = j)
  ∧ (∀ p b, heap w !! p = Some b → blk_state b = Owned →
       ∃ i c, conns w !! i = Some c ∧ buff_buff c = Some p).

(** A handle is [NULL] or points to a slot of a table of [n] slots. *)
Definition handle_ok (n : nat) (conn : gsm_conn_p) : Prop :=
  match conn with
  | Some i => (i < n)%nat
  | None => True
  end.

(** What a caller owes an operation: a handle that is [NULL] or valid,
    and a length that is the length of the data.  The dispatcher
    [conn_send] is not part of the API; called directly it must not be
    asked to free after use. *)
Definition call_ok (env : Env) (n : nat) (k : api_call) : Prop :=
  match k with
  | call_conn_send conn _ _ _ _ _ fau _ => handle_ok n conn ∧ fau = 0
  | call_flush_buff conn => handle_ok n conn
  | call_start _ _ _ _ _ _ _ => True
  | call_close conn _ => handle_ok n conn
  | call_sendto conn _ _ _ _ _ _ => handle_ok n conn
  | call_send conn data btw _ _ =>
      handle_ok n conn
      ∧ ∀ d, data = Some d → btw = Z.of_nat (length d) ∧ btw < size_mod env
  | call_get_conns_status _ => True
  | call_write conn data btw _ _ =>
      handle_ok n conn ∧ btw = Z.of_nat (length data) ∧ btw < size_mod env
  end.

(** One call after the other. *)
Fixpoint run_calls (env : Env) (ks : list api_call) : M unit :=
  match ks with
  | [] => mret tt
  | k :: ks' => run_call env k;; run_calls env ks'
  end.

(** A dispatcher call as [gsm_conn_write] makes them: free after use,
    not blocking, and a full chunk unless a flush was asked for. *)
Definition write_dispatch (env : Env) (flush : Z) (x : list byte * Z * Z) : Prop :=
  x.1.2 = 1 ∧ x.2 = 0
  ∧ (flush = 0 → Z.of_nat (length x.1.1) = GSM_CFG_CONN_MAX_DATA_LEN env).

(** ** Envelopes and submissions *)

(** The command envelopes a trace allocated, and the commands it
    submitted to the producer mailbox. *)
Definition is_envelope (e : event) : bool :=
  match e with EvMsgAlloc true => true | _ => false end.

Definition is_submit (e : event) : bool :=
  match e with EvSubmit _ _ _ _ _ => true | _ => false end.

Definition envelopes (tr : list event) : nat := length (List.filter is_envelope tr).

Definition submissions (tr : list event) : nat := length (List.filter is_submit tr).

(** Between two states as many envelopes were allocated as commands
    were submitted. *)
Definition level (w w' : World) : Prop :=
  (submissions (trace w') + envelopes (trace w)
   = submissions (trace w) + envelopes (trace w'))%nat.

(** ** Where an envelope has its validation id from *)

(** An action nested in the core lock more deeply than an operation
    that submits at depth [d] and reads at depth [S d]. *)
Definition deeper (d : nat) (e : event) : Prop :=
  match e with
  | EvSubmit _ _ _ d' _ => (d < d')%nat
  | EvReadValId _ _ d' => (S d < d')%nat
  | _ => True
  end.

(** The actions [before] a submission at lock depth [d] (newest first)
    show where the validation id in its envelope comes from.  For a
    send command the last three actions are the entry into the
    dispatcher for that connection, with the flags of the command, the
    allocation of the envelope, and the read of the id from that
    connection one level deeper in the core lock than the submission,
    that is with the lock held.  For a close command they are the
    allocation of the envelope and that read, followed only by actions
    nested more deeply (the flush).  The other commands carry no id. *)
Definition id_read_for (m : gsm_msg_t) (blocking : Z) (d : nat) (before : list event) : Prop :=
  match msg m with
  | msg_conn_send conn _ _ _ _ _ fau v =>
      ∃ i bs rest,
        conn = Some i
        ∧ before = EvReadValId i v (S d) :: EvMsgAlloc true
                     :: EvConnSend (Some i) bs fau blocking :: rest
  | msg_conn_close conn v =>
      ∃ i fl rest,
        conn = Some i
        ∧ before = fl ++ EvReadValId i v (S d) :: EvMsgAlloc true :: rest
        ∧ Forall (deeper d) fl
  | _ => True
  end.

(** Every submission of a (newest first) trace has the id of its
    envelope from a read under the lock, made for it. *)
Fixpoint ids_read (tr : list event) : Prop :=
  match tr with
  | [] => True
  | e :: before =>
      match e with
      | EvSubmit m blocking _ d _ => id_read_for m blocking d before
      | _ => True
      end
      ∧ ids_read before
  end.

(** A trace [l] that grew from [tr] by such actions. *)
Definition grown_read (tr l : list event) : Prop :=
  ∃ new, l = new ++ tr ∧ ids_read new.

(** * Concrete runs *)

(** An environment with chunks of four bytes that never refuses, and
    one whose allocator always refuses. *)
Definition env_ok : Env :=
  mk_env 4 500 6 32 (λ _ _, true) (λ _, true) (λ _ _ _ _, gsmOK).
Definition env_no_mem : Env :=
  mk_env 4 500 6 32 (λ _ _, false) (λ _, true) (λ _ _ _ _, gsmOK).

(** A table of one active connection: without buffer, and with a
    buffer of four bytes that stages one byte. *)
Definition conn_idle : gsm_conn_t := mk_conn 0 7 true true false None 0 0.
Definition w_idle : World :=
  mk_world [conn_idle] (mk_evt GSM_EVT_NONE None) [] 0 [] [].

Definition conn_staged : gsm_conn_t := mk_conn 0 7 true true false (Some 0%nat) 4 1.
Definition w_staged : World :=
  mk_world [conn_staged] (mk_evt GSM_EVT_NONE None)
           [mk_block [x01; x00; x00; x00] Owned] 0 [] [].

(** The state [flush_buff] leaves [w_staged] in. *)
Definition w_staged_flushed : World :=
  Eval vm_compute in
    match run_call env_ok (call_flush_buff (Some 0%nat)) w_staged with
    | Ok _ w' => w'
    | Crash _ => w_staged
    end.

(** The fields the accessors touch, for the one connection of the
    table, and three calls in a row. *)
Definition info_one : gsm_conn_info_t := mk_info 5 [x0a; x00; x00; x01] 80 1024 3.
Definition ci_one : list gsm_conn_info_t := [info_one].

Definition three_calls : list api_call :=
  [call_write (Some 0%nat) [x02; x03; x04; x05] 4 0 None;
   call_send (Some 0%nat) (Some [x06]) 1 None 0;
   call_close (Some 0%nat) 0].

(** ** The properties as the specification words them, where the code differs *)

(** The byte count of a write as the specification words it: the
    chunks handed to the dispatcher and the bytes left staged add up to
    the input alone. *)
Definition write_total_as_stated (env : Env) (i : nat) (data : list byte) (flush : Z)
    (mem : option Z) (w : World) : Prop :=
  ∀ r m w' new,
    gsm_conn_write env (Some i) data (Z.of_nat (length data)) flush mem w = Ok (r, m) w' →
    trace w' = new ++ trace w →
    r = gsmOK →
    concat (chunks new) ++ staged w' i = data
    ∧ (length (concat (chunks new)) + length (staged w' i))%nat = length data.

(** The report of a write as the specification words it: after every
    return the cell holds the free room of the buffer, or 0 without
    buffer. *)
Definition write_reports_as_stated (env : Env) (i : nat) (data : list byte) (flush v0 : Z)
    (w : World) : Prop :=
  ∀ r m w' c',
    gsm_conn_write env (Some i) data (Z.of_nat (length data)) flush (Some v0) w = Ok (r, m) w' →
    conns w' !! i = Some c' →
    m = Some (match buff_buff c' with
              | Some _ => buff_len c' - buff_ptr c'
              | None => 0
              end).



(** * Properties *)

(** ** Running the monad *)

Lemma bind_Ok {A B} (m : M A) (f : A → M B) (w w' : World) (b : B) :
  (m ≫= f) w = Ok b w' → ∃ a w1, m w = Ok a w1 ∧ f a w1 = Ok b w'.
Proof.
  unfold mbind, M_bind. destruct (m w) as [a w1|e]; [eauto|discriminate].
Qed.

Lemma bind_run {A B} (m : M A) (f : A → M B) (w w1 : World) (a : A) :
  m w = Ok a w1 → (m ≫= f) w = f a w1.
Proof. unfold mbind, M_bind. intros ->. reflexivity. Qed.

Lemma ret_Ok {A} (a b : A) (w w' : World) : (mret a : M A) w = Ok b w' → a = b ∧ w = w'.
Proof. unfold mret, M_ret. intros [= -> ->]. auto. Qed.

(** ** Activity and closure accessors *)

(** C10.  [gsm_conn_is_active] and [gsm_conn_is_closed] never fail and
    leave the core as it was.  For a pointer that addresses a slot,
    closed is 1 exactly when active is 0, and a connection flagged
    active (in closing state or not) reports active 1 and closed 0.
    For [NULL] and for a pointer outside the table both return 0. *)
Theorem is_closed_complements_is_active (conn : gsm_conn_p) (w : World) :
  ∃ a c : Z,
    gsm_conn_is_active conn w = Ok a w
    ∧ gsm_conn_is_closed conn w = Ok c w
    ∧ match conn with
      | None => a = 0 ∧ c = 0
      | Some i =>
          match conns w !! i with
          | None => a = 0 ∧ c = 0
          | Some cn =>
              a = Z_of_bool (status_active cn)
              ∧ (c = 1 ↔ a = 0)
              ∧ (status_active cn = true → a = 1 ∧ c = 0)
              ∧ (status_in_closing cn = true → status_active cn = true → a = 1 ∧ c = 0)
          end
      end.
Proof.
  destruct w as [cs ev hp lk ts tr].
  destruct conn as [i|].
  - destruct (cs !! i) as [cn|] eqn:Hi.
    + assert (Hlt : (i < length cs)%nat) by (eapply lookup_lt_Some; eauto).
      exists (Z_of_bool (status_active cn)), (Z_of_bool (negb (status_active cn))).
      unfold gsm_conn_is_active, gsm_conn_is_closed, gsmi_is_valid_conn_ptr,
        GSM_CORE_PROTECT, GSM_CORE_UNPROTECT, conn_load, modify, mbind, M_bind, mret, M_ret.
      cbn [conns lock set_lock evt heap timeouts trace is_none].
      rewrite (bool_decide_eq_true_2 _ Hlt). cbn. rewrite Hi. cbn.
      repeat split; try reflexivity; destruct (status_active cn); cbn; intros; try lia; try discriminate.
    + assert (Hge : ¬ (i < length cs)%nat) by (apply lookup_ge_None in Hi; lia).
      exists 0, 0.
      unfold gsm_conn_is_active, gsm_conn_is_closed, gsmi_is_valid_conn_ptr,
        GSM_CORE_PROTECT, GSM_CORE_UNPROTECT, conn_load, modify, mbind, M_bind, mret, M_ret.
      cbn [conns lock set_lock evt heap timeouts trace is_none].
      rewrite (bool_decide_eq_false_2 _ Hge). cbn. rewrite Hi. auto.
  - exists 0, 0. cbn. auto.
Qed.

(** ** Symbolic execution *)

Ltac mcbv :=
  cbv beta iota zeta delta
    [mbind M_bind mret M_ret get_world log modify crash emit
     set_conns set_evt set_heap set_lock set_timeouts
     conns evt heap lock timeouts trace
     is_none is_some is_ok negb andb orb fst snd
     GSM_CORE_PROTECT GSM_CORE_UNPROTECT conn_load conn_update
     GSM_MSG_VAR_ALLOC gsmi_send_msg_to_producer_mbox gsmi_send_conn_cb
     gsm_timeout_add gsm_mem_alloc gsm_mem_free GSM_MEMCPY
     conn_get_val_id heap_ptr is_null].

Tactic Notation "mcbv" "in" hyp(H) :=
  cbv beta iota zeta delta
    [mbind M_bind mret M_ret get_world log modify crash emit
     set_conns set_evt set_heap set_lock set_timeouts
     conns evt heap lock timeouts trace
     is_none is_some is_ok negb andb orb fst snd
     GSM_CORE_PROTECT GSM_CORE_UNPROTECT conn_load conn_update
     GSM_MSG_VAR_ALLOC gsmi_send_msg_to_producer_mbox gsmi_send_conn_cb
     gsm_timeout_add gsm_mem_alloc gsm_mem_free GSM_MEMCPY
     conn_get_val_id heap_ptr is_null] in H.

(** ** Traces *)

Lemma handed_app (new old : list event) : handed (new ++ old) = handed old ++ handed new.
Proof.
  induction new as [|e new IH]; cbn.
  - by rewrite app_nil_r.
  - by rewrite IH, app_assoc.
Qed.

Section Specs.

Variable env : Env.

Lemma size_sub_small (a b : Z) : 0 ≤ b ≤ a → a < size_mod env → size_sub env a b = a - b.
Proof. intros. unfold size_sub, size_wrap. apply Z.mod_small. lia. Qed.

Lemma size_add_small (a b : Z) : 0 ≤ a → 0 ≤ b → a + b < size_mod env → size_add env a b = a + b.
Proof. intros. unfold size_add, size_wrap. apply Z.mod_small. lia. Qed.

Lemma size_mul_max : env_wf env → size_mul env 1 (MAX_DATA_LEN env) = GSM_CFG_CONN_MAX_DATA_LEN env.
Proof.
  intros H. unfold size_mul, size_wrap, MAX_DATA_LEN, env_wf in *.
  rewrite Z.mul_1_l. apply Z.mod_small. lia.
Qed.

(** *** The dispatcher *)

Lemma conn_send_eq (i : nat) (c : gsm_conn_t) ip port data btw bw fau blocking (w : World) :
  conns w !! i = Some c → is_null data = false → 0 < btw →
  conn_send env (Some i) ip port data btw bw fau blocking w =
    let e1 := EvConnSend (Some i) (payload w data btw) fau blocking in
    if msg_alloc_ok env (e1 :: trace w) then
      let m := conn_send_msg (Some i) ip port data btw bw fau (val_id c) in
      let tr3 := EvReadValId i (val_id c) (S (lock w)) :: EvMsgAlloc true :: e1 :: trace w in
      let r := mbox_result env tr3 m blocking 60000 in
      Ok (r, bw_reset bw)
         (mk_world (conns w) (evt w)
                   (if is_ok r then hand_over m (heap w) else heap w)
                   (lock w) (timeouts w)
                   (EvSubmit m blocking 60000 (lock w) r :: tr3))
    else
      Ok (gsmERRMEM, bw_reset bw)
         (mk_world (conns w) (evt w) (heap w) (lock w) (timeouts w)
                   (EvMsgAlloc false :: e1 :: trace w)).
Proof.
  intros Hi Hd Hb. destruct w as [cs ev hp lk ts tr]. cbn in Hi.
  apply Z.ltb_lt in Hb.
  unfold conn_send. rewrite Hd, Hb. mcbv.
  destruct (msg_alloc_ok env _) eqn:Hok; [|reflexivity].
  mcbv. rewrite Hi. mcbv.
  unfold conn_send_msg, bw_reset.
  destruct (mbox_result env _ _ _ _); reflexivity.
Qed.

Lemma conn_send_nothing conn ip port data btw bw fau blocking (w : World) :
  btw ≤ 0 →
  conn_send env conn ip port data btw bw fau blocking w = Ok (gsmPARERR, bw) w.
Proof.
  intros Hb. apply Z.ltb_ge in Hb. unfold conn_send. rewrite Hb.
  destruct conn, data; reflexivity.
Qed.

(** *** Flushing the write buffer *)

Lemma flush_buff_eq (i : nat) (c : gsm_conn_t) (p : nat) (b : block) (w : World) :
  conns w !! i = Some c → buff_buff c = Some p →
  heap w !! p = Some b → blk_state b = Owned → 0 ≤ buff_ptr c →
  flush_buff env (Some i) w =
    let cs' := <[i := set_buff_buff None c]> (conns w) in
    let freed := <[p := mk_block (blk_bytes b) Freed]> (heap w) in
    if buff_ptr c =? 0 then
      Ok gsmERR (mk_world cs' (evt w) freed (lock w) (timeouts w) (EvFree p :: trace w))
    else
      let e1 := EvConnSend (Some i) (take (Z.to_nat (buff_ptr c)) (blk_bytes b)) 1 0 in
      if msg_alloc_ok env (e1 :: trace w) then
        let m := conn_send_msg (Some i) None 0 (DHeap p) (buff_ptr c) None 1 (val_id c) in
        let tr3 := EvReadValId i (val_id c) (S (S (lock w))) :: EvMsgAlloc true :: e1 :: trace w in
        let r := mbox_result env tr3 m 0 60000 in
        let tr4 := EvSubmit m 0 60000 (S (lock w)) r :: tr3 in
        if is_ok r then
          Ok r (mk_world cs' (evt w) (<[p := mk_block (blk_bytes b) Queued]> (heap w))
                         (lock w) (timeouts w) tr4)
        else
          Ok r (mk_world cs' (evt w) freed (lock w) (timeouts w) (EvFree p :: tr4))
      else
        Ok gsmERRMEM (mk_world cs' (evt w) freed (lock w) (timeouts w)
                               (EvFree p :: EvMsgAlloc false :: e1 :: trace w)).
Proof.
  intros Hi Hb Hp Hst Hptr. destruct w as [cs ev hp lk ts tr]. cbn in Hi, Hp.
  unfold flush_buff. mcbv. rewrite Hi. mcbv. rewrite Hb.
  destruct (buff_ptr c =? 0) eqn:H0.
  - mcbv. rewrite Hi, Hb. mcbv. rewrite Hp, Hst. rewrite Hi. reflexivity.
  - apply Z.eqb_neq in H0. mcbv.
    rewrite (conn_send_eq i c) by (cbn; auto; lia).
    cbn [payload heap trace lock conns evt timeouts]. rewrite Hp.
    destruct (msg_alloc_ok env _).
    + cbv zeta. destruct (mbox_result env _ _ 0 60000) eqn:Hr;
        mcbv; rewrite ?Hi, ?Hb; mcbv; unfold hand_over, conn_send_msg; cbn [msg];
        rewrite ?Hp, ?Hst; mcbv; rewrite ?Hi; reflexivity.
    + mcbv. rewrite Hi, Hb. mcbv. rewrite Hp, Hst, Hi. reflexivity.
Qed.

Lemma flush_buff_none (i : nat) (c : gsm_conn_t) (w : World) :
  conns w !! i = Some c → buff_buff c = None →
  flush_buff env (Some i) w = Ok gsmOK w.
Proof.
  intros Hi Hb. destruct w as [cs ev hp lk ts tr]. cbn in Hi.
  unfold flush_buff. mcbv. rewrite Hi. mcbv. rewrite Hb. reflexivity.
Qed.

(** *** Sending a buffer and clearing the reference *)

Lemma flush_buff_spec (i : nat) (c : gsm_conn_t) (p : nat) (b : block) (w : World) :
  conns w !! i = Some c → buff_buff c = Some p →
  heap w !! p = Some b → blk_state b = Owned → 0 ≤ buff_ptr c →
  ∃ r w' new, flush_buff env (Some i) w = Ok r w' ∧ cleared i c p b w w' new.
Proof.
  intros Hi Hb Hp Hst Hptr.
  rewrite (flush_buff_eq i c p b) by assumption. cbv zeta.
  destruct (buff_ptr c =? 0) eqn:H0.
  - apply Z.eqb_eq in H0.
    eexists _, _, [EvFree p]. split; [reflexivity|].
    repeat split; cbn; rewrite ?app_nil_r; eauto. by rewrite H0.
  - destruct (msg_alloc_ok env _).
    + destruct (is_ok _).
      * eexists _, _, [_; _; _; _]. split; [reflexivity|]. repeat split; cbn; rewrite ?app_nil_r; eauto.
      * eexists _, _, [_; _; _; _; _]. split; [reflexivity|]. repeat split; cbn; rewrite ?app_nil_r; eauto.
    + eexists _, _, [_; _; _]. split; [reflexivity|]. repeat split; cbn; rewrite ?app_nil_r; eauto.
Qed.

Lemma write_step1_1_spec (i : nat) (c : gsm_conn_t) (p : nat) (b : block) (w : World) :
  conns w !! i = Some c → buff_buff c = Some p →
  heap w !! p = Some b → blk_state b = Owned → 0 ≤ buff_ptr c →
  ∃ w' new, write_step1_1 env (Some i) w = Ok tt w' ∧ cleared i c p b w w' new.
Proof.
  intros Hi Hb Hp Hst Hptr. destruct w as [cs ev hp lk ts tr]. cbn in Hi, Hp.
  unfold write_step1_1. mcbv. rewrite Hi. mcbv. rewrite Hb.
  destruct (Z.eq_dec (buff_ptr c) 0) as [H0|H0].
  - rewrite conn_send_nothing by lia. mcbv. rewrite Hp, Hst. mcbv. rewrite Hi.
    eexists _, [EvFree p]. split; [reflexivity|].
    repeat split; cbn; rewrite ?app_nil_r; eauto. by rewrite H0.
  - rewrite (conn_send_eq i c) by (cbn; auto; lia).
    cbn [payload heap trace lock conns evt timeouts]. rewrite Hp. cbv zeta.
    destruct (msg_alloc_ok env _).
    + destruct (mbox_result env _ _ 0 60000) eqn:Hr;
        mcbv; unfold hand_over, conn_send_msg; cbn [msg]; cbn [Z.eqb];
        rewrite ?Hp, ?Hst; mcbv;
        rewrite ?list_lookup_insert_eq by (eapply lookup_lt_Some; eauto); mcbv;
        rewrite ?Hi.
      all: try (eexists _, [_; _; _; _]; split; [reflexivity|]; repeat split; cbn; rewrite ?app_nil_r; eauto; fail).
      all: try (eexists _, [_; _; _; _; _]; split; [reflexivity|]; repeat split; cbn; rewrite ?app_nil_r; eauto; fail).
    + mcbv. rewrite Hp, Hst. mcbv. rewrite Hi.
      eexists _, [_; _; _]. split; [reflexivity|]. repeat split; cbn; rewrite ?app_nil_r; eauto.
Qed.

(** *** [gsm_conn_write], step 1 *)

Lemma splice_length (bs d : list byte) (off n : nat) :
  (off + n ≤ length bs)%nat → (n ≤ length d)%nat →
  length (take off bs ++ take n d ++ drop (off + n) bs) = length bs.
Proof. intros. rewrite !length_app, !length_take, length_drop. lia. Qed.

Lemma splice_take (bs d rest : list byte) (off n : nat) :
  (off ≤ length bs)%nat → (n ≤ length d)%nat →
  take (off + n) (take off bs ++ take n d ++ rest) = take off bs ++ take n d.
Proof.
  intros. rewrite app_assoc.
  rewrite take_app_le by (rewrite length_app, !length_take; lia).
  apply take_ge. rewrite length_app, !length_take. lia.
Qed.

Lemma GSM_MIN_spec (x y : Z) : GSM_MIN x y = Z.min x y.
Proof. unfold GSM_MIN. destruct (Z.ltb_spec x y); lia. Qed.

Lemma write_step1_spec (i : nat) (c : gsm_conn_t) (d : list byte) (flush : Z) (w : World) :
  conns w !! i = Some c → buff_wf env w c → Z.of_nat (length d) < size_mod env →
  ∃ d' w' c' new,
    write_step1 env (Some i) d (Z.of_nat (length d)) flush w
      = Ok (d', Z.of_nat (length d')) w'
    ∧ conns w' !! i = Some c' ∧ buff_wf env w' c' ∧ same_static c c' ∧ same_core w w'
    ∧ trace w' = new ++ trace w
    ∧ handed new ++ staged w' i ++ d' = staged w i ++ d
    ∧ (buff_buff c' ≠ None → d' = [])
    ∧ existsb alloc_failed new = false
    ∧ (length d' ≤ length d)%nat.
Proof.
  intros Hi Hwf Hd.
  assert (Hi' : (i < length (conns w))%nat) by (eapply lookup_lt_Some; eauto).
  unfold buff_wf in Hwf.
  destruct (buff_buff c) as [p|] eqn:Hb.
  - destruct Hwf as (b & Hp & Hst & Hlen & Hptr & Hcap).
    assert (Hp' : (p < length (heap w))%nat) by (eapply lookup_lt_Some; eauto).
    set (len := Z.min (buff_len c - buff_ptr c) (Z.of_nat (length d))).
    assert (Hlen0 : 0 ≤ len) by lia.
    assert (Hlen1 : len ≤ Z.of_nat (length d)) by lia.
    assert (Hlen2 : buff_ptr c + len ≤ buff_len c) by lia.
    set (blk1 := mk_block (take (Z.to_nat (buff_ptr c)) (blk_bytes b)
                            ++ take (Z.to_nat len) d
                            ++ drop (Z.to_nat (buff_ptr c + len)) (blk_bytes b)) Owned).
    set (c1 := set_buff_ptr (buff_ptr c + len) c).
    set (w2 := mk_world (<[i := c1]> (conns w)) (evt w) (<[p := blk1]> (heap w))
                        (lock w) (timeouts w) (trace w)).
    assert (Hrun : write_step1 env (Some i) d (Z.of_nat (length d)) flush w =
              ((if (buff_ptr c + len =? buff_len c) || negb (flush =? 0)
                then write_step1_1 env (Some i) else mret tt) ≫=
               (λ _, mret (drop (Z.to_nat len) d, Z.of_nat (length d) - len))) w2).
    { destruct w as [cs ev hp lk ts tr]. cbn in Hi, Hp, Hi', Hp'.
      unfold write_step1. mcbv. rewrite Hi. mcbv. rewrite Hb.
      rewrite size_sub_small by lia. rewrite GSM_MIN_spec. fold len.
      rewrite Hp, Hst.
      replace (len <=? Z.of_nat (length d)) with true by (symmetry; apply Z.leb_le; lia).
      replace (buff_ptr c + len <=? Z.of_nat (length (blk_bytes b))) with true
        by (symmetry; apply Z.leb_le; lia).
      mcbv. rewrite Hi. mcbv. rewrite list_lookup_insert_eq by done. mcbv.
      rewrite size_add_small by lia. rewrite size_sub_small by lia.
      reflexivity. }
    rewrite Hrun. clear Hrun.
    assert (Hi2 : conns w2 !! i = Some c1) by (apply list_lookup_insert_eq; done).
    assert (Hp2 : heap w2 !! p = Some blk1) by (apply list_lookup_insert_eq; done).
    assert (Hto : Z.to_nat (buff_ptr c + len) = (Z.to_nat (buff_ptr c) + Z.to_nat len)%nat)
      by (apply Z2Nat.inj_add; lia).
    assert (Htake : take (Z.to_nat (buff_ptr c + len)) (blk_bytes blk1)
                    = take (Z.to_nat (buff_ptr c)) (blk_bytes b) ++ take (Z.to_nat len) d).
    { unfold blk1. cbn [blk_bytes]. rewrite Hto. apply splice_take; lia. }
    assert (Hst0 : staged w i = take (Z.to_nat (buff_ptr c)) (blk_bytes b)).
    { unfold staged. by rewrite Hi, Hb, Hp. }
    assert (Hdl : Z.of_nat (length d) - len = Z.of_nat (length (drop (Z.to_nat len) d))).
    { rewrite length_drop. lia. }
    destruct ((buff_ptr c + len =? buff_len c) || negb (flush =? 0)) eqn:Ht.
    + destruct (write_step1_1_spec i c1 p blk1 w2) as (w' & new & Heq & Hcl);
        [done | done | done | done | cbn; lia |].
      rewrite (bind_run _ _ _ _ _ Heq).
      destruct Hcl as (Hcs & Hcore & Htr & Hhd & Hal & _ & st & Hhp).
      assert (Hi3 : conns w' !! i = Some (set_buff_buff None c1)).
      { rewrite Hcs. apply list_lookup_insert_eq. unfold w2. cbn [conns].
        by rewrite length_insert. }
      exists (drop (Z.to_nat len) d), w', (set_buff_buff None c1), new.
      rewrite Hdl. split; [reflexivity|].
      split; [done|]. split; [done|]. split; [done|]. split; [done|]. split; [done|].
      split.
      { unfold staged at 1. rewrite Hi3. cbn [buff_buff set_buff_buff app].
        rewrite Hhd, Hst0. cbn [buff_ptr c1 set_buff_ptr]. rewrite Htake.
        by rewrite <- app_assoc, take_drop. }
      split; [done|]. split; [done|]. rewrite length_drop. lia.
    + apply orb_false_elim in Ht as [Hne Hfl]. apply Z.eqb_neq in Hne.
      assert (Hall : len = Z.of_nat (length d)) by lia.
      exists [], w2, c1, [].
      assert (Hnil : drop (Z.to_nat len) d = []) by (apply drop_ge; lia).
      rewrite Hnil. replace (Z.of_nat (length d) - len) with 0 by lia.
      split; [reflexivity|]. split; [done|].
      split.
      { unfold buff_wf. cbn [c1 buff_buff set_buff_ptr]. rewrite Hb.
        exists blk1. split; [done|]. split; [done|].
        unfold c1, blk1. cbn [buff_len buff_ptr set_buff_ptr blk_bytes].
        split; [|lia]. rewrite Hto, splice_length; lia. }
      split; [done|]. split; [done|]. split; [done|].
      split.
      { cbn [handed app]. rewrite app_nil_r. unfold staged at 1. rewrite Hi2.
        cbn [c1 buff_buff set_buff_ptr buff_ptr]. rewrite Hb, Hp2, Htake, Hst0.
        f_equal. apply take_ge. lia. }
      split; [done|]. split; [done|]. cbn. lia.
  - exists d, w, c, []. unfold write_step1.
    assert (Hrun : write_step1 env (Some i) d (Z.of_nat (length d)) flush w
                   = Ok (d, Z.of_nat (length d)) w).
    { destruct w as [cs ev hp lk ts tr]. cbn in Hi.
      unfold write_step1. mcbv. rewrite Hi. mcbv. by rewrite Hb. }
    split; [exact Hrun|]. split; [done|]. split; [by unfold buff_wf; rewrite Hb|].
    split; [done|]. split; [done|]. split; [done|]. split; [done|].
    split; [congruence|]. split; [done|]. lia.
Qed.

(** *** [gsm_conn_write], step 2 *)

Lemma insert_snoc {A} (l : list A) (x y : A) : <[length l := y]> (l ++ [x]) = l ++ [y].
Proof. rewrite insert_app_r_alt by lia. by rewrite Nat.sub_diag. Qed.

Lemma write_step2_unfold (fuel : nat) (conn : gsm_conn_p) (d : list byte) (btw : Z) :
  write_step2 env fuel conn d btw =
    if btw <? MAX_DATA_LEN env then mret (inr (d, btw)) else
    match fuel with
    | O => crash Diverged
    | S fuel' =>
        buff ← gsm_mem_alloc env (size_mul env 1 (MAX_DATA_LEN env));
        match buff with
        | Some p =>
            GSM_MEMCPY p 0 d (MAX_DATA_LEN env);;
            '(r, _) ← conn_send env conn None 0 (DHeap p) (MAX_DATA_LEN env) None 1 0;
            if negb (is_ok r) then
              gsm_mem_free (Some p);;
              mret (inl gsmERRMEM)
            else
              write_step2 env fuel' conn (drop (Z.to_nat (MAX_DATA_LEN env)) d)
                          (size_sub env btw (MAX_DATA_LEN env))
        | None => mret (inl gsmERRMEM)
        end
    end.
Proof. destruct fuel; reflexivity. Qed.

Lemma hand_over_snoc (hp : list block) (bs : list byte) conn ip port btw bw v :
  hand_over (conn_send_msg conn ip port (DHeap (length hp)) btw bw 1 v)
            (hp ++ [mk_block bs Owned])
  = hp ++ [mk_block bs Queued].
Proof.
  unfold hand_over, conn_send_msg. cbn [msg Z.eqb].
  rewrite list_lookup_middle by done. cbn [blk_state blk_bytes].
  apply insert_snoc.
Qed.

(** One round of the loop whose allocation is served: a full chunk goes
    to the dispatcher; the loop goes on when the dispatcher accepts it
    and the function returns [gsmERRMEM] otherwise. *)
Lemma write_step2_round (fuel i : nat) (c : gsm_conn_t) (d : list byte) (w : World) :
  env_wf env → conns w !! i = Some c →
  GSM_CFG_CONN_MAX_DATA_LEN env ≤ Z.of_nat (length d) →
  Z.of_nat (length d) < size_mod env →
  mem_alloc_ok env (trace w) (GSM_CFG_CONN_MAX_DATA_LEN env) = true →
  let n := Z.to_nat (GSM_CFG_CONN_MAX_DATA_LEN env) in
  ∃ (ok : bool) w1 new blk,
    write_step2 env (S fuel) (Some i) d (Z.of_nat (length d)) w
      = (if ok then write_step2 env fuel (Some i) (drop n d) (Z.of_nat (length (drop n d))) w1
         else Ok (inl gsmERRMEM) w1)
    ∧ conns w1 = conns w ∧ same_core w w1
    ∧ trace w1 = new ++ trace w
    ∧ handed new = take n d
    ∧ dispatches new = [(take n d, 1, 0)]
    ∧ existsb alloc_failed new = false
    ∧ heap w1 = heap w ++ [blk]
    ∧ (env_serves env → ok = true).
Proof.
  intros Hwf Hi Hd Hsz Hok n. pose proof Hwf as Hwf'. unfold env_wf in Hwf'.
  rewrite write_step2_unfold. rewrite size_mul_max by done.
  unfold MAX_DATA_LEN.
  set (MAX := GSM_CFG_CONN_MAX_DATA_LEN env) in *.
  replace (Z.of_nat (length d) <? MAX) with false by (symmetry; apply Z.ltb_ge; lia).
  rewrite size_sub_small by lia.
  replace (Z.of_nat (length d) - MAX) with (Z.of_nat (length (drop n d)))
    by (rewrite length_drop; unfold n; lia).
  assert (Hn : (n ≤ length d)%nat) by (unfold n; lia).
  assert (Hn' : Z.of_nat n = MAX) by (unfold n; lia).
  set (p := length (heap w)).
  set (zeros := replicate n x00).
  set (bs := take (Z.to_nat 0) zeros ++ take n d ++ drop (Z.to_nat (0 + MAX)) zeros).
  set (w2 := mk_world (conns w) (evt w) (heap w ++ [mk_block bs Owned]) (lock w) (timeouts w)
                      (EvAlloc MAX (Some p) :: trace w)).
  assert (Hpay : payload w2 (DHeap p) MAX = take n d).
  { unfold payload, w2. cbn [heap]. unfold p. rewrite list_lookup_middle by done.
    cbn [blk_bytes]. unfold bs. change (Z.to_nat 0) with 0%nat. rewrite take_0. cbn [app].
    rewrite take_app_le by (rewrite length_take; lia).
    apply take_ge. rewrite length_take. lia. }
  pose proof (conn_send_eq i c None 0 (DHeap p) MAX None 1 0 w2 Hi eq_refl ltac:(lia)) as Hsend.
  rewrite Hpay in Hsend. cbv zeta in Hsend.
  assert (Hho : hand_over (conn_send_msg (Some i) None 0 (DHeap p) MAX None 1 (val_id c)) (heap w2)
                = heap w ++ [mk_block bs Queued]) by apply hand_over_snoc.
  rewrite Hho in Hsend. clear Hho.
  destruct w as [cs ev hp lk ts tr]. cbn in Hi, Hok. cbn [heap conns evt lock timeouts trace] in *.
  mcbv. rewrite Hok. mcbv.
  rewrite list_lookup_middle by done. cbn [blk_state blk_bytes].
  replace (MAX <=? Z.of_nat (length d)) with true by (symmetry; apply Z.leb_le; lia).
  replace (0 + MAX <=? Z.of_nat (length (replicate (Z.to_nat MAX) x00))) with true
    by (symmetry; apply Z.leb_le; rewrite length_replicate; lia).
  rewrite insert_snoc. fold n zeros bs p. fold w2.
  rewrite Hsend. clear Hsend.
  destruct (msg_alloc_ok env _) eqn:Hma.
  - destruct (mbox_result env _ _ 0 60000) eqn:Hr; cbn [is_ok negb];
      [ eexists true, _, [_; _; _; _; _], _; (split; [reflexivity|]);
        repeat split; cbn; rewrite ?app_nil_r; eauto | .. ].
    all: unfold w2, p; cbn [heap conns evt lock timeouts trace];
      rewrite list_lookup_middle by done; cbn [blk_state blk_bytes];
      rewrite insert_snoc;
      eexists false, _, [_; _; _; _; _; _], _; (split; [reflexivity|]);
      repeat split; cbn; rewrite ?app_nil_r; eauto;
      intros (_ & _ & Hb); rewrite Hb in Hr; discriminate.
  - mcbv. unfold w2, p; cbn [heap conns evt lock timeouts trace].
    rewrite list_lookup_middle by done; cbn [blk_state blk_bytes].
    rewrite insert_snoc.
    eexists false, _, [_; _; _; _], _. split; [reflexivity|].
    repeat split; cbn; rewrite ?app_nil_r; eauto.
    intros (_ & Hm & _). rewrite Hm in Hma. discriminate.
Qed.

Lemma write_step2_refused (fuel : nat) (conn : gsm_conn_p) (d : list byte) (w : World) :
  env_wf env → GSM_CFG_CONN_MAX_DATA_LEN env ≤ Z.of_nat (length d) →
  mem_alloc_ok env (trace w) (GSM_CFG_CONN_MAX_DATA_LEN env) = false →
  write_step2 env (S fuel) conn d (Z.of_nat (length d)) w
    = Ok (inl gsmERRMEM) (emit (EvAlloc (GSM_CFG_CONN_MAX_DATA_LEN env) None) w).
Proof.
  intros Hwf Hd Hok. rewrite write_step2_unfold. rewrite size_mul_max by done.
  unfold MAX_DATA_LEN.
  replace (Z.of_nat (length d) <? GSM_CFG_CONN_MAX_DATA_LEN env) with false
    by (symmetry; apply Z.ltb_ge; lia).
  destruct w as [cs ev hp lk ts tr]. cbn in Hok. mcbv. by rewrite Hok.
Qed.

Lemma write_step2_spec (fuel i : nat) (c : gsm_conn_t) (d : list byte) (w : World) :
  env_wf env → conns w !! i = Some c → Z.of_nat (length d) < size_mod env →
  (length d ≤ fuel)%nat →
  ∃ res w' new,
    write_step2 env fuel (Some i) d (Z.of_nat (length d)) w = Ok res w'
    ∧ conns w' = conns w ∧ same_core w w'
    ∧ (∀ q blk, heap w !! q = Some blk → heap w' !! q = Some blk)
    ∧ trace w' = new ++ trace w
    ∧ match res with
      | inr (d', btw') =>
          btw' = Z.of_nat (length d') ∧ btw' < GSM_CFG_CONN_MAX_DATA_LEN env
          ∧ handed new ++ d' = d ∧ existsb alloc_failed new = false
      | inl r => r = gsmERRMEM
      end.
Proof.
  intros Hwf. revert d w. induction fuel as [|fuel IH]; intros d w Hi Hsz Hfuel.
  - assert (Hd0 : length d = 0%nat) by lia.
    exists (inr (d, Z.of_nat (length d))), w, [].
    rewrite write_step2_unfold. unfold MAX_DATA_LEN, env_wf in *.
    replace (Z.of_nat (length d) <? GSM_CFG_CONN_MAX_DATA_LEN env) with true
      by (symmetry; apply Z.ltb_lt; lia).
    repeat split; auto. lia.
  - destruct (Z.lt_ge_cases (Z.of_nat (length d)) (GSM_CFG_CONN_MAX_DATA_LEN env)) as [Hlt|Hge].
    + exists (inr (d, Z.of_nat (length d))), w, [].
      rewrite write_step2_unfold. unfold MAX_DATA_LEN.
      replace (Z.of_nat (length d) <? GSM_CFG_CONN_MAX_DATA_LEN env) with true
        by (symmetry; apply Z.ltb_lt; lia).
      repeat split; auto.
    + destruct (mem_alloc_ok env (trace w) (GSM_CFG_CONN_MAX_DATA_LEN env)) eqn:Hok.
      * destruct (write_step2_round fuel i c d w Hwf Hi Hge Hsz Hok)
          as (ok & w1 & new1 & blk & Hrun & Hcs1 & Hcore1 & Htr1 & Hhd1 & _ & Hal1 & Hhp1 & _).
        rewrite Hrun. destruct ok.
        -- destruct (IH (drop (Z.to_nat (GSM_CFG_CONN_MAX_DATA_LEN env)) d) w1)
             as (res & w' & new2 & Hrun2 & Hcs2 & Hcore2 & Hhp2 & Htr2 & Hres).
           { by rewrite Hcs1. }
           { rewrite length_drop. lia. }
           { rewrite length_drop. unfold env_wf in Hwf. lia. }
           exists res, w', (new2 ++ new1). split; [done|].
           split; [congruence|]. split.
           { destruct Hcore1 as (? & ? & ?), Hcore2 as (? & ? & ?).
             repeat split; congruence. }
           split.
           { intros q b Hq. apply Hhp2. rewrite Hhp1.
             rewrite lookup_app_l; [done|]. eapply lookup_lt_Some; eauto. }
           split; [by rewrite Htr2, Htr1, app_assoc|].
           destruct res as [r|[d' btw']]; [done|].
           destruct Hres as (? & ? & Hhd2 & Hal2).
           split; [done|]. split; [done|]. split.
           ++ rewrite handed_app, Hhd1, <- app_assoc, Hhd2. apply take_drop.
           ++ rewrite existsb_app, Hal1, Hal2. done.
        -- exists (inl gsmERRMEM), w1, new1. split; [done|].
           split; [done|]. split; [done|]. split; [|done].
           intros q b Hq. rewrite Hhp1.
           rewrite lookup_app_l; [done|]. eapply lookup_lt_Some; eauto.
      * rewrite write_step2_refused by done.
        exists (inl gsmERRMEM), (emit (EvAlloc (GSM_CFG_CONN_MAX_DATA_LEN env) None) w),
          [EvAlloc (GSM_CFG_CONN_MAX_DATA_LEN env) None].
        repeat split; auto.
Qed.

(** *** [gsm_conn_write], step 3 *)

Lemma write_step3_spec (i : nat) (c : gsm_conn_t) (d : list byte) (w : World) :
  env_wf env → conns w !! i = Some c → buff_wf env w c →
  Z.of_nat (length d) < GSM_CFG_CONN_MAX_DATA_LEN env →
  (buff_buff c ≠ None → d = []) →
  ∃ r3 w' c' new,
    write_step3 env (Some i) d (Z.of_nat (length d)) w = Ok r3 w'
    ∧ conns w' !! i = Some c' ∧ buff_wf env w' c' ∧ same_static c c' ∧ same_core w w'
    ∧ trace w' = new ++ trace w
    ∧ handed new = [] ∧ dispatches new = []
    ∧ (d = [] → r3 = None) ∧ (env_serves env → r3 = None)
    ∧ match r3 with
      | None =>
          staged w' i = staged w i ++ d
          ∧ (existsb alloc_failed new = true → buff_buff c' = None)
          ∧ (buff_buff c = None → buff_buff c' ≠ None →
             buff_ptr c' = Z.of_nat (length d)
             ∧ buff_len c' = GSM_CFG_CONN_MAX_DATA_LEN env)
      | Some r => r = gsmERRMEM
      end.
Proof.
  intros Hwf Hi Hbwf Hd Hnil. pose proof Hwf as Hwf'. unfold env_wf in Hwf'.
  assert (Hi' : (i < length (conns w))%nat) by (eapply lookup_lt_Some; eauto).
  set (MAX := GSM_CFG_CONN_MAX_DATA_LEN env) in *.
  destruct (buff_buff c) as [p|] eqn:Hb.
  - (* a buffer is there: nothing is left to copy *)
    rewrite (Hnil ltac:(done)). exists None, w, c, [].
    assert (Hrun : write_step3 env (Some i) [] 0 w = Ok None w).
    { destruct w as [cs ev hp lk ts tr]. cbn in Hi.
      unfold write_step3. mcbv. rewrite Hi. mcbv. rewrite Hb. mcbv. reflexivity. }
    split; [exact Hrun|]. split; [done|]. split; [done|]. split; [done|]. split; [done|].
    split; [done|]. split; [done|]. split; [done|]. split; [done|]. split; [done|].
    split; [by rewrite app_nil_r|]. split; [done|]. congruence.
  - destruct (mem_alloc_ok env (trace w) MAX) eqn:Hok.
    + (* a fresh buffer *)
      set (n := Z.to_nat MAX).
      set (p := length (heap w)).
      set (zeros := replicate n x00).
      set (k := Z.to_nat (Z.of_nat (length d))).
      set (bs := if Z.of_nat (length d) =? 0 then zeros
                 else take (Z.to_nat 0) zeros ++ take k d
                      ++ drop (Z.to_nat (0 + Z.of_nat (length d))) zeros).
      set (c' := mk_conn (num c) (val_id c) (status_active c) (status_client c)
                         (status_in_closing c) (Some p) MAX (Z.of_nat (length d))).
      set (w' := mk_world (<[i := c']> (conns w)) (evt w) (heap w ++ [mk_block bs Owned])
                          (lock w) (timeouts w) (EvAlloc MAX (Some p) :: trace w)).
      exists None, w', c', [EvAlloc MAX (Some p)].
      assert (Hrun : write_step3 env (Some i) d (Z.of_nat (length d)) w = Ok None w').
      { unfold w', c', bs, p. destruct w as [cs ev hp lk ts tr]. cbn in Hi, Hok, Hi'.
        cbn [conns evt heap lock timeouts trace].
        unfold write_step3. mcbv. rewrite Hi. mcbv. rewrite Hb. mcbv.
        rewrite size_mul_max by done. fold MAX. rewrite Hok. mcbv. rewrite Hi. mcbv.
        destruct (Z.of_nat (length d) =? 0) eqn:H0.
        - apply Z.eqb_eq in H0. unfold set_buff_ptr, set_buff_len, set_buff_buff.
          cbn [num val_id status_active status_client status_in_closing buff_buff buff_len buff_ptr].
          unfold MAX_DATA_LEN. fold MAX. by rewrite H0.
        - rewrite list_lookup_insert_eq by done.
          cbn [buff_buff set_buff_ptr set_buff_len set_buff_buff].
          rewrite list_lookup_middle by done. cbn [blk_state blk_bytes].
          replace (Z.of_nat (length d) <=? Z.of_nat (length d)) with true
            by (symmetry; apply Z.leb_le; lia).
          replace (0 + Z.of_nat (length d) <=? Z.of_nat (length (replicate (Z.to_nat MAX) x00)))
            with true by (symmetry; apply Z.leb_le; rewrite length_replicate; lia).
          rewrite insert_snoc. rewrite list_lookup_insert_eq by done.
          rewrite list_insert_insert_eq.
          unfold set_buff_ptr, set_buff_len, set_buff_buff, MAX_DATA_LEN.
          cbn [num val_id status_active status_client status_in_closing buff_buff buff_len buff_ptr].
          reflexivity. }
      assert (Hk : k = length d) by (unfold k; lia).
      assert (Hbs : take k bs = d ∧ length bs = n).
      { unfold bs. destruct (Z.of_nat (length d) =? 0) eqn:H0.
        - apply Z.eqb_eq in H0. rewrite Hk.
          assert (length d = 0%nat) as Hd0 by lia. rewrite Hd0.
          destruct d; [|done]. split; [done|]. unfold zeros. by rewrite length_replicate.
        - change (Z.to_nat 0) with 0%nat. rewrite take_0. cbn [app].
          rewrite Z.add_0_l. fold k. rewrite Hk. rewrite firstn_all. split.
          + by rewrite take_app_length.
          + rewrite length_app, length_drop. unfold zeros. rewrite length_replicate.
            unfold n. lia. }
      destruct Hbs as [Hbs1 Hbs2].
      assert (Hi2 : conns w' !! i = Some c') by (apply list_lookup_insert_eq; done).
      assert (Hp2 : heap w' !! p = Some (mk_block bs Owned)) by (apply list_lookup_middle; done).
      split; [exact Hrun|]. split; [done|].
      split.
      { unfold buff_wf. cbn [buff_buff c']. eexists. split; [exact Hp2|].
        unfold c'. cbn [blk_state blk_bytes buff_len buff_ptr]. rewrite Hbs2. unfold n.
        split; [done|lia]. }
      split; [done|]. split; [done|]. split; [done|]. split; [done|]. split; [done|].
      split; [done|]. split; [done|].
      split.
      { unfold staged. rewrite Hi2, Hi, Hb. cbn [buff_buff c' buff_ptr]. rewrite Hp2.
        cbn [blk_bytes app]. fold k. done. }
      split; [done|]. done.
    + (* the allocator refuses *)
      set (c' := mk_conn (num c) (val_id c) (status_active c) (status_client c)
                         (status_in_closing c) None MAX 0).
      set (w' := mk_world (<[i := c']> (conns w)) (evt w) (heap w)
                          (lock w) (timeouts w) (EvAlloc MAX None :: trace w)).
      assert (Hi2 : conns w' !! i = Some c') by (apply list_lookup_insert_eq; done).
      assert (Hrun : write_step3 env (Some i) d (Z.of_nat (length d)) w
                     = Ok (if Z.of_nat (length d) =? 0 then None else Some gsmERRMEM) w').
      { unfold w', c'. destruct w as [cs ev hp lk ts tr]. cbn in Hi, Hok, Hi'.
        cbn [conns evt heap lock timeouts trace].
        unfold write_step3. mcbv. rewrite Hi. mcbv. rewrite Hb. mcbv.
        rewrite size_mul_max by done. fold MAX. rewrite Hok. mcbv. rewrite Hi. mcbv.
        unfold set_buff_ptr, set_buff_len, set_buff_buff, MAX_DATA_LEN.
        cbn [num val_id status_active status_client status_in_closing buff_buff buff_len buff_ptr].
        fold MAX.
        destruct (Z.of_nat (length d) =? 0) eqn:H0; [done|].
        rewrite list_lookup_insert_eq by done. done. }
      exists (if Z.of_nat (length d) =? 0 then None else Some gsmERRMEM), w', c',
        [EvAlloc MAX None].
      split; [exact Hrun|]. split; [done|]. split; [done|]. split; [done|]. split; [done|].
      split; [done|]. split; [done|]. split; [done|].
      split; [by intros ->|].
      split; [intros (Ha & _); rewrite Ha in Hok; discriminate|].
      destruct (Z.of_nat (length d) =? 0) eqn:H0; [|done].
      apply Z.eqb_eq in H0. assert (d = []) as -> by (destruct d; [done|cbn in H0; lia]).
      split.
      { unfold staged. rewrite Hi2, Hi, Hb. done. }
      split; [done|]. done.
Qed.

(** *** [gsm_conn_write], step 4 and the report *)

Lemma write_step4_spec (i : nat) (c : gsm_conn_t) (flush : Z) (mem : option Z) (w : World) :
  conns w !! i = Some c → buff_wf env w c →
  ∃ w' c' new,
    write_step4 env (Some i) flush mem w = Ok (gsmOK, reported mem c') w'
    ∧ conns w' !! i = Some c' ∧ buff_wf env w' c' ∧ same_static c c' ∧ same_core w w'
    ∧ trace w' = new ++ trace w
    ∧ handed new ++ staged w' i = staged w i
    ∧ existsb alloc_failed new = false
    ∧ (buff_buff c = None → buff_buff c' = None)
    ∧ (flush = 0 → w' = w ∧ c' = c ∧ new = [])
    ∧ (flush ≠ 0 → buff_buff c' = None).
Proof.
  intros Hi Hbwf.
  assert (Hi' : (i < length (conns w))%nat) by (eapply lookup_lt_Some; eauto).
  assert (Hrep : ∀ c0 : gsm_conn_t, buff_wf env w c0 ∨ buff_buff c0 = None →
            match mem with
            | Some _ => match buff_buff c0 with
                        | Some _ => Some (size_sub env (buff_len c0) (buff_ptr c0))
                        | None => Some 0
                        end
            | None => None
            end = reported mem c0).
  { intros c0 H0. unfold reported. destruct mem; [|done].
    destruct (buff_buff c0) eqn:Hb0; [|done].
    destruct H0 as [H0|H0]; [|done]. unfold buff_wf in H0. rewrite Hb0 in H0.
    destruct H0 as (b & _ & _ & _ & ? & ?). by rewrite size_sub_small by lia. }
  destruct (negb (flush =? 0) && is_some (buff_buff c)) eqn:Ht.
  - apply andb_prop in Ht as [Hfl Hsome].
    destruct (buff_buff c) as [p|] eqn:Hb; [|done].
    unfold buff_wf in Hbwf. rewrite Hb in Hbwf.
    destruct Hbwf as (b & Hp & Hst & Hlen & Hptr & Hcap).
    destruct (flush_buff_spec i c p b w) as (r & w' & new & Hrun & Hcl); try done; try lia.
    destruct Hcl as (Hcs & Hcore & Htr & Hhd & Hal & _ & st & Hhp).
    assert (Hi3 : conns w' !! i = Some (set_buff_buff None c)).
    { rewrite Hcs. by apply list_lookup_insert_eq. }
    exists w', (set_buff_buff None c), new.
    split.
    { rewrite <- Hrep by (right; done).
      destruct w as [cs ev hp lk ts tr]. cbn in Hi.
      unfold write_step4. mcbv. rewrite Hi. mcbv. rewrite Hb.
      apply negb_true_iff in Hfl. rewrite Hfl. mcbv.
      rewrite Hrun. clear Hrun. destruct w' as [cs' ev' hp' lk' ts' tr']. cbn in Hi3.
      mcbv. rewrite Hi3. reflexivity. }
    split; [done|]. split; [done|]. split; [done|]. split; [done|]. split; [done|].
    split.
    { unfold staged. rewrite Hi3, Hi, Hb, Hp. cbn [buff_buff set_buff_buff].
      by rewrite app_nil_r. }
    split; [done|]. split; [done|].
    split; [|done]. intros ->. done.
  - exists w, c, [].
    split.
    { rewrite <- Hrep by (left; done).
      destruct w as [cs ev hp lk ts tr]. cbn in Hi.
      unfold write_step4. mcbv. rewrite Hi. mcbv.
      destruct (flush =? 0); destruct (buff_buff c) eqn:Hb; cbn in Ht; try discriminate;
        mcbv; rewrite ?Hi; mcbv; by rewrite ?Hb. }
    split; [done|]. split; [done|]. split; [done|]. split; [done|]. split; [done|].
    split; [done|]. split; [done|]. split; [done|]. split; [done|].
    intros Hf. apply andb_false_iff in Ht as [Ht|Ht].
    + apply negb_false_iff, Z.eqb_eq in Ht. done.
    + by destruct (buff_buff c).
Qed.

(** *** [gsm_conn_write] as a whole *)

Lemma same_static_trans (c1 c2 c3 : gsm_conn_t) :
  same_static c1 c2 → same_static c2 c3 → same_static c1 c3.
Proof. unfold same_static. intros (?&?&?&?&?) (?&?&?&?&?). repeat split; congruence. Qed.

Lemma same_core_trans (w1 w2 w3 : World) :
  same_core w1 w2 → same_core w2 w3 → same_core w1 w3.
Proof. unfold same_core. intros (?&?&?) (?&?&?). repeat split; congruence. Qed.

Lemma buff_wf_heap_ext (w w' : World) (c : gsm_conn_t) :
  (∀ q blk, heap w !! q = Some blk → heap w' !! q = Some blk) →
  buff_wf env w c → buff_wf env w' c.
Proof.
  intros Hext. unfold buff_wf. destruct (buff_buff c); [|done].
  intros (b & Hp & ?). exists b. split; [by apply Hext|done].
Qed.

Lemma staged_heap_ext (w w' : World) (i : nat) (c : gsm_conn_t) :
  conns w !! i = Some c → conns w' = conns w → buff_wf env w c →
  (∀ q blk, heap w !! q = Some blk → heap w' !! q = Some blk) →
  staged w' i = staged w i.
Proof.
  intros Hi Hcs Hwf Hext. unfold staged. rewrite Hcs, Hi.
  unfold buff_wf in Hwf. destruct (buff_buff c); [|done].
  destruct Hwf as (b & Hp & _). by rewrite (Hext _ _ Hp), Hp.
Qed.

Lemma gsm_conn_write_spec (i : nat) (c : gsm_conn_t) (data : list byte) (flush : Z)
    (mem : option Z) (w : World) :
  env_wf env → conns w !! i = Some c → buff_wf env w c →
  Z.of_nat (length data) < size_mod env →
  ∃ r m' w' c' new,
    gsm_conn_write env (Some i) data (Z.of_nat (length data)) flush mem w = Ok (r, m') w'
    ∧ conns w' !! i = Some c' ∧ buff_wf env w' c' ∧ same_static c c' ∧ same_core w w'
    ∧ trace w' = new ++ trace w
    ∧ (r = gsmOK ∨ r = gsmERRMEM)
    ∧ (r = gsmOK → handed new ++ staged w' i = staged w i ++ data)
    ∧ (r = gsmOK → m' = reported mem c')
    ∧ (r ≠ gsmOK → m' = mem)
    ∧ (existsb alloc_failed new = true → r = gsmERRMEM ∨ buff_buff c' = None)
    ∧ (r = gsmOK → flush ≠ 0 → buff_buff c' = None).
Proof.
  intros Hwf Hi Hbwf Hsz.
  destruct (write_step1_spec i c data flush w Hi Hbwf Hsz)
    as (d1 & w1 & c1 & new1 & Hrun1 & Hi1 & Hbwf1 & Hst1 & Hcore1 & Htr1 & Hhd1 & Hnil1 & Hal1 & Hle1).
  assert (Hsz1 : Z.of_nat (length d1) < size_mod env) by lia.
  destruct (write_step2_spec (length d1) i c1 d1 w1 Hwf Hi1 Hsz1 (le_n _))
    as (res & w2 & new2 & Hrun2 & Hcs2 & Hcore2 & Hhp2 & Htr2 & Hres).
  assert (Hi2 : conns w2 !! i = Some c1) by (by rewrite Hcs2).
  assert (Hbwf2 : buff_wf env w2 c1) by (eapply buff_wf_heap_ext; eauto).
  assert (Hstg2 : staged w2 i = staged w1 i) by (eapply staged_heap_ext; eauto).
  assert (Hrun : gsm_conn_write env (Some i) data (Z.of_nat (length data)) flush mem w =
            match res with
            | inl r => Ok (r, mem) w2
            | inr (d, btw) =>
                (write_step3 env (Some i) d btw ≫= λ r3,
                 match r3 with
                 | Some r => mret (r, mem)
                 | None => write_step4 env (Some i) flush mem
                 end) w2
            end).
  { unfold gsm_conn_write. cbn [is_none].
    rewrite (bind_run _ _ _ _ _ Hrun1). cbv beta iota.
    rewrite Nat2Z.id. rewrite (bind_run _ _ _ _ _ Hrun2).
    destruct res as [r|[d btw]]; reflexivity. }
  rewrite Hrun. clear Hrun.
  destruct res as [r|[d2 btw2]].
  - (* step 2 gave up *)
    subst r. exists gsmERRMEM, mem, w2, c1, (new2 ++ new1).
    split; [done|]. split; [done|]. split; [done|]. split; [done|].
    split; [eapply same_core_trans; eauto|].
    split; [by rewrite Htr2, Htr1, app_assoc|].
    split; [by right|]. split; [done|]. split; [done|]. split; [done|].
    split; [by left|]. done.
  - destruct Hres as (-> & Hlt2 & Hhd2 & Hal2).
    assert (Hnil2 : buff_buff c1 ≠ None → d2 = []).
    { intros Hb. specialize (Hnil1 Hb). subst d1.
      destruct new2 as [|e new2], d2 as [|x d2]; try done.
      - cbn in Hhd2. destruct (handed new2 ++ handed_by e); done. }
    destruct (write_step3_spec i c1 d2 w2 Hwf Hi2 Hbwf2 Hlt2 Hnil2)
      as (r3 & w3 & c3 & new3 & Hrun3 & Hi3 & Hbwf3 & Hst3 & Hcore3 & Htr3 & Hhd3 & _ & _ & _ & Hres3).
    rewrite (bind_run _ _ _ _ _ Hrun3).
    destruct r3 as [r|].
    + subst r. exists gsmERRMEM, mem, w3, c3, (new3 ++ new2 ++ new1).
      split; [done|]. split; [done|]. split; [done|].
      split; [eauto using same_static_trans|].
      split; [eauto using same_core_trans|].
      split; [by rewrite Htr3, Htr2, Htr1, !app_assoc|].
      split; [by right|]. split; [done|]. split; [done|]. split; [done|].
      split; [by left|]. done.
    + destruct Hres3 as (Hstg3 & Hal3 & _).
      destruct (write_step4_spec i c3 flush mem w3 Hi3 Hbwf3)
        as (w4 & c4 & new4 & Hrun4 & Hi4 & Hbwf4 & Hst4 & Hcore4 & Htr4 & Hhd4 & Hal4
            & Hno4 & _ & Hfl4).
      exists gsmOK, (reported mem c4), w4, c4, (new4 ++ new3 ++ new2 ++ new1).
      split; [done|]. split; [done|]. split; [done|].
      split; [eauto using same_static_trans|].
      split; [eauto using same_core_trans|].
      split; [by rewrite Htr4, Htr3, Htr2, Htr1, !app_assoc|].
      split; [by left|].
      split.
      { intros _. rewrite !handed_app, Hhd3, app_nil_r.
        rewrite <- !app_assoc. rewrite Hhd4, Hstg3, Hstg2.
        rewrite <- Hhd1, <- Hhd2. f_equal.
        (* the chunks of step 2 come after what step 1 left staged *)
        destruct (buff_buff c1) eqn:Hb1.
        - rewrite (Hnil1 ltac:(done)) in Hhd2.
          assert (handed new2 = []) as -> by (by destruct (handed new2)).
          done.
        - unfold staged. by rewrite Hi1, Hb1. }
      split; [done|]. split; [done|].
      split.
      { intros Hex. right. rewrite !existsb_app, Hal4, Hal2, Hal1, !orb_false_r in Hex.
        cbn in Hex. apply Hno4. by apply Hal3. }
      intros _ Hf. by apply Hfl4.
Qed.

(** ** The byte stream through [gsm_conn_write] *)

Lemma dispatches_app (new old : list event) :
  dispatches (new ++ old) = dispatches old ++ dispatches new.
Proof.
  induction new as [|e new IH]; cbn.
  - by rewrite app_nil_r.
  - destruct e; rewrite ?IH, ?app_assoc; done.
Qed.

Lemma handed_chunks (tr : list event) : handed tr = concat (chunks tr).
Proof.
  unfold chunks. induction tr as [|e tr IH]; [done|].
  destruct e; cbn; rewrite ?app_nil_r; try done.
  rewrite map_app, concat_app. cbn. by rewrite app_nil_r, IH.
Qed.

(** C1 (amended).  A call of [gsm_conn_write] on a sound connection
    returns, and when it returns [gsmOK] the chunks it handed to the
    dispatcher, in order, followed by the bytes left staged are exactly
    the bytes that were staged at entry followed by the input: nothing
    is lost, repeated or reordered, and the byte total is the staged
    length at entry plus [btw]. *)
Theorem write_partitions_staged_and_input (i : nat) (c : gsm_conn_t) (data : list byte)
    (flush : Z) (mem : option Z) (w : World) :
  env_wf env → conns w !! i = Some c → buff_wf env w c →
  Z.of_nat (length data) < size_mod env →
  ∃ r m w' new,
    gsm_conn_write env (Some i) data (Z.of_nat (length data)) flush mem w = Ok (r, m) w'
    ∧ trace w' = new ++ trace w
    ∧ (r = gsmOK →
       concat (chunks new) ++ staged w' i = staged w i ++ data
       ∧ (length (concat (chunks new)) + length (staged w' i)
          = length (staged w i) + length data)%nat).
Proof.
  intros Hwf Hi Hbwf Hsz.
  destruct (gsm_conn_write_spec i c data flush mem w Hwf Hi Hbwf Hsz)
    as (r & m & w' & c' & new & Hrun & _ & _ & _ & _ & Htr & _ & Hpart & _).
  exists r, m, w', new. split; [done|]. split; [done|].
  intros Hr. specialize (Hpart Hr). rewrite <- handed_chunks.
  split; [done|]. by rewrite <- !length_app, Hpart.
Qed.

(** C6 (amended).  When [gsm_conn_write] returns [gsmOK] and
    [mem_available] is not [NULL], the cell holds the capacity of the
    buffer minus its used length when the connection has a buffer and 0
    when it has none; on an error return the cell is left as it was.  A
    refused buffer allocation shows as [gsmERRMEM] or as [gsmOK] with 0
    in the cell. *)
Theorem write_reports_available (i : nat) (c : gsm_conn_t) (data : list byte)
    (flush : Z) (v0 : Z) (w : World) :
  env_wf env → conns w !! i = Some c → buff_wf env w c →
  Z.of_nat (length data) < size_mod env →
  ∃ r m w' c' new,
    gsm_conn_write env (Some i) data (Z.of_nat (length data)) flush (Some v0) w = Ok (r, m) w'
    ∧ conns w' !! i = Some c'
    ∧ trace w' = new ++ trace w
    ∧ (r = gsmOK ∨ r = gsmERRMEM)
    ∧ (r = gsmOK →
       m = Some (match buff_buff c' with
                 | Some _ => buff_len c' - buff_ptr c'
                 | None => 0
                 end))
    ∧ (r ≠ gsmOK → m = Some v0)
    ∧ (existsb alloc_failed new = true → r = gsmERRMEM ∨ (r = gsmOK ∧ m = Some 0)).
Proof.
  intros Hwf Hi Hbwf Hsz.
  destruct (gsm_conn_write_spec i c data flush (Some v0) w Hwf Hi Hbwf Hsz)
    as (r & m & w' & c' & new & Hrun & Hi' & _ & _ & _ & Htr & Hr & _ & Hrep & Herr & Hal & _).
  exists r, m, w', c', new.
  split; [done|]. split; [done|]. split; [done|]. split; [done|].
  split.
  { intros H. rewrite (Hrep H). unfold reported. by destruct (buff_buff c'). }
  split; [done|].
  intros Hex. destruct (Hal Hex) as [?|Hnone]; [by left|].
  destruct Hr as [Hr|Hr]; [|by left]. right. split; [done|].
  rewrite (Hrep Hr). unfold reported. by rewrite Hnone.
Qed.

(** ** A write that finds no buffer, a loop that finds no chunk *)

Lemma write_step1_none (i : nat) (c : gsm_conn_t) (d : list byte) (btw flush : Z) (w : World) :
  conns w !! i = Some c → buff_buff c = None →
  write_step1 env (Some i) d btw flush w = Ok (d, btw) w.
Proof.
  intros Hi Hb. destruct w as [cs ev hp lk ts tr]. cbn in Hi.
  unfold write_step1. mcbv. rewrite Hi. mcbv. by rewrite Hb.
Qed.

Lemma write_step2_done (fuel : nat) (conn : gsm_conn_p) (d : list byte) (btw : Z) (w : World) :
  btw < GSM_CFG_CONN_MAX_DATA_LEN env →
  write_step2 env fuel conn d btw w = Ok (inr (d, btw)) w.
Proof.
  intros Hlt. rewrite write_step2_unfold. unfold MAX_DATA_LEN.
  by replace (btw <? GSM_CFG_CONN_MAX_DATA_LEN env) with true by (symmetry; apply Z.ltb_lt; lia).
Qed.

(** ** An empty write that asks for a flush *)

(** C4.  [gsm_conn_write] with no data and the flush flag set, on a
    connection without buffer: the call returns [gsmOK] and does not
    fault.  It asks the allocator for one buffer of full size; when it
    gets one it copies nothing into it, and the flush of step 4 finds
    it empty, sends nothing and frees that block, once; the connection
    is left without buffer and the report is 0. *)
Theorem write_nothing_then_flush (i : nat) (c : gsm_conn_t) (flush : Z) (mem : option Z)
    (w : World) :
  env_wf env → conns w !! i = Some c → buff_buff c = None → flush ≠ 0 →
  let MAX := GSM_CFG_CONN_MAX_DATA_LEN env in
  let p := length (heap w) in
  let served := mem_alloc_ok env (trace w) MAX in
  ∃ w' c',
    gsm_conn_write env (Some i) [] 0 flush mem w
      = Ok (gsmOK, match mem with Some _ => Some 0 | None => None end) w'
    ∧ conns w' !! i = Some c' ∧ buff_buff c' = None ∧ buff_ptr c' = 0
    ∧ trace w' = (if served then [EvFree p; EvAlloc MAX (Some p)] else [EvAlloc MAX None])
                 ++ trace w
    ∧ heap w' = (if served then heap w ++ [mk_block (replicate (Z.to_nat MAX) x00) Freed]
                 else heap w)
    ∧ dispatches (if served then [EvFree p; EvAlloc MAX (Some p)] else [EvAlloc MAX None]) = []
    ∧ frees (if served then [EvFree p; EvAlloc MAX (Some p)] else [EvAlloc MAX None])
      = (if served then [p] else []).
Proof.
  intros Hwf Hi Hb Hfl MAX p served. pose proof Hwf as Hwf'. unfold env_wf in Hwf'.
  assert (Hi' : (i < length (conns w))%nat) by (eapply lookup_lt_Some; eauto).
  apply Z.eqb_neq in Hfl.
  assert (Hrun : gsm_conn_write env (Some i) [] 0 flush mem w =
            (write_step3 env (Some i) [] 0 ≫= λ r3,
             match r3 with
             | Some r => mret (r, mem)
             | None => write_step4 env (Some i) flush mem
             end) w).
  { unfold gsm_conn_write. cbn [is_none].
    rewrite (bind_run _ _ _ _ _ (write_step1_none i c [] 0 flush w Hi Hb)).
    cbv beta iota.
    rewrite (bind_run _ _ _ _ _ (write_step2_done _ (Some i) [] 0 w ltac:(lia))).
    reflexivity. }
  rewrite Hrun. clear Hrun. unfold served, p. clear served p.
  destruct w as [cs ev hp lk ts tr]. cbn [conns heap trace] in *.
  unfold write_step3, write_step4. mcbv. rewrite Hi. mcbv. rewrite Hb. mcbv.
  rewrite size_mul_max by done. fold MAX.
  destruct (mem_alloc_ok env tr MAX) eqn:Hok.
  - mcbv. rewrite Hi. mcbv. cbn [Z.eqb]. mcbv.
    rewrite list_lookup_insert_eq by done.
    unfold set_buff_ptr, set_buff_len, set_buff_buff, MAX_DATA_LEN.
    cbn [num val_id status_active status_client status_in_closing buff_buff buff_len buff_ptr].
    rewrite Hfl. mcbv.
    set (c1 := mk_conn _ _ _ _ _ (Some (length hp)) _ 0).
    set (w1 := mk_world _ _ _ _ _ _).
    rewrite (flush_buff_eq i c1 (length hp) (mk_block (replicate (Z.to_nat MAX) x00) Owned) w1);
      [| by apply list_lookup_insert_eq | done | by apply list_lookup_middle | done | done ].
    cbn [buff_ptr c1 Z.eqb]. cbv zeta. unfold w1. mcbv.
    rewrite list_insert_insert_eq, list_lookup_insert_eq by done.
    rewrite insert_snoc. cbn [blk_bytes].
    eexists _, _. split; [by destruct mem|].
    split; [by apply list_lookup_insert_eq|]. done.
  - mcbv. rewrite Hi. mcbv. cbn [Z.eqb]. mcbv.
    rewrite list_lookup_insert_eq by done.
    unfold set_buff_ptr, set_buff_len, set_buff_buff, MAX_DATA_LEN.
    cbn [num val_id status_active status_client status_in_closing buff_buff buff_len buff_ptr].
    rewrite Hfl. mcbv. rewrite list_lookup_insert_eq by done.
    cbn [buff_buff].
    eexists _, _. split; [by destruct mem|].
    split; [by apply list_lookup_insert_eq|]. done.
Qed.

(** ** Closing a connection *)

Lemma close_commands_app (new old : list event) :
  close_commands (new ++ old) = (close_commands new + close_commands old)%nat.
Proof. unfold close_commands. by rewrite List.filter_app, length_app. Qed.

Lemma gsm_conn_close_rejected (i : nat) (c : gsm_conn_t) (blocking : Z) (w : World) :
  conns w !! i = Some c →
  status_in_closing c || negb (status_active c) = true →
  gsm_conn_close env (Some i) blocking w = Ok gsmERR w.
Proof.
  intros Hi Hst. destruct w as [cs ev hp lk ts tr]. cbn in Hi.
  unfold gsm_conn_close. mcbv. rewrite Hi. mcbv.
  destruct (status_in_closing c), (status_active c); done.
Qed.

(** The state in which the close command is submitted: the envelope is
    allocated, the validation id read, the buffer flushed. *)
Lemma gsm_conn_close_flushed (i : nat) (c : gsm_conn_t) (blocking : Z) (w : World) :
  conns w !! i = Some c → buff_wf env w c →
  status_active c = true → status_in_closing c = false →
  msg_alloc_ok env (trace w) = true →
  ∃ w1 new1,
    conns w1 !! i = Some (set_buff_buff None c)
    ∧ same_core w w1
    ∧ trace w1 = new1 ++ trace w
    ∧ close_commands new1 = 0%nat
    ∧ gsm_conn_close env (Some i) blocking w =
        (gsmi_send_msg_to_producer_mbox env (close_msg i c) blocking 1000 ≫= λ res,
         (if is_ok res && (blocking =? 0) then
            GSM_CORE_PROTECT;;
            conn_update (Some i) (set_in_closing true);;
            GSM_CORE_UNPROTECT
          else mret tt);;
         mret res) w1.
Proof.
  intros Hi Hbwf Hact Hcl Hok.
  assert (Hi' : (i < length (conns w))%nat) by (eapply lookup_lt_Some; eauto).
  set (w0 := mk_world (conns w) (evt w) (heap w) (lock w) (timeouts w)
                      (EvReadValId i (val_id c) (S (lock w)) :: EvMsgAlloc true :: trace w)).
  assert (Hrun : gsm_conn_close env (Some i) blocking w =
            (flush_buff env (Some i) ≫= λ _,
             gsmi_send_msg_to_producer_mbox env (close_msg i c) blocking 1000 ≫= λ res,
             (if is_ok res && (blocking =? 0) then
                GSM_CORE_PROTECT;;
                conn_update (Some i) (set_in_closing true);;
                GSM_CORE_UNPROTECT
              else mret tt);;
             mret res) w0).
  { unfold w0. destruct w as [cs ev hp lk ts tr]. cbn in Hi, Hok.
    unfold gsm_conn_close. mcbv. rewrite Hi. mcbv. rewrite Hcl, Hact. mcbv.
    rewrite Hok. mcbv. rewrite Hi. reflexivity. }
  rewrite Hrun. clear Hrun.
  assert (Hi0 : conns w0 !! i = Some c) by done.
  destruct (buff_buff c) as [p|] eqn:Hb.
  - unfold buff_wf in Hbwf. rewrite Hb in Hbwf.
    destruct Hbwf as (b & Hp & Hst & Hlen & Hptr & Hcap).
    destruct (flush_buff_spec i c p b w0) as (r & w1 & new & Hfl & Hcld); try done; try lia.
    destruct Hcld as (Hcs & Hcore & Htr & _ & _ & Hnc & _).
    exists w1, (new ++ [EvReadValId i (val_id c) (S (lock w)); EvMsgAlloc true]).
    split; [rewrite Hcs; by apply list_lookup_insert_eq|].
    split; [done|].
    split; [by rewrite Htr, <- app_assoc|].
    split; [by rewrite close_commands_app, Hnc|].
    by rewrite (bind_run _ _ _ _ _ Hfl).
  - exists w0, [EvReadValId i (val_id c) (S (lock w)); EvMsgAlloc true].
    assert (Hc : set_buff_buff None c = c).
    { destruct c. cbn in Hb. by subst. }
    rewrite Hc. split; [done|]. split; [done|]. split; [done|]. split; [done|].
    by rewrite (bind_run _ _ _ _ _ (flush_buff_none i c w0 Hi0 Hb)).
Qed.

(** C2.  A close request on a connection that is in closing state or
    not active returns [gsmERR] with the core untouched: no envelope is
    allocated, nothing is submitted.  On an active connection a
    non-blocking close returns, with [gsmOK] whenever the environment
    never refuses; when it returned [gsmOK] it has submitted exactly
    one close command, and a second close, blocking or not, returns
    [gsmERR] and leaves the core as the first call left it. *)
Theorem close_twice (i : nat) (c : gsm_conn_t) (w : World) :
  conns w !! i = Some c → buff_wf env w c →
  (status_in_closing c = true ∨ status_active c = false →
   ∀ blocking, gsm_conn_close env (Some i) blocking w = Ok gsmERR w)
  ∧ (status_active c = true → status_in_closing c = false →
     ∃ r1 w1 new,
       gsm_conn_close env (Some i) 0 w = Ok r1 w1
       ∧ trace w1 = new ++ trace w
       ∧ (env_serves env → r1 = gsmOK)
       ∧ (r1 = gsmOK →
          close_commands new = 1%nat
          ∧ ∀ blocking, gsm_conn_close env (Some i) blocking w1 = Ok gsmERR w1)).
Proof.
  intros Hi Hbwf. split.
  - intros Hst blocking. apply (gsm_conn_close_rejected i c); [done|].
    destruct Hst as [-> | ->]; [done|]. by destruct (status_in_closing c).
  - intros Hact Hcl.
    destruct (msg_alloc_ok env (trace w)) eqn:Hok.
    + destruct (gsm_conn_close_flushed i c 0 w Hi Hbwf Hact Hcl Hok)
        as (w1 & new1 & Hi1 & Hcore1 & Htr1 & Hnc1 & Hrun).
      rewrite Hrun. clear Hrun.
      assert (Hi1' : (i < length (conns w1))%nat) by (eapply lookup_lt_Some; eauto).
      destruct w1 as [cs1 ev1 hp1 lk1 ts1 tr1]. cbn [conns trace] in *.
      mcbv.
      destruct (mbox_result env tr1 (close_msg i c) 0 1000) eqn:Hr;
        mcbv; cbn [Z.eqb]; mcbv; rewrite ?Hi1; mcbv.
      * (* accepted: the connection is now in closing state *)
        eexists gsmOK, _, (EvSubmit (close_msg i c) 0 1000 lk1 gsmOK :: new1).
        split; [reflexivity|]. cbn [trace]. split; [by rewrite Htr1|].
        split; [done|]. intros _. split.
        { change (EvSubmit (close_msg i c) 0 1000 lk1 gsmOK :: new1)
            with ([EvSubmit (close_msg i c) 0 1000 lk1 gsmOK] ++ new1).
          rewrite close_commands_app, Hnc1. done. }
        intros blocking. eapply gsm_conn_close_rejected.
        { cbn [conns]. by apply list_lookup_insert_eq. }
        done.
      * eexists _, _, (EvSubmit (close_msg i c) 0 1000 lk1 _ :: new1).
        split; [reflexivity|]. cbn [trace]. split; [by rewrite Htr1|].
        split; [|done]. intros (_ & _ & Hm). rewrite Hm in Hr. discriminate.
      * eexists _, _, (EvSubmit (close_msg i c) 0 1000 lk1 _ :: new1).
        split; [reflexivity|]. cbn [trace]. split; [by rewrite Htr1|].
        split; [|done]. intros (_ & _ & Hm). rewrite Hm in Hr. discriminate.
      * eexists _, _, (EvSubmit (close_msg i c) 0 1000 lk1 _ :: new1).
        split; [reflexivity|]. cbn [trace]. split; [by rewrite Htr1|].
        split; [|done]. intros (_ & _ & Hm). rewrite Hm in Hr. discriminate.
      * eexists _, _, (EvSubmit (close_msg i c) 0 1000 lk1 _ :: new1).
        split; [reflexivity|]. cbn [trace]. split; [by rewrite Htr1|].
        split; [|done]. intros (_ & _ & Hm). rewrite Hm in Hr. discriminate.
    + exists gsmERRMEM, (emit (EvMsgAlloc false) w), [EvMsgAlloc false].
      split.
      { destruct w as [cs ev hp lk ts tr]. cbn in Hi, Hok.
        unfold gsm_conn_close. mcbv. rewrite Hi. mcbv. rewrite Hcl, Hact. mcbv.
        by rewrite Hok. }
      split; [done|]. split; [|done].
      intros (_ & Hm & _). rewrite Hm in Hok. discriminate.
Qed.

(** ** What every submission carries, and where the lock stands *)

Lemma extends_refl (P : event → Prop) (w : World) : extends P w w.
Proof. repeat split. by exists []. Qed.

Lemma extends_trans (P : event → Prop) (w1 w2 w3 : World) :
  extends P w1 w2 → extends P w2 w3 → extends P w1 w3.
Proof.
  intros (Hl1 & Hv1 & new1 & Ht1 & Hf1) (Hl2 & Hv2 & new2 & Ht2 & Hf2).
  split; [congruence|]. split; [congruence|].
  exists (new2 ++ new1). split; [by rewrite Ht2, Ht1, app_assoc|].
  by apply Forall_app.
Qed.

Lemma extends_weaken (P Q : event → Prop) (w w' : World) :
  (∀ e, P e → Q e) → extends P w w' → extends Q w w'.
Proof.
  intros HPQ (Hl & Hv & new & Ht & Hf). split; [done|]. split; [done|].
  exists new. split; [done|]. eapply Forall_impl; eauto.
Qed.

Lemma ev_sent_good (vs : list Z) (d : nat) (b : Z) (e : event) :
  ev_sent vs d b e → ev_good vs d e.
Proof. destruct e; cbn; try done; intros; intuition lia. Qed.

Lemma ev_sent_good_inner (vs : list Z) (d : nat) (e : event) :
  ev_sent vs (S d) 0 e → ev_good vs d e.
Proof. destruct e; cbn; try done; intros; intuition lia. Qed.

Lemma Forall_sent_good (vs : list Z) (d : nat) (b : Z) (new : list event) :
  Forall (ev_sent vs d b) new → Forall (ev_good vs d) new.
Proof. induction 1; constructor; eauto using ev_sent_good. Qed.

Lemma Forall_sent_good_inner (vs : list Z) (d : nat) (new : list event) :
  Forall (ev_sent vs (S d) 0) new → Forall (ev_good vs d) new.
Proof. induction 1; constructor; eauto using ev_sent_good_inner. Qed.

Lemma vals_insert (cs : list gsm_conn_t) (i : nat) (c c' : gsm_conn_t) :
  cs !! i = Some c → val_id c' = val_id c →
  val_id <$> <[i := c']> cs = val_id <$> cs.
Proof.
  intros Hi Hv. rewrite list_fmap_insert. apply list_insert_id.
  by rewrite list_lookup_fmap, Hi, Hv.
Qed.

Ltac exists_new :=
  first [ exists (@nil event); split; [reflexivity|]
        | eexists (_ :: nil); split; [reflexivity|]
        | eexists (_ :: _ :: nil); split; [reflexivity|]
        | eexists (_ :: _ :: _ :: nil); split; [reflexivity|]
        | eexists (_ :: _ :: _ :: _ :: nil); split; [reflexivity|]
        | eexists (_ :: _ :: _ :: _ :: _ :: nil); split; [reflexivity|]
        | eexists (_ :: _ :: _ :: _ :: _ :: _ :: nil); split; [reflexivity|] ].

Lemma conn_send_sent conn ip port data btw bw fau blocking (w w' : World) a :
  conn_send env conn ip port data btw bw fau blocking w = Ok a w' →
  extends (ev_sent (vals w) (lock w) blocking) w w'.
Proof.
  intros H. destruct w as [cs ev hp lk ts tr].
  unfold conn_send in H. mcbv in H.
  repeat (case_match; try discriminate); simplify_eq.
  all: split; [done|]; (split; [done|]); exists_new; repeat constructor; cbn.
  all: try (unfold vals; cbn; rewrite list_lookup_fmap; by simplify_option_eq).
Qed.

Ltac exists_more new :=
  first [ exists new; split; [reflexivity|]
        | eexists (_ :: new); split; [reflexivity|]
        | eexists (_ :: _ :: new); split; [reflexivity|]
        | eexists (_ :: _ :: _ :: new); split; [reflexivity|] ].

Lemma flush_buff_good (conn : gsm_conn_p) (w w' : World) (r : gsmr_t) :
  flush_buff env conn w = Ok r w' →
  extends (ev_good (vals w) (lock w)) w w'.
Proof.
  intros H. destruct w as [cs ev hp lk ts tr].
  unfold flush_buff in H. mcbv in H.
  repeat (case_match; try discriminate); simplify_eq.
  all: repeat match goal with
         | Hs : conn_send _ _ _ _ _ _ _ _ _ _ = Ok _ _ |- _ =>
             apply conn_send_sent in Hs; destruct Hs as (Hl & Hv & new & Ht & Hf)
         end.
  all: repeat match goal with w0 : World |- _ => destruct w0 end.
  all: unfold extends, vals in *; cbn [lock conns trace] in *; simplify_eq.
  all: (split; [congruence|]); (split; [erewrite ?vals_insert by eauto; done|]).
  all: first [ exists_more new; repeat (constructor; [done|]);
               by apply Forall_sent_good_inner
             | exists_new; repeat constructor ].
Qed.

Lemma grown_nil (P : event → Prop) (tr : list event) : grown P tr tr.
Proof. by exists []. Qed.

Lemma grown_cons (P : event → Prop) (tr l : list event) (e : event) :
  P e → grown P tr l → grown P tr (e :: l).
Proof. intros He (new & -> & Hf). exists (e :: new). split; [done|]. by constructor. Qed.

Lemma grown_app (P : event → Prop) (tr l new : list event) :
  Forall P new → grown P tr l → grown P tr (new ++ l).
Proof.
  intros Hn (new' & -> & Hf). exists (new ++ new'). split; [by rewrite app_assoc|].
  by apply Forall_app.
Qed.

Ltac callee_facts :=
  repeat match goal with
    | Hs : conn_send _ _ _ _ _ _ _ _ _ _ = Ok _ _ |- _ =>
        apply conn_send_sent in Hs; destruct Hs as (? & ? & ? & ? & ?)
    | Hs : flush_buff _ _ _ = Ok _ _ |- _ =>
        apply flush_buff_good in Hs; destruct Hs as (? & ? & ? & ? & ?)
    end;
  repeat match goal with w0 : World |- _ => destruct w0 end;
  unfold extends, vals in *; cbn [lock conns trace] in *; simplify_eq.

Ltac same_vals :=
  repeat match goal with
    | H : context [val_id <$> <[?i := ?c']> ?cs] |- _ =>
        erewrite (vals_insert cs i _ c') in H by (first [eassumption | reflexivity])
    | |- context [val_id <$> <[?i := ?c']> ?cs] =>
        erewrite (vals_insert cs i _ c') by (first [eassumption | reflexivity])
    end;
  repeat match goal with
    | Hv : val_id <$> _ = val_id <$> _ |- _ => rewrite Hv in *; clear Hv
    end;
  try done.

Lemma grown_out (P : event → Prop) (tr l : list event) :
  grown P tr l → ∃ new, l = new ++ tr ∧ Forall P new.
Proof. done. Qed.

Ltac ev_side :=
  cbn; repeat split; try done; try lia; try (by left);
  try (rewrite list_lookup_fmap;
       match goal with
       | H : ?cs !! ?i = Some _ |- context [?cs !! ?i] => by rewrite H
       end).

Ltac grow :=
  apply grown_out;
  repeat first
    [ apply grown_nil
    | apply grown_app;
        [ first [ assumption
                | by eapply Forall_sent_good
                | by eapply Forall_sent_good_inner ] |]
    | apply grown_cons; [ ev_side |] ].

Lemma gsm_conn_sendto_good conn ip port data btw bw blocking (w w' : World) a :
  gsm_conn_sendto env conn ip port data btw bw blocking w = Ok a w' →
  extends (ev_good (vals w) (lock w)) w w'.
Proof.
  intros H. destruct w as [cs ev hp lk ts tr].
  unfold gsm_conn_sendto in H. mcbv in H.
  repeat (case_match; try discriminate); simplify_eq.
  all: callee_facts.
  all: (split; [congruence|]); (split; [same_vals|]).
  all: same_vals; grow.
Qed.

Ltac good_by_cases H :=
  mcbv in H;
  repeat (case_match; try discriminate); simplify_eq;
  callee_facts;
  (split; [congruence|]); (split; [same_vals|]);
  same_vals; grow.

Lemma gsm_conn_send_good conn data btw bw blocking (w w' : World) a :
  gsm_conn_send env conn data btw bw blocking w = Ok a w' →
  extends (ev_good (vals w) (lock w)) w w'.
Proof.
  intros H. destruct w as [cs ev hp lk ts tr].
  unfold gsm_conn_send in H. good_by_cases H.
Qed.

Lemma gsm_conn_close_good conn blocking (w w' : World) a :
  gsm_conn_close env conn blocking w = Ok a w' →
  extends (ev_good (vals w) (lock w)) w w'.
Proof.
  intros H. destruct w as [cs ev hp lk ts tr].
  unfold gsm_conn_close in H. good_by_cases H.
Qed.

Lemma gsm_conn_start_good conn_out type host port arg evt_fn blocking (w w' : World) a :
  gsm_conn_start env conn_out type host port arg evt_fn blocking w = Ok a w' →
  extends (ev_good (vals w) (lock w)) w w'.
Proof.
  intros H. destruct w as [cs ev hp lk ts tr].
  unfold gsm_conn_start in H. good_by_cases H.
Qed.

Lemma gsm_get_conns_status_good blocking (w w' : World) a :
  gsm_get_conns_status env blocking w = Ok a w' →
  extends (ev_good (vals w) (lock w)) w w'.
Proof.
  intros H. destruct w as [cs ev hp lk ts tr].
  unfold gsm_get_conns_status in H. good_by_cases H.
Qed.

Lemma write_step1_1_good conn (w w' : World) a :
  write_step1_1 env conn w = Ok a w' →
  extends (ev_good (vals w) (lock w)) w w'.
Proof.
  intros H. destruct w as [cs ev hp lk ts tr].
  unfold write_step1_1 in H. good_by_cases H.
Qed.

Lemma write_step3_good conn d btw (w w' : World) a :
  write_step3 env conn d btw w = Ok a w' →
  extends (ev_good (vals w) (lock w)) w w'.
Proof.
  intros H. destruct w as [cs ev hp lk ts tr].
  unfold write_step3 in H. good_by_cases H.
Qed.

Lemma write_step4_good conn flush mem (w w' : World) a :
  write_step4 env conn flush mem w = Ok a w' →
  extends (ev_good (vals w) (lock w)) w w'.
Proof.
  intros H. destruct w as [cs ev hp lk ts tr].
  unfold write_step4 in H. good_by_cases H.
Qed.

Lemma write_step2_good fuel conn d btw (w w' : World) a :
  write_step2 env fuel conn d btw w = Ok a w' →
  extends (ev_good (vals w) (lock w)) w w'.
Proof.
  revert d btw w. induction fuel as [|fuel IH]; intros d btw w H;
    rewrite write_step2_unfold in H.
  - destruct (btw <? MAX_DATA_LEN env); [|done].
    apply ret_Ok in H as [_ <-]. apply extends_refl.
  - destruct (btw <? MAX_DATA_LEN env).
    { apply ret_Ok in H as [_ <-]. apply extends_refl. }
    destruct w as [cs ev hp lk ts tr]. mcbv in H.
    repeat (case_match; try discriminate); simplify_eq.
    all: try match goal with
           | Hr : write_step2 _ _ _ _ _ _ = Ok _ _ |- _ =>
               apply IH in Hr; destruct Hr as (? & ? & ? & ? & ?)
           end.
    all: callee_facts.
    all: (split; [congruence|]); (split; [same_vals|]); same_vals; grow.
Qed.

Lemma write_step1_good conn d btw flush (w w' : World) a :
  write_step1 env conn d btw flush w = Ok a w' →
  extends (ev_good (vals w) (lock w)) w w'.
Proof.
  intros H. destruct w as [cs ev hp lk ts tr].
  unfold write_step1 in H. mcbv in H.
  repeat (case_match; try discriminate); simplify_eq.
  all: repeat match goal with
         | Hs : write_step1_1 _ _ _ = Ok _ _ |- _ =>
             apply write_step1_1_good in Hs; destruct Hs as (? & ? & ? & ? & ?)
         end.
  all: callee_facts.
  all: (split; [congruence|]); (split; [same_vals|]); same_vals; grow.
Qed.

Ltac step_facts :=
  repeat match goal with
    | Hs : write_step1_1 _ _ _ = Ok _ _ |- _ =>
        apply write_step1_1_good in Hs; destruct Hs as (? & ? & ? & ? & ?)
    | Hs : write_step1 _ _ _ _ _ _ = Ok _ _ |- _ =>
        apply write_step1_good in Hs; destruct Hs as (? & ? & ? & ? & ?)
    | Hs : write_step2 _ _ _ _ _ _ = Ok _ _ |- _ =>
        apply write_step2_good in Hs; destruct Hs as (? & ? & ? & ? & ?)
    | Hs : write_step3 _ _ _ _ _ = Ok _ _ |- _ =>
        apply write_step3_good in Hs; destruct Hs as (? & ? & ? & ? & ?)
    | Hs : write_step4 _ _ _ _ _ = Ok _ _ |- _ =>
        apply write_step4_good in Hs; destruct Hs as (? & ? & ? & ? & ?)
    end.

Lemma gsm_conn_write_good conn data btw flush mem (w w' : World) a :
  gsm_conn_write env conn data btw flush mem w = Ok a w' →
  extends (ev_good (vals w) (lock w)) w w'.
Proof.
  intros H. destruct w as [cs ev hp lk ts tr].
  unfold gsm_conn_write in H. mcbv in H.
  repeat (case_match; try discriminate); simplify_eq.
  all: step_facts; callee_facts.
  all: (split; [congruence|]); (split; [same_vals|]); same_vals; grow.
Qed.

Lemma run_call_good (k : api_call) (w w' : World) :
  run_call env k w = Ok tt w' → extends (ev_good (vals w) (lock w)) w w'.
Proof.
  intros H. destruct k; cbn [run_call] in H;
    apply bind_Ok in H as (a & w1 & H & Hret); apply ret_Ok in Hret as [_ <-].
  - apply conn_send_sent in H. eapply extends_weaken; [|exact H].
    intros e. apply ev_sent_good.
  - by eapply flush_buff_good.
  - by eapply gsm_conn_start_good.
  - by eapply gsm_conn_close_good.
  - by eapply gsm_conn_sendto_good.
  - by eapply gsm_conn_send_good.
  - by eapply gsm_get_conns_status_good.
  - by eapply gsm_conn_write_good.
Qed.


(** ** The poll timeout *)

(** C8.  One run of [conn_timeout_cb] on a connection of the table
    never faults.  When the connection is active it sets the poll event
    in [gsm.evt], delivers it to the connection's callback and
    registers the timeout again; when it is not active it changes
    nothing.  So the event is emitted and the timer re-armed exactly
    when the connection is active, and the last pending timer of an
    inactive connection fires into an empty timer list. *)
Theorem poll_timeout_rearms_iff_active (i : nat) (c : gsm_conn_t) (w : World) :
  conns w !! i = Some c →
  let poll := mk_evt GSM_EVT_CONN_POLL (Some i) in
  let iv := GSM_CFG_CONN_POLL_INTERVAL env in
  ∃ w',
    conn_timeout_cb env (Some i) w = Ok tt w'
    ∧ (status_active c = true →
       w' = mk_world (conns w) poll (heap w) (lock w) (timeouts w ++ [(iv, Some i)])
                     (EvTimeoutAdd iv (Some i) :: EvConnCb (Some i) poll :: trace w))
    ∧ (status_active c = false → w' = w)
    ∧ (trace w' = EvTimeoutAdd iv (Some i) :: EvConnCb (Some i) poll :: trace w
       ∧ timeouts w' = timeouts w ++ [(iv, Some i)]
       ↔ status_active c = true)
    ∧ (status_active c = false →
       ∀ t, gsm_timeout_fire env (set_timeouts [(t, Some i)] w) = Ok tt (set_timeouts [] w)).
Proof.
  intros Hi poll iv. destruct w as [cs ev hp lk ts tr]. cbn in Hi.
  unfold gsm_timeout_fire, conn_timeout_cb. mcbv. rewrite Hi. mcbv.
  destruct (status_active c) eqn:Hact; mcbv.
  - eexists. split; [reflexivity|]. split; [done|]. split; [done|]. split; [done|]. done.
  - eexists. split; [reflexivity|]. split; [done|]. split; [done|]. split; [|done].
    split; [|done]. intros [Htr _]. cbn in Htr.
    apply (f_equal length) in Htr. cbn in Htr. lia.
Qed.

End Specs.

(** One more byte written behind one staged byte: nothing is sent, two
    bytes are staged, the input has one. *)
Lemma write_total_counterexample :
  ¬ write_total_as_stated env_ok 0 [x02] 0 None w_staged.
Proof.
  intros H.
  assert (Hrun : ∃ w', gsm_conn_write env_ok (Some 0%nat) [x02] 1 0 None w_staged
                       = Ok (gsmOK, None) w'
                       ∧ trace w' = [] ∧ staged w' 0 = [x01; x02]).
  { eexists. split; [vm_compute; reflexivity|]. split; reflexivity. }
  destruct Hrun as (w' & Hrun & Htr & Hst).
  destruct (H gsmOK None w' [] Hrun Htr eq_refl) as [_ Hlen].
  rewrite Hst in Hlen. cbn in Hlen. discriminate.
Qed.

(** A write that fails for want of memory leaves the caller's cell as
    it was, whatever the connection's buffer. *)
Lemma write_reports_counterexample :
  ¬ write_reports_as_stated env_no_mem 0 [x01] 0 7 w_idle.
Proof.
  intros H.
  assert (Hrun : ∃ w' c', gsm_conn_write env_no_mem (Some 0%nat) [x01] 1 0 (Some 7) w_idle
                          = Ok (gsmERRMEM, Some 7) w'
                          ∧ conns w' !! 0%nat = Some c' ∧ buff_buff c' = None).
  { eexists _, _. split; [vm_compute; reflexivity|]. split; reflexivity. }
  destruct Hrun as (w' & c' & Hrun & Hc & Hb).
  specialize (H _ _ _ _ Hrun Hc). rewrite Hb in H. discriminate.
Qed.


(** C7.  On a connection without write buffer [flush_buff] returns
    [gsmOK], and so it does for the [NULL] handle, although nothing was
    flushed. *)
Theorem flush_buff_without_buffer_returns_ok (env : Env) :
  flush_buff env (Some 0%nat) w_idle = Ok gsmOK w_idle
  ∧ flush_buff env None w_idle = Ok gsmOK w_idle.
Proof. split; reflexivity. Qed.

(** ** The theorems at concrete inputs *)

Lemma env_ok_wf : env_wf env_ok.
Proof. unfold env_wf, size_mod. cbn. lia. Defined.

Lemma w_staged_wf : buff_wf env_ok w_staged conn_staged.
Proof.
  unfold buff_wf. cbn. eexists. split; [reflexivity|]. split; [reflexivity|].
  unfold size_mod. cbn. lia.
Defined.

Lemma w_idle_wf : buff_wf env_ok w_idle conn_idle.
Proof. exact I. Defined.

Lemma write_partitions_witness :
  ∃ r m w' new,
    gsm_conn_write env_ok (Some 0%nat) [x02; x03; x04; x05] 4 1 None w_staged = Ok (r, m) w'
    ∧ trace w' = new ++ trace w_staged
    ∧ (r = gsmOK →
       concat (chunks new) ++ staged w' 0 = staged w_staged 0 ++ [x02; x03; x04; x05]
       ∧ (length (concat (chunks new)) + length (staged w' 0)
          = length (staged w_staged 0) + length [x02; x03; x04; x05])%nat).
Proof.
  apply (write_partitions_staged_and_input env_ok 0 conn_staged [x02; x03; x04; x05] 1 None
           w_staged env_ok_wf eq_refl w_staged_wf).
  unfold size_mod. cbn. lia.
Defined.

Lemma close_twice_witness :
  (status_in_closing conn_idle = true ∨ status_active conn_idle = false →
   ∀ blocking, gsm_conn_close env_ok (Some 0%nat) blocking w_idle = Ok gsmERR w_idle)
  ∧ (status_active conn_idle = true → status_in_closing conn_idle = false →
     ∃ r1 w1 new,
       gsm_conn_close env_ok (Some 0%nat) 0 w_idle = Ok r1 w1
       ∧ trace w1 = new ++ trace w_idle
       ∧ (env_serves env_ok → r1 = gsmOK)
       ∧ (r1 = gsmOK →
          close_commands new = 1%nat
          ∧ ∀ blocking, gsm_conn_close env_ok (Some 0%nat) blocking w1 = Ok gsmERR w1)).
Proof. exact (close_twice env_ok 0 conn_idle w_idle eq_refl w_idle_wf). Defined.

Lemma write_nothing_then_flush_witness :
  ∃ w' c',
    gsm_conn_write env_ok (Some 0%nat) [] 0 1 (Some 9) w_idle = Ok (gsmOK, Some 0) w'
    ∧ conns w' !! 0%nat = Some c' ∧ buff_buff c' = None ∧ buff_ptr c' = 0
    ∧ trace w' = [EvFree 0; EvAlloc 4 (Some 0%nat)]
    ∧ heap w' = [mk_block [x00; x00; x00; x00] Freed]
    ∧ dispatches [EvFree 0; EvAlloc 4 (Some 0%nat)] = []
    ∧ frees [EvFree 0; EvAlloc 4 (Some 0%nat)] = [0%nat].
Proof.
  apply (write_nothing_then_flush env_ok 0 conn_idle 1 (Some 9) w_idle env_ok_wf eq_refl eq_refl).
  lia.
Defined.

Lemma write_reports_available_witness :
  ∃ r m w' c' new,
    gsm_conn_write env_ok (Some 0%nat) [x02] 1 0 (Some 9) w_staged = Ok (r, m) w'
    ∧ conns w' !! 0%nat = Some c'
    ∧ trace w' = new ++ trace w_staged
    ∧ (r = gsmOK ∨ r = gsmERRMEM)
    ∧ (r = gsmOK →
       m = Some (match buff_buff c' with
                 | Some _ => buff_len c' - buff_ptr c'
                 | None => 0
                 end))
    ∧ (r ≠ gsmOK → m = Some 9)
    ∧ (existsb alloc_failed new = true → r = gsmERRMEM ∨ (r = gsmOK ∧ m = Some 0)).
Proof.
  apply (write_reports_available env_ok 0 conn_staged [x02] 0 9 w_staged
           env_ok_wf eq_refl w_staged_wf).
  unfold size_mod. cbn. lia.
Defined.

Lemma poll_timeout_witness :
  ∃ w',
    conn_timeout_cb env_ok (Some 0%nat) w_idle = Ok tt w'
    ∧ (status_active conn_idle = true →
       w' = mk_world [conn_idle] (mk_evt GSM_EVT_CONN_POLL (Some 0%nat)) [] 0
                     [(500, Some 0%nat)]
                     [EvTimeoutAdd 500 (Some 0%nat);
                      EvConnCb (Some 0%nat) (mk_evt GSM_EVT_CONN_POLL (Some 0%nat))])
    ∧ (status_active conn_idle = false → w' = w_idle)
    ∧ (trace w' = [EvTimeoutAdd 500 (Some 0%nat);
                   EvConnCb (Some 0%nat) (mk_evt GSM_EVT_CONN_POLL (Some 0%nat))]
       ∧ timeouts w' = [(500, Some 0%nat)]
       ↔ status_active conn_idle = true)
    ∧ (status_active conn_idle = false →
       ∀ t, gsm_timeout_fire env_ok (set_timeouts [(t, Some 0%nat)] w_idle)
            = Ok tt (set_timeouts [] w_idle)).
Proof. exact (poll_timeout_rearms_iff_active env_ok 0 conn_idle w_idle eq_refl). Defined.


(** * More of the connection API *)

Section Accessors.

Variable env : Env.

(** ** Role accessors *)

(** X1.  For every handle the three role accessors return without
    touching the state, [is_client] and [is_server] exclude each other
    and add up to [is_active]; all three are 0 for [NULL] and for a
    pointer outside the table. *)
Theorem client_server_partition_active (conn : gsm_conn_p) (w : World) :
  ∃ cl sv ac : Z,
    gsm_conn_is_client conn w = Ok cl w
    ∧ gsm_conn_is_server conn w = Ok sv w
    ∧ gsm_conn_is_active conn w = Ok ac w
    ∧ cl + sv = ac ∧ (cl = 0 ∨ cl = 1) ∧ (sv = 0 ∨ sv = 1)
    ∧ match conn with
      | Some i =>
          match conns w !! i with
          | Some c => cl = Z_of_bool (status_active c && status_client c)
          | None => ac = 0
          end
      | None => ac = 0
      end.
Proof.
  destruct w as [cs ev hp lk ts tr].
  destruct conn as [i|]; [|exists 0, 0, 0; repeat split; first [reflexivity | lia]].
  unfold gsm_conn_is_client, gsm_conn_is_server, gsm_conn_is_active, gsmi_is_valid_conn_ptr.
  destruct (cs !! i) as [c|] eqn:Hi.
  - exists (Z_of_bool (status_active c && status_client c)),
      (Z_of_bool (status_active c && negb (status_client c))),
      (Z_of_bool (status_active c)).
    mcbv. rewrite bool_decide_eq_true_2 by (by eapply lookup_lt_Some). mcbv. rewrite Hi. mcbv.
    do 3 (split; [reflexivity|]).
    destruct (status_active c), (status_client c); cbn; lia.
  - exists 0, 0, 0.
    mcbv. rewrite bool_decide_eq_false_2 by (apply lookup_ge_None in Hi; lia). mcbv.
    rewrite Hi. repeat split; lia.
Qed.

(** ** The slot number *)

Lemma int8_of_small (z : Z) : 0 ≤ z < 128 → int8_of z = z.
Proof. intros. unfold int8_of. rewrite Z.mod_small; lia. Qed.

(** X2.  When the slot numbers of the table fit a signed byte,
    [gsm_conn_getnum] returns -1 exactly for [NULL] and for a pointer
    outside the table, and the slot number of the connection
    otherwise; it never touches the state. *)
Theorem getnum_fails_iff_no_slot (conn : gsm_conn_p) (w : World) :
  (∀ i c, conns w !! i = Some c → 0 ≤ num c < 128) →
  ∃ n, gsm_conn_getnum conn w = Ok n w
       ∧ (n = -1 ↔ match conn with
                   | Some i => conns w !! i = None
                   | None => True
                   end)
       ∧ ∀ i c, conn = Some i → conns w !! i = Some c → n = num c.
Proof.
  intros Hnum. destruct w as [cs ev hp lk ts tr]. cbn in Hnum.
  destruct conn as [i|]; [|exists (-1); by repeat split].
  unfold gsm_conn_getnum, gsmi_is_valid_conn_ptr.
  destruct (cs !! i) as [c|] eqn:Hi.
  - exists (num c). specialize (Hnum i c Hi).
    mcbv. rewrite bool_decide_eq_true_2 by (by eapply lookup_lt_Some). mcbv. rewrite Hi. mcbv.
    rewrite int8_of_small by done.
    split; [reflexivity|]. split.
    + split; [lia|done].
    + intros ? ? [= <-] ?. congruence.
  - exists (-1).
    mcbv. rewrite bool_decide_eq_false_2 by (apply lookup_ge_None in Hi; lia). mcbv.
    split; [reflexivity|]. split; [done|]. intros ? ? [= <-] ?. congruence.
Qed.

(** ** The connection of an event *)

(** X3.  The poll event that [conn_timeout_cb] leaves in [gsm.evt] and
    delivers to the callback of an active connection gives that
    connection back through [gsm_conn_get_from_evt]; an event that is
    not of a connection kind gives [NULL], whatever it holds. *)
Theorem poll_event_yields_connection (i : nat) (c : gsm_conn_t) (w : World) :
  conns w !! i = Some c → status_active c = true →
  ∃ w' e,
    conn_timeout_cb env (Some i) w = Ok tt w'
    ∧ evt w' = e
    ∧ trace w' = EvTimeoutAdd (GSM_CFG_CONN_POLL_INTERVAL env) (Some i)
                   :: EvConnCb (Some i) e :: trace w
    ∧ gsm_conn_get_from_evt e = Some i
    ∧ ∀ x, gsm_conn_get_from_evt (mk_evt GSM_EVT_NONE x) = None.
Proof.
  intros Hi Hact. destruct w as [cs ev hp lk ts tr]. cbn in Hi.
  unfold conn_timeout_cb. mcbv. rewrite Hi. mcbv. rewrite Hact. mcbv.
  do 2 eexists. split; [reflexivity|]. by repeat split.
Qed.

(** ** The poll timer, firing after firing *)

Lemma polls_app (new old : list event) : polls (new ++ old) = (polls new + polls old)%nat.
Proof. unfold polls. by rewrite List.filter_app, length_app. Qed.

Lemma gsm_timeout_fires_active (n i : nat) (c : gsm_conn_t) (t : Z) (w : World) :
  conns w !! i = Some c → status_active c = true → timeouts w = [(t, Some i)] →
  ∃ w' new,
    gsm_timeout_fires env (S n) w = Ok tt w'
    ∧ conns w' = conns w ∧ heap w' = heap w ∧ lock w' = lock w
    ∧ timeouts w' = [(GSM_CFG_CONN_POLL_INTERVAL env, Some i)]
    ∧ trace w' = new ++ trace w ∧ polls new = S n.
Proof.
  revert t w. induction n as [|n IH]; intros t w Hi Hact Hts;
    destruct w as [cs ev hp lk ts tr]; cbn in Hi, Hts; subst ts.
  - cbn [gsm_timeout_fires]. unfold gsm_timeout_fire, conn_timeout_cb. mcbv.
    rewrite Hi. mcbv. rewrite Hact. mcbv.
    eexists _, [_; _]. split; [reflexivity|]. by repeat split.
  - change (gsm_timeout_fires env (S (S n)))
      with (gsm_timeout_fire env;; gsm_timeout_fires env (S n)).
    set (w1 := mk_world cs (mk_evt GSM_EVT_CONN_POLL (Some i)) hp lk
                 [(GSM_CFG_CONN_POLL_INTERVAL env, Some i)]
                 (EvTimeoutAdd (GSM_CFG_CONN_POLL_INTERVAL env) (Some i)
                    :: EvConnCb (Some i) (mk_evt GSM_EVT_CONN_POLL (Some i)) :: tr)).
    assert (Hfire : gsm_timeout_fire env (mk_world cs ev hp lk [(t, Some i)] tr) = Ok tt w1).
    { unfold gsm_timeout_fire, conn_timeout_cb. mcbv. rewrite Hi. mcbv. rewrite Hact. by mcbv. }
    rewrite (bind_run _ _ _ _ _ Hfire).
    destruct (IH (GSM_CFG_CONN_POLL_INTERVAL env) w1 Hi Hact eq_refl)
      as (w' & new & Hrun & Hc & Hh & Hl & Hts & Htr & Hp).
    exists w', (new ++ [EvTimeoutAdd (GSM_CFG_CONN_POLL_INTERVAL env) (Some i);
                        EvConnCb (Some i) (mk_evt GSM_EVT_CONN_POLL (Some i))]).
    split; [exact Hrun|]. repeat split; try done.
    + by rewrite Htr, <- app_assoc.
    + rewrite polls_app, Hp. cbn. lia.
Qed.

Lemma gsm_timeout_fires_idle (n : nat) (w : World) :
  timeouts w = [] → gsm_timeout_fires env n w = Ok tt w.
Proof.
  intros Hts. induction n as [|n IH]; [done|].
  cbn [gsm_timeout_fires].
  assert (Hfire : gsm_timeout_fire env w = Ok tt w).
  { unfold gsm_timeout_fire. destruct w as [cs ev hp lk ts tr]. cbn in Hts. by subst ts. }
  by rewrite (bind_run _ _ _ _ _ Hfire).
Qed.

(** X4.  Once [gsmi_conn_start_timeout] has armed the timer of a
    connection and no other timer is pending, [n] firings deliver
    exactly [n] poll events and leave exactly one timer pending as long
    as the connection is active; for a connection that is not active
    the first firing delivers nothing and leaves no timer, and no later
    firing does anything.  The connection table, the heap and the lock
    are never touched. *)
Theorem poll_timer_chain (n i : nat) (c : gsm_conn_t) (w : World) :
  conns w !! i = Some c → timeouts w = [] →
  let iv := GSM_CFG_CONN_POLL_INTERVAL env in
  ∃ w' new,
    (gsmi_conn_start_timeout env (Some i);; gsm_timeout_fires env n) w = Ok tt w'
    ∧ conns w' = conns w ∧ heap w' = heap w ∧ lock w' = lock w
    ∧ trace w' = new ++ EvTimeoutAdd iv (Some i) :: trace w
    ∧ polls new = (if status_active c then n else 0%nat)
    ∧ timeouts w' = (if status_active c || bool_decide (n = 0%nat) then [(iv, Some i)] else []).
Proof.
  intros Hi Hts iv. destruct w as [cs ev hp lk ts tr]. cbn in Hi, Hts. subst ts.
  set (w1 := mk_world cs ev hp lk [(iv, Some i)] (EvTimeoutAdd iv (Some i) :: tr)).
  assert (Hstart : gsmi_conn_start_timeout env (Some i) (mk_world cs ev hp lk [] tr) = Ok tt w1)
    by done.
  rewrite (bind_run _ _ _ _ _ Hstart).
  destruct n as [|n].
  { exists w1, []. rewrite orb_true_r. destruct (status_active c); by repeat split. }
  rewrite bool_decide_eq_false_2 by lia. rewrite orb_false_r.
  destruct (status_active c) eqn:Hact.
  - destruct (gsm_timeout_fires_active n i c iv w1 Hi Hact eq_refl)
      as (w' & new & Hrun & Hc & Hh & Hl & Hts & Htr & Hp).
    exists w', new. by repeat split.
  - exists (mk_world cs ev hp lk [] (EvTimeoutAdd iv (Some i) :: tr)), [].
    split; [|by repeat split].
    cbn [gsm_timeout_fires].
    assert (Hfire : gsm_timeout_fire env w1
                    = Ok tt (mk_world cs ev hp lk [] (EvTimeoutAdd iv (Some i) :: tr))).
    { unfold w1, gsm_timeout_fire, conn_timeout_cb. mcbv. rewrite Hi. mcbv. rewrite Hact. by mcbv. }
    rewrite (bind_run _ _ _ _ _ Hfire). by apply gsm_timeout_fires_idle.
Qed.

End Accessors.

(** ** User argument, end points, receive counter *)

Ltac info_cbv :=
  cbv beta iota zeta delta
    [mbind M_bind mret M_ret modify set_lock lock conns evt heap timeouts trace
     GSM_CORE_PROTECT GSM_CORE_UNPROTECT info_load info_update is_some andb].

Lemma gsm_conn_get_arg_slot (i : nat) (x : gsm_conn_info_t) (ci : list gsm_conn_info_t)
    (w : World) :
  ci !! i = Some x → gsm_conn_get_arg (Some i) ci w = Ok (arg x) w.
Proof.
  intros Hi. destruct w as [cs ev hp lk ts tr].
  unfold gsm_conn_get_arg. info_cbv. by rewrite Hi.
Qed.

(** X15.  The user argument that [gsm_conn_set_arg] stores in a
    connection is what [gsm_conn_get_arg] reads from it afterwards; the
    arguments of the other connections, the end points and the receive
    counter of this one, and the core are as before. *)
Theorem arg_set_then_get (i : nat) (a : Z) (x : gsm_conn_info_t)
    (ci : list gsm_conn_info_t) (w : World) :
  ci !! i = Some x →
  ∃ ci' x',
    gsm_conn_set_arg (Some i) a ci w = Ok (gsmOK, ci') w
    ∧ gsm_conn_get_arg (Some i) ci' w = Ok a w
    ∧ ci' !! i = Some x'
    ∧ remote_ip x' = remote_ip x ∧ remote_port x' = remote_port x
    ∧ local_port x' = local_port x ∧ tcp_available_data x' = tcp_available_data x
    ∧ ∀ j, j ≠ i →
        ci' !! j = ci !! j
        ∧ gsm_conn_get_arg (Some j) ci' w = gsm_conn_get_arg (Some j) ci w.
Proof.
  intros Hi.
  assert (Hlt : (i < length ci)%nat) by (by eapply lookup_lt_Some).
  exists (<[i := set_arg a x]> ci), (set_arg a x).
  assert (Hi' : <[i := set_arg a x]> ci !! i = Some (set_arg a x))
    by (by apply list_lookup_insert_eq).
  split.
  { destruct w as [cs ev hp lk ts tr]. unfold gsm_conn_set_arg. info_cbv. by rewrite Hi. }
  split; [by rewrite (gsm_conn_get_arg_slot i (set_arg a x))|].
  split; [done|]. do 4 (split; [done|]).
  intros j Hj.
  assert (Hj' : <[i := set_arg a x]> ci !! j = ci !! j) by (by apply list_lookup_insert_ne).
  split; [done|].
  destruct w as [cs ev hp lk ts tr]. unfold gsm_conn_get_arg. info_cbv. by rewrite Hj'.
Qed.

(** X16.  The end-point getters check their pointers: for a [NULL]
    handle the two port getters return 0, and [gsm_conn_get_remote_ip]
    returns 0 and leaves the output cell alone when the handle or the
    cell is [NULL]; for a connection of the table they return its
    ports, and 1 with its address copied into the cell.  None of them
    changes the core. *)
Theorem end_point_getters (ci : list gsm_conn_info_t) (w : World) :
  gsm_conn_get_remote_port None ci w = Ok 0 w
  ∧ gsm_conn_get_local_port None ci w = Ok 0 w
  ∧ (∀ ip, gsm_conn_get_remote_ip None ip ci w = Ok (0, ip) w)
  ∧ (∀ conn, gsm_conn_get_remote_ip conn None ci w = Ok (0, None) w)
  ∧ ∀ i x, ci !! i = Some x →
      gsm_conn_get_remote_port (Some i) ci w = Ok (remote_port x) w
      ∧ gsm_conn_get_local_port (Some i) ci w = Ok (local_port x) w
      ∧ ∀ old, gsm_conn_get_remote_ip (Some i) (Some old) ci w
               = Ok (1, Some (remote_ip x)) w.
Proof.
  destruct w as [cs ev hp lk ts tr].
  split; [done|]. split; [done|]. split; [done|].
  split; [by intros [?|]|].
  intros i x Hi.
  unfold gsm_conn_get_remote_port, gsm_conn_get_local_port, gsm_conn_get_remote_ip.
  info_cbv. by rewrite Hi.
Qed.

(** X17.  [gsm_conn_recved] always returns [gsmOK].  With manual TCP
    receive it takes the length of the packet buffer off the counter of
    unacknowledged bytes only when the counter is strictly larger, so
    the counter never wraps and never reaches zero this way; without
    manual receive, and in every case for the other fields and the
    other connections, nothing changes. *)
Theorem recved_counter (env : Env) (manual : bool) (i : nat) (x : gsm_conn_info_t) (len : Z)
    (ci : list gsm_conn_info_t) (w : World) :
  ci !! i = Some x → 0 ≤ len → tcp_available_data x < size_mod env →
  let n := tcp_available_data x in
  let n' := if manual && (len <? n) then n - len else n in
  gsm_conn_recved env manual (Some i) len ci w
    = Ok (gsmOK, <[i := set_tcp_available_data n' x]> ci) w
  ∧ n' ≤ n ∧ (0 < n → 0 < n').
Proof.
  intros Hi Hlen Hn n n'. subst n n'.
  assert (Hid : <[i := set_tcp_available_data (tcp_available_data x) x]> ci = ci).
  { apply list_insert_id. rewrite Hi. by destruct x. }
  destruct w as [cs ev hp lk ts tr]. unfold gsm_conn_recved.
  destruct manual; cbn [andb].
  2: { rewrite Hid. split; [done|]. lia. }
  info_cbv. rewrite Hi.
  destruct (Z.ltb_spec len (tcp_available_data x)) as [Hlt|Hge].
  - info_cbv. rewrite size_sub_small by lia. split; [done|]. lia.
  - rewrite Hid. split; [done|]. lia.
Qed.

Section Sound.

Variable env : Env.

(** ** Moves that keep the state sound *)

Lemma buff_wf_same_heap (w w' : World) (c : gsm_conn_t) :
  heap w' = heap w → buff_wf env w c → buff_wf env w' c.
Proof. unfold buff_wf. by intros ->. Qed.

Lemma buff_wf_other (w w' : World) (c : gsm_conn_t) (p : nat) (blk : block) :
  heap w' = <[p := blk]> (heap w) → buff_buff c ≠ Some p →
  buff_wf env w c → buff_wf env w' c.
Proof.
  unfold buff_wf. intros Hh Hne Hwf. destruct (buff_buff c) as [q|]; [|done].
  destruct Hwf as (b & Hq & Hrest). exists b. split; [|done].
  rewrite Hh, list_lookup_insert_ne; [done|congruence].
Qed.

Lemma buff_wf_grown (w w' : World) (c : gsm_conn_t) (more : list block) :
  heap w' = heap w ++ more → buff_wf env w c → buff_wf env w' c.
Proof.
  unfold buff_wf. intros Hh Hwf. destruct (buff_buff c) as [q|]; [|done].
  destruct Hwf as (b & Hq & Hrest). exists b. split; [|done].
  rewrite Hh. by apply lookup_app_l_Some.
Qed.

(** Nothing of the connection table or the heap changes. *)
Lemma wf_same (w w' : World) :
  world_wf env w → conns w' = conns w → heap w' = heap w → world_wf env w'.
Proof.
  intros (Hb & Ha & Hl) Hc Hh. unfold world_wf. rewrite Hc, Hh.
  split; [|done]. intros i c Hi. destruct (Hb i c Hi) as [Hwf Hrest]. split; [|done].
  by eapply buff_wf_same_heap.
Qed.

(** A connection without buffer changes fields. *)
Lemma wf_unbuffered (w w' : World) (i : nat) (c c' : gsm_conn_t) :
  world_wf env w → conns w !! i = Some c → buff_buff c = None →
  conns w' = <[i := c']> (conns w) → buff_buff c' = None →
  heap w' = heap w → world_wf env w'.
Proof.
  intros (Hb & Ha & Hl) Hi Hn Hc Hn' Hh.
  assert (Hlt : (i < length (conns w))%nat) by (by eapply lookup_lt_Some).
  unfold world_wf. rewrite Hc, Hh. split; [|split].
  - intros j cj Hj. destruct (decide (j = i)) as [->|Hne].
    + rewrite list_lookup_insert_eq in Hj by done. simplify_eq.
      unfold buff_wf, buff_at_rest. by rewrite Hn'.
    + rewrite list_lookup_insert_ne in Hj by done.
      destruct (Hb j cj Hj) as [Hwf Hrest]. split; [|done].
      by eapply buff_wf_same_heap.
  - intros j k cj ck p Hj Hk Hpj Hpk.
    destruct (decide (j = i)) as [->|Hji].
    { rewrite list_lookup_insert_eq in Hj by done. simplify_eq; congruence. }
    destruct (decide (k = i)) as [->|Hki].
    { rewrite list_lookup_insert_eq in Hk by done. simplify_eq; congruence. }
    rewrite list_lookup_insert_ne in Hj, Hk by done. eauto.
  - intros p b Hp Hst. destruct (Hl p b Hp Hst) as (j & cj & Hj & Hpj).
    exists j, cj. split; [|done].
    rewrite list_lookup_insert_ne; [done|]. intros ->. congruence.
Qed.

(** The buffer of a connection leaves this layer, whatever was copied
    into it before. *)
Lemma wf_release (w w' : World) (i : nat) (c c' : gsm_conn_t) (p : nat) (blk : block) :
  world_wf env w → conns w !! i = Some c → buff_buff c = Some p →
  conns w' = <[i := c']> (conns w) → buff_buff c' = None →
  heap w' = <[p := blk]> (heap w) → blk_state blk ≠ Owned → world_wf env w'.
Proof.
  intros (Hb & Ha & Hl) Hi Hp Hc Hn' Hh Hst.
  assert (Hlt : (i < length (conns w))%nat) by (by eapply lookup_lt_Some).
  assert (Hplt : (p < length (heap w))%nat).
  { destruct (Hb i c Hi) as [Hwf _]. unfold buff_wf in Hwf. rewrite Hp in Hwf.
    destruct Hwf as (b & Hb' & _). by eapply lookup_lt_Some. }
  unfold world_wf. rewrite Hc. split; [|split].
  - intros j cj Hj. destruct (decide (j = i)) as [->|Hne].
    + rewrite list_lookup_insert_eq in Hj by done. simplify_eq.
      unfold buff_wf, buff_at_rest. by rewrite Hn'.
    + rewrite list_lookup_insert_ne in Hj by done.
      destruct (Hb j cj Hj) as [Hwf Hrest]. split; [|done].
      eapply buff_wf_other; [done| |done].
      intros Hq. apply Hne. by eapply (Ha j i).
  - intros j k cj ck q Hj Hk Hqj Hqk.
    destruct (decide (j = i)) as [->|Hji].
    { rewrite list_lookup_insert_eq in Hj by done. simplify_eq; congruence. }
    destruct (decide (k = i)) as [->|Hki].
    { rewrite list_lookup_insert_eq in Hk by done. simplify_eq; congruence. }
    rewrite list_lookup_insert_ne in Hj, Hk by done. eauto.
  - intros q b Hq Hown. rewrite Hh in Hq.
    destruct (decide (q = p)) as [->|Hqp].
    { rewrite list_lookup_insert_eq in Hq by done. simplify_eq. }
    rewrite list_lookup_insert_ne in Hq by done.
    destruct (Hl q b Hq Hown) as (j & cj & Hj & Hqj).
    exists j, cj. split; [|done].
    rewrite list_lookup_insert_ne; [done|]. intros ->. congruence.
Qed.

(** Bytes are copied into the buffer of a connection and its used
    length moves, leaving room. *)
Lemma wf_copy (w w' : World) (i : nat) (c c' : gsm_conn_t) (p : nat) (b : block)
    (bs : list byte) :
  world_wf env w → conns w !! i = Some c → buff_buff c = Some p → heap w !! p = Some b →
  conns w' = <[i := c']> (conns w) →
  buff_buff c' = Some p → buff_len c' = buff_len c → 0 ≤ buff_ptr c' < buff_len c →
  heap w' = <[p := mk_block bs Owned]> (heap w) → length bs = length (blk_bytes b) →
  world_wf env w'.
Proof.
  intros (Hb & Ha & Hl) Hi Hp Hblk Hc Hp' Hlen Hptr Hh Hbs.
  assert (Hlt : (i < length (conns w))%nat) by (by eapply lookup_lt_Some).
  assert (Hplt : (p < length (heap w))%nat) by (by eapply lookup_lt_Some).
  destruct (Hb i c Hi) as [Hwf Hrest].
  unfold buff_wf in Hwf. unfold buff_at_rest in Hrest. rewrite Hp in Hwf, Hrest.
  destruct Hwf as (b0 & Hb0 & Hst0 & Hl0 & Hptr0 & Hcap0). simplify_eq.
  unfold world_wf. rewrite Hc. split; [|split].
  - intros j cj Hj. destruct (decide (j = i)) as [->|Hne].
    + rewrite list_lookup_insert_eq in Hj by done. simplify_eq.
      unfold buff_wf, buff_at_rest. rewrite Hp'. split; [|lia].
      exists (mk_block bs Owned).
      rewrite Hh, list_lookup_insert_eq by done. cbn. repeat split; try done; lia.
    + rewrite list_lookup_insert_ne in Hj by done.
      destruct (Hb j cj Hj) as [Hwf Hrest']. split; [|done].
      eapply buff_wf_other; [done| |done].
      intros Hq. apply Hne. by eapply (Ha j i).
  - intros j k cj ck q Hj Hk Hqj Hqk.
    assert (Hold : ∀ n cn, <[i := c']> (conns w) !! n = Some cn → buff_buff cn = Some q →
                           ∃ cn0, conns w !! n = Some cn0 ∧ buff_buff cn0 = Some q).
    { intros n cn Hn Hqn. destruct (decide (n = i)) as [->|Hni].
      - rewrite list_lookup_insert_eq in Hn by done. simplify_eq. exists c.
        split; [done|congruence].
      - rewrite list_lookup_insert_ne in Hn by done. by exists cn. }
    destruct (Hold j cj Hj Hqj) as (cj0 & Hj0 & Hqj0).
    destruct (Hold k ck Hk Hqk) as (ck0 & Hk0 & Hqk0). eauto.
  - intros q b0 Hq Hown. rewrite Hh in Hq.
    destruct (decide (q = p)) as [->|Hqp].
    { exists i, c'. split; [by apply list_lookup_insert_eq|done]. }
    rewrite list_lookup_insert_ne in Hq by done.
    destruct (Hl q b0 Hq Hown) as (j & cj & Hj & Hqj).
    exists j, cj. split; [|done].
    rewrite list_lookup_insert_ne; [done|]. intros ->. congruence.
Qed.

(** A connection without buffer gets a fresh block as its buffer. *)
Lemma wf_attach (w w' : World) (i : nat) (c c' : gsm_conn_t) (bs : list byte) :
  world_wf env w → conns w !! i = Some c → buff_buff c = None →
  conns w' = <[i := c']> (conns w) →
  buff_buff c' = Some (length (heap w)) →
  buff_len c' = GSM_CFG_CONN_MAX_DATA_LEN env → 0 ≤ buff_ptr c' < buff_len c' →
  buff_len c' < size_mod env →
  heap w' = heap w ++ [mk_block bs Owned] → Z.of_nat (length bs) = buff_len c' →
  world_wf env w'.
Proof.
  intros (Hb & Ha & Hl) Hi Hn Hc Hp' Hlen Hptr Hcap Hh Hbs.
  assert (Hlt : (i < length (conns w))%nat) by (by eapply lookup_lt_Some).
  assert (Hin : ∀ n cn q, conns w !! n = Some cn → buff_buff cn = Some q →
                          (q < length (heap w))%nat).
  { intros n cn q Hcn Hq. destruct (Hb n cn Hcn) as [Hwf _].
    unfold buff_wf in Hwf. rewrite Hq in Hwf. destruct Hwf as (b & Hb' & _).
    by eapply lookup_lt_Some. }
  unfold world_wf. rewrite Hc. split; [|split].
  - intros j cj Hj. destruct (decide (j = i)) as [->|Hne].
    + rewrite list_lookup_insert_eq in Hj by done. simplify_eq.
      unfold buff_wf, buff_at_rest. rewrite Hp'. split; [|lia].
      exists (mk_block bs Owned).
      rewrite Hh. rewrite lookup_app_r by done. rewrite Nat.sub_diag. cbn.
      repeat split; try done; lia.
    + rewrite list_lookup_insert_ne in Hj by done.
      destruct (Hb j cj Hj) as [Hwf Hrest]. split; [|done].
      by eapply buff_wf_grown.
  - intros j k cj ck q Hj Hk Hqj Hqk.
    destruct (decide (j = i)) as [->|Hji]; destruct (decide (k = i)) as [->|Hki]; try done.
    + rewrite list_lookup_insert_eq in Hj by done.
      rewrite list_lookup_insert_ne in Hk by done. simplify_eq.
      specialize (Hin k ck _ Hk Hqk). lia.
    + rewrite list_lookup_insert_eq in Hk by done.
      rewrite list_lookup_insert_ne in Hj by done. simplify_eq.
      specialize (Hin j cj _ Hj Hqj). lia.
    + rewrite list_lookup_insert_ne in Hj, Hk by done. eauto.
  - intros q b0 Hq Hown. rewrite Hh in Hq.
    apply lookup_app_Some in Hq as [Hq | [Hge Hq]].
    + destruct (Hl q b0 Hq Hown) as (j & cj & Hj & Hqj).
      exists j, cj. split; [|done].
      rewrite list_lookup_insert_ne; [done|]. intros ->. congruence.
    + assert (q = length (heap w)) as ->.
      { apply lookup_lt_Some in Hq. cbn in Hq. lia. }
      exists i, c'. split; [by apply list_lookup_insert_eq|done].
Qed.

(** A block is allocated, filled and handed on or freed at once. *)
Lemma wf_temp (w w' : World) (blk : block) :
  world_wf env w → conns w' = conns w →
  heap w' = heap w ++ [blk] → blk_state blk ≠ Owned → world_wf env w'.
Proof.
  intros (Hb & Ha & Hl) Hc Hh Hst. unfold world_wf. rewrite Hc. split; [|split].
  - intros j cj Hj. destruct (Hb j cj Hj) as [Hwf Hrest]. split; [|done].
    by eapply buff_wf_grown.
  - done.
  - intros q b0 Hq Hown. rewrite Hh in Hq.
    apply lookup_app_Some in Hq as [Hq | [Hge Hq]]; [by eapply Hl|].
    destruct (q - length (heap w))%nat; cbn in Hq; simplify_eq.
Qed.

Lemma wf_conn (w : World) (i : nat) (c : gsm_conn_t) :
  world_wf env w → conns w !! i = Some c → buff_wf env w c.
Proof. intros (Hb & _) Hi. by apply (Hb i). Qed.

Lemma wf_at_rest (w : World) (i : nat) (c : gsm_conn_t) :
  world_wf env w → conns w !! i = Some c → buff_at_rest env c.
Proof. intros (Hb & _) Hi. by apply (Hb i). Qed.

End Sound.

Section Runs.

Variable env : Env.

(** ** The operations, run on a sound connection *)

Lemma staged_buffer (i : nat) (c : gsm_conn_t) (p : nat) (b : block) (w : World) :
  conns w !! i = Some c → buff_buff c = Some p → heap w !! p = Some b →
  staged w i = take (Z.to_nat (buff_ptr c)) (blk_bytes b).
Proof. intros Hi Hb Hp. unfold staged. by rewrite Hi, Hb, Hp. Qed.

Lemma staged_no_buffer (i : nat) (c : gsm_conn_t) (w : World) :
  conns w !! i = Some c → buff_buff c = None → staged w i = [].
Proof. intros Hi Hb. unfold staged. by rewrite Hi, Hb. Qed.

Lemma set_buff_buff_same (c : gsm_conn_t) : set_buff_buff (buff_buff c) c = c.
Proof. by destruct c. Qed.

Lemma wf_released (w w' : World) (i : nat) (c c' : gsm_conn_t) :
  world_wf env w → conns w !! i = Some c →
  conns w' = <[i := c']> (conns w) → buff_buff c' = None →
  released c (heap w) (heap w') → world_wf env w'.
Proof.
  intros Hwf Hi Hc Hn Hrel. unfold released in Hrel.
  destruct (buff_buff c) as [p|] eqn:Hp.
  - destruct Hrel as (b & st & Hb & Hst & Hh). by eapply (wf_release env w w' i c c' p).
  - by eapply (wf_unbuffered env w w' i c c').
Qed.

(** A flush of a sound connection, whatever its buffer. *)
Lemma flush_buff_run (i : nat) (c : gsm_conn_t) (w : World) :
  conns w !! i = Some c → buff_wf env w c →
  ∃ r w1 flushed,
    flush_buff env (Some i) w = Ok r w1
    ∧ conns w1 = <[i := set_buff_buff None c]> (conns w)
    ∧ same_core w w1
    ∧ trace w1 = flushed ++ trace w
    ∧ handed flushed = staged w i
    ∧ dispatches flushed = flush_of w i
    ∧ close_commands flushed = 0%nat
    ∧ released c (heap w) (heap w1)
    ∧ (env_serves env → staged w i ≠ [] → r = gsmOK)
    ∧ (buff_buff c = None → r = gsmOK ∧ w1 = w).
Proof.
  intros Hi Hwf. unfold released, flush_of.
  destruct (buff_buff c) as [p|] eqn:Hb.
  - unfold buff_wf in Hwf. rewrite Hb in Hwf.
    destruct Hwf as (b & Hp & Hst & Hlen & Hptr & Hcap).
    rewrite (staged_buffer i c p b w) by done.
    rewrite (flush_buff_eq env i c p b) by (try done; lia). cbv zeta.
    destruct (buff_ptr c =? 0) eqn:H0.
    { apply Z.eqb_eq in H0. rewrite H0. change (Z.to_nat 0) with 0%nat. rewrite take_0.
      eexists _, _, [_]. split; [reflexivity|].
      repeat split; try done. exists b, Freed. by repeat split. }
    apply Z.eqb_neq in H0.
    assert (Hne : take (Z.to_nat (buff_ptr c)) (blk_bytes b) ≠ []).
    { intros Hnil. apply (f_equal length) in Hnil. rewrite length_take in Hnil.
      cbn in Hnil. lia. }
    destruct (take (Z.to_nat (buff_ptr c)) (blk_bytes b)) as [|x s] eqn:Htk; [done|].
    destruct (msg_alloc_ok env _) eqn:Hok.
    + destruct (mbox_result env _ _ 0 60000) eqn:Hr; cbn [is_ok].
      1: eexists _, _, [_; _; _; _]; split; [reflexivity|].
      2-5: eexists _, _, [_; _; _; _; _]; split; [reflexivity|].
      all: repeat split; try done.
      all: try (eexists b, _; by repeat split).
      all: try (cbn; by rewrite ?app_nil_r).
      all: intros (_ & _ & Hm) _; by rewrite Hm in Hr.
    + eexists _, _, [_; _; _]. split; [reflexivity|].
      repeat split; try done.
      * cbn. by rewrite ?app_nil_r.
      * eexists b, _; by repeat split.
      * intros (_ & Hm & _) _. by rewrite Hm in Hok.
  - rewrite (staged_no_buffer i c w) by done.
    exists gsmOK, w, []. split; [by apply (flush_buff_none env i c)|].
    rewrite <- Hb, set_buff_buff_same, list_insert_id by done.
    by repeat split.
Qed.

Lemma flush_buff_wf (i : nat) (c : gsm_conn_t) (w w1 : World) (r : gsmr_t) :
  world_wf env w → conns w !! i = Some c →
  flush_buff env (Some i) w = Ok r w1 → world_wf env w1.
Proof.
  intros Hwf Hi Hrun.
  destruct (flush_buff_run i c w Hi (wf_conn env w i c Hwf Hi))
    as (r' & w1' & flushed & Hfl & Hcs & _ & _ & _ & _ & _ & Hrel & _).
  rewrite Hfl in Hrun. injection Hrun as <- <-.
  by eapply (wf_released w w1' i c).
Qed.

(** Step 1.1 of [gsm_conn_write] on a connection with a buffer. *)
Lemma write_step1_1_run (i : nat) (c : gsm_conn_t) (p : nat) (w : World) :
  conns w !! i = Some c → buff_wf env w c → buff_buff c = Some p →
  ∃ w1 new,
    write_step1_1 env (Some i) w = Ok tt w1
    ∧ conns w1 = <[i := set_buff_buff None c]> (conns w)
    ∧ same_core w w1
    ∧ trace w1 = new ++ trace w
    ∧ dispatches new = flush_of w i
    ∧ released c (heap w) (heap w1).
Proof.
  intros Hi Hwf Hb. unfold released, flush_of.
  unfold buff_wf in Hwf. rewrite Hb in *.
  destruct Hwf as (b & Hp & Hst & Hlen & Hptr & Hcap).
  rewrite (staged_buffer i c p b w) by done.
  destruct w as [cs ev hp lk ts tr]. cbn in Hi, Hp. cbn [conns heap trace].
  unfold write_step1_1. mcbv. rewrite Hi. mcbv. rewrite Hb.
  destruct (Z.eq_dec (buff_ptr c) 0) as [H0|H0].
  - rewrite conn_send_nothing by lia. mcbv. rewrite Hp, Hst. mcbv. rewrite Hi.
    rewrite H0. change (Z.to_nat 0) with 0%nat. rewrite take_0.
    eexists _, [EvFree p]. split; [reflexivity|].
    repeat split; try done. exists b, Freed. by repeat split.
  - assert (Hne : take (Z.to_nat (buff_ptr c)) (blk_bytes b) ≠ []).
    { intros Hnil. apply (f_equal length) in Hnil. rewrite length_take in Hnil.
      cbn in Hnil. lia. }
    rewrite (conn_send_eq env i c) by (cbn; auto; lia).
    cbn [payload heap trace lock conns evt timeouts]. rewrite Hp. cbv zeta.
    destruct (take (Z.to_nat (buff_ptr c)) (blk_bytes b)) as [|x s] eqn:Htk; [done|].
    destruct (msg_alloc_ok env _).
    + destruct (mbox_result env _ _ 0 60000) eqn:Hr;
        mcbv; unfold hand_over, conn_send_msg; cbn [msg]; cbn [Z.eqb];
        rewrite ?Hp, ?Hst; mcbv;
        rewrite ?list_lookup_insert_eq by (eapply lookup_lt_Some; eauto); mcbv;
        rewrite ?Hi.
      1: eexists _, [_; _; _; _]; split; [reflexivity|].
      2-5: eexists _, [_; _; _; _; _]; split; [reflexivity|].
      all: repeat split; try done.
      all: eexists b, _; by repeat split.
    + mcbv. rewrite Hp, Hst. mcbv. rewrite Hi.
      eexists _, [_; _; _]. split; [reflexivity|].
      repeat split; try done. eexists b, _; by repeat split.
Qed.

Lemma flush_of_dispatch (w : World) (i : nat) (flush : Z) :
  (flush = 0 → Z.of_nat (length (staged w i)) = GSM_CFG_CONN_MAX_DATA_LEN env) →
  Forall (write_dispatch env flush) (flush_of w i).
Proof.
  intros H. unfold flush_of. destruct (staged w i) as [|x s]; [done|].
  constructor; [|done]. by repeat split.
Qed.

(** Step 1 of [gsm_conn_write]. *)
Lemma write_step1_run (i : nat) (c : gsm_conn_t) (d : list byte) (flush : Z) (w : World) :
  world_wf env w → conns w !! i = Some c → Z.of_nat (length d) < size_mod env →
  ∃ a w' new,
    write_step1 env (Some i) d (Z.of_nat (length d)) flush w = Ok a w'
    ∧ world_wf env w'
    ∧ trace w' = new ++ trace w
    ∧ Forall (write_dispatch env flush) (dispatches new).
Proof.
  intros Hw Hi Hd.
  assert (Hi' : (i < length (conns w))%nat) by (by eapply lookup_lt_Some).
  pose proof (wf_conn env w i c Hw Hi) as Hwf.
  pose proof (wf_at_rest env w i c Hw Hi) as Hrest.
  unfold buff_wf in Hwf. unfold buff_at_rest in Hrest.
  destruct (buff_buff c) as [p|] eqn:Hb.
  2: { exists (d, Z.of_nat (length d)), w, []. split; [|done].
       destruct w as [cs ev hp lk ts tr]. cbn in Hi.
       unfold write_step1. mcbv. rewrite Hi. mcbv. by rewrite Hb. }
  destruct Hwf as (b & Hp & Hst & Hlen & Hptr & Hcap). destruct Hrest as [Hmax Hroom].
  assert (Hp' : (p < length (heap w))%nat) by (by eapply lookup_lt_Some).
  set (len := Z.min (buff_len c - buff_ptr c) (Z.of_nat (length d))).
  set (blk1 := mk_block (take (Z.to_nat (buff_ptr c)) (blk_bytes b)
                          ++ take (Z.to_nat len) d
                          ++ drop (Z.to_nat (buff_ptr c + len)) (blk_bytes b)) Owned).
  set (c1 := set_buff_ptr (buff_ptr c + len) c).
  set (w2 := mk_world (<[i := c1]> (conns w)) (evt w) (<[p := blk1]> (heap w))
                      (lock w) (timeouts w) (trace w)).
  assert (Hrun : write_step1 env (Some i) d (Z.of_nat (length d)) flush w =
            ((if (buff_ptr c + len =? buff_len c) || negb (flush =? 0)
              then write_step1_1 env (Some i) else mret tt) ≫=
             (λ _, mret (drop (Z.to_nat len) d, Z.of_nat (length d) - len))) w2).
  { destruct w as [cs ev hp lk ts tr]. cbn in Hi, Hp, Hi', Hp'.
    unfold write_step1. mcbv. rewrite Hi. mcbv. rewrite Hb.
    rewrite size_sub_small by lia. rewrite GSM_MIN_spec. fold len.
    rewrite Hp, Hst.
    replace (len <=? Z.of_nat (length d)) with true by (symmetry; apply Z.leb_le; lia).
    replace (buff_ptr c + len <=? Z.of_nat (length (blk_bytes b))) with true
      by (symmetry; apply Z.leb_le; lia).
    mcbv. rewrite Hi. mcbv. rewrite list_lookup_insert_eq by done. mcbv.
    rewrite size_add_small by lia. rewrite size_sub_small by lia.
    reflexivity. }
  rewrite Hrun. clear Hrun.
  assert (Hto : Z.to_nat (buff_ptr c + len) = (Z.to_nat (buff_ptr c) + Z.to_nat len)%nat)
    by (apply Z2Nat.inj_add; lia).
  assert (Hlen1 : length (blk_bytes blk1) = length (blk_bytes b)).
  { unfold blk1. cbn [blk_bytes]. rewrite Hto. apply splice_length; lia. }
  destruct ((buff_ptr c + len =? buff_len c) || negb (flush =? 0)) eqn:Ht.
  - assert (Hi2 : conns w2 !! i = Some c1) by (by apply list_lookup_insert_eq).
    assert (Hp2 : heap w2 !! p = Some blk1) by (by apply list_lookup_insert_eq).
    assert (Hwf2 : buff_wf env w2 c1).
    { unfold buff_wf. cbn [c1 buff_buff set_buff_ptr]. rewrite Hb.
      exists blk1. split; [done|]. split; [done|].
      unfold c1. cbn [buff_len buff_ptr set_buff_ptr]. rewrite Hlen1.
      split; [lia|]. split; lia. }
    destruct (write_step1_1_run i c1 p w2 Hi2 Hwf2 Hb)
      as (w' & new & Hrun & Hcs & _ & Htr & Hdis & Hrel).
    rewrite (bind_run _ _ _ _ _ Hrun).
    eexists _, w', new. split; [reflexivity|].
    unfold released in Hrel. cbn [c1 buff_buff set_buff_ptr] in Hrel. rewrite Hb in Hrel.
    destruct Hrel as (b2 & st & Hb2 & Hst2 & Hh).
    unfold w2 in Hcs, Hh. cbn [conns heap] in Hcs, Hh.
    rewrite list_insert_insert_eq in Hcs. rewrite list_insert_insert_eq in Hh.
    split; [by eapply (wf_release env w w' i c _ p)|].
    split; [done|]. rewrite Hdis. apply flush_of_dispatch.
    intros ->. cbn in Ht. rewrite orb_false_r in Ht. apply Z.eqb_eq in Ht.
    rewrite (staged_buffer i c1 p blk1 w2) by done.
    cbn [c1 buff_ptr set_buff_ptr]. rewrite length_take. lia.
  - apply orb_false_elim in Ht as [Hne Hfl]. apply Z.eqb_neq in Hne.
    eexists _, w2, []. split; [reflexivity|]. split; [|done].
    eapply (wf_copy env w w2 i c c1 p b); try done.
    cbn [c1 buff_ptr set_buff_ptr]. lia.
Qed.

Lemma write_dispatch_weaken (flush : Z) (xs : list (list byte * Z * Z)) :
  Forall (write_dispatch env 0) xs → Forall (write_dispatch env flush) xs.
Proof.
  apply Forall_impl. intros x (? & ? & Hx). repeat split; try done. intros _. by apply Hx.
Qed.

(** One round of the loop of step 2 that gets its block. *)
Lemma write_step2_round_run (fuel i : nat) (c : gsm_conn_t) (d : list byte) (w : World) :
  env_wf env → conns w !! i = Some c →
  GSM_CFG_CONN_MAX_DATA_LEN env ≤ Z.of_nat (length d) →
  Z.of_nat (length d) < size_mod env →
  mem_alloc_ok env (trace w) (GSM_CFG_CONN_MAX_DATA_LEN env) = true →
  let n := Z.to_nat (GSM_CFG_CONN_MAX_DATA_LEN env) in
  ∃ (ok : bool) w1 new blk,
    write_step2 env (S fuel) (Some i) d (Z.of_nat (length d)) w
      = (if ok then write_step2 env fuel (Some i) (drop n d) (Z.of_nat (length (drop n d))) w1
         else Ok (inl gsmERRMEM) w1)
    ∧ conns w1 = conns w
    ∧ trace w1 = new ++ trace w
    ∧ dispatches new = [(take n d, 1, 0)]
    ∧ heap w1 = heap w ++ [blk]
    ∧ blk_state blk ≠ Owned.
Proof.
  intros Hwf Hi Hd Hsz Hok n. pose proof Hwf as Hwf'. unfold env_wf in Hwf'.
  rewrite write_step2_unfold. rewrite size_mul_max by done.
  unfold MAX_DATA_LEN.
  set (MAX := GSM_CFG_CONN_MAX_DATA_LEN env) in *.
  replace (Z.of_nat (length d) <? MAX) with false by (symmetry; apply Z.ltb_ge; lia).
  rewrite size_sub_small by lia.
  replace (Z.of_nat (length d) - MAX) with (Z.of_nat (length (drop n d)))
    by (rewrite length_drop; unfold n; lia).
  assert (Hn : (n ≤ length d)%nat) by (unfold n; lia).
  assert (Hn' : Z.of_nat n = MAX) by (unfold n; lia).
  set (p := length (heap w)).
  set (zeros := replicate n x00).
  set (bs := take (Z.to_nat 0) zeros ++ take n d ++ drop (Z.to_nat (0 + MAX)) zeros).
  set (w2 := mk_world (conns w) (evt w) (heap w ++ [mk_block bs Owned]) (lock w) (timeouts w)
                      (EvAlloc MAX (Some p) :: trace w)).
  assert (Hpay : payload w2 (DHeap p) MAX = take n d).
  { unfold payload, w2. cbn [heap]. unfold p. rewrite list_lookup_middle by done.
    cbn [blk_bytes]. unfold bs. change (Z.to_nat 0) with 0%nat. rewrite take_0. cbn [app].
    rewrite take_app_le by (rewrite length_take; lia).
    apply take_ge. rewrite length_take. lia. }
  pose proof (conn_send_eq env i c None 0 (DHeap p) MAX None 1 0 w2 Hi eq_refl ltac:(lia))
    as Hsend.
  rewrite Hpay in Hsend. cbv zeta in Hsend.
  assert (Hho : hand_over (conn_send_msg (Some i) None 0 (DHeap p) MAX None 1 (val_id c)) (heap w2)
                = heap w ++ [mk_block bs Queued]) by apply hand_over_snoc.
  rewrite Hho in Hsend. clear Hho.
  destruct w as [cs ev hp lk ts tr]. cbn in Hi, Hok. cbn [heap conns evt lock timeouts trace] in *.
  mcbv. rewrite Hok. mcbv.
  rewrite list_lookup_middle by done. cbn [blk_state blk_bytes].
  replace (MAX <=? Z.of_nat (length d)) with true by (symmetry; apply Z.leb_le; lia).
  replace (0 + MAX <=? Z.of_nat (length (replicate (Z.to_nat MAX) x00))) with true
    by (symmetry; apply Z.leb_le; rewrite length_replicate; lia).
  rewrite insert_snoc. fold n zeros bs p. fold w2.
  rewrite Hsend. clear Hsend.
  destruct (msg_alloc_ok env _) eqn:Hma.
  - destruct (mbox_result env _ _ 0 60000) eqn:Hr; cbn [is_ok negb];
      [ eexists true, _, [_; _; _; _; _], (mk_block bs Queued); (split; [reflexivity|]);
        by repeat split | .. ].
    all: unfold w2, p; cbn [heap conns evt lock timeouts trace];
      rewrite list_lookup_middle by done; cbn [blk_state blk_bytes];
      rewrite insert_snoc;
      eexists false, _, [_; _; _; _; _; _], (mk_block bs Freed); (split; [reflexivity|]);
      by repeat split.
  - mcbv. unfold w2, p; cbn [heap conns evt lock timeouts trace].
    rewrite list_lookup_middle by done; cbn [blk_state blk_bytes].
    rewrite insert_snoc.
    eexists false, _, [_; _; _; _], (mk_block bs Freed). split; [reflexivity|].
    by repeat split.
Qed.

(** Step 2 of [gsm_conn_write]. *)
Lemma write_step2_run (fuel i : nat) (c : gsm_conn_t) (d : list byte) (w : World) :
  env_wf env → world_wf env w → conns w !! i = Some c →
  Z.of_nat (length d) < size_mod env → (length d ≤ fuel)%nat →
  ∃ res w' new,
    write_step2 env fuel (Some i) d (Z.of_nat (length d)) w = Ok res w'
    ∧ world_wf env w'
    ∧ trace w' = new ++ trace w
    ∧ Forall (write_dispatch env 0) (dispatches new).
Proof.
  intros Hwf. revert d w. induction fuel as [|fuel IH]; intros d w Hw Hi Hsz Hfuel.
  - exists (inr (d, Z.of_nat (length d))), w, [].
    rewrite write_step2_unfold. unfold MAX_DATA_LEN, env_wf in *.
    replace (Z.of_nat (length d) <? GSM_CFG_CONN_MAX_DATA_LEN env) with true
      by (symmetry; apply Z.ltb_lt; lia).
    split; [reflexivity|]. by split.
  - destruct (Z.lt_ge_cases (Z.of_nat (length d)) (GSM_CFG_CONN_MAX_DATA_LEN env)) as [Hlt|Hge].
    { exists (inr (d, Z.of_nat (length d))), w, [].
      rewrite write_step2_unfold. unfold MAX_DATA_LEN.
      replace (Z.of_nat (length d) <? GSM_CFG_CONN_MAX_DATA_LEN env) with true
        by (symmetry; apply Z.ltb_lt; lia).
      split; [reflexivity|]. by split. }
    destruct (mem_alloc_ok env (trace w) (GSM_CFG_CONN_MAX_DATA_LEN env)) eqn:Hok.
    2: { rewrite write_step2_refused by done.
         eexists _, _, [_]. split; [reflexivity|]. split; [by eapply wf_same|].
         by split. }
    destruct (write_step2_round_run fuel i c d w Hwf Hi Hge Hsz Hok)
      as (ok & w1 & new1 & blk & Hrun & Hcs1 & Htr1 & Hdis1 & Hhp1 & Hst1).
    rewrite Hrun.
    assert (Hw1 : world_wf env w1) by (by eapply (wf_temp env w w1 blk)).
    assert (Hfull : Forall (write_dispatch env 0) (dispatches new1)).
    { rewrite Hdis1. constructor; [|done]. repeat split. intros _. cbn.
      rewrite length_take. unfold env_wf in Hwf. lia. }
    destruct ok.
    + destruct (IH (drop (Z.to_nat (GSM_CFG_CONN_MAX_DATA_LEN env)) d) w1)
        as (res & w' & new2 & Hrun2 & Hw2 & Htr2 & Hdis2); try done.
      { by rewrite Hcs1. }
      { rewrite length_drop. lia. }
      { rewrite length_drop. unfold env_wf in Hwf. lia. }
      exists res, w', (new2 ++ new1). split; [done|]. split; [done|].
      split; [by rewrite Htr2, Htr1, app_assoc|].
      rewrite dispatches_app. by apply Forall_app.
    + by exists (inl gsmERRMEM), w1, new1.
Qed.

(** Step 3 of [gsm_conn_write]: what is left is less than a chunk, and
    nothing is left when the buffer of step 1 is still there. *)
Lemma write_step3_run (i : nat) (c : gsm_conn_t) (d : list byte) (w : World) :
  env_wf env → world_wf env w → conns w !! i = Some c →
  Z.of_nat (length d) < GSM_CFG_CONN_MAX_DATA_LEN env →
  (buff_buff c ≠ None → d = []) →
  ∃ r3 w' new,
    write_step3 env (Some i) d (Z.of_nat (length d)) w = Ok r3 w'
    ∧ world_wf env w'
    ∧ trace w' = new ++ trace w
    ∧ dispatches new = []
    ∧ (∀ c', conns w' !! i = Some c' → buff_buff c' = None →
             existsb alloc_failed new = true).
Proof.
  intros Hwf Hw Hi Hd Hnil. pose proof Hwf as Hwf'. unfold env_wf in Hwf'.
  assert (Hi' : (i < length (conns w))%nat) by (by eapply lookup_lt_Some).
  set (MAX := GSM_CFG_CONN_MAX_DATA_LEN env) in *.
  destruct (buff_buff c) as [p|] eqn:Hb.
  - rewrite (Hnil ltac:(done)). exists None, w, [].
    split.
    { destruct w as [cs ev hp lk ts tr]. cbn in Hi.
      unfold write_step3. mcbv. rewrite Hi. mcbv. rewrite Hb. mcbv. reflexivity. }
    split; [done|]. split; [done|]. split; [done|].
    intros c' Hc'. rewrite Hi in Hc'. injection Hc' as <-. congruence.
  - destruct (mem_alloc_ok env (trace w) MAX) eqn:Hok.
    + set (n := Z.to_nat MAX).
      set (p := length (heap w)).
      set (zeros := replicate n x00).
      set (k := Z.to_nat (Z.of_nat (length d))).
      set (bs := if Z.of_nat (length d) =? 0 then zeros
                 else take (Z.to_nat 0) zeros ++ take k d
                      ++ drop (Z.to_nat (0 + Z.of_nat (length d))) zeros).
      set (c' := mk_conn (num c) (val_id c) (status_active c) (status_client c)
                         (status_in_closing c) (Some p) MAX (Z.of_nat (length d))).
      set (w' := mk_world (<[i := c']> (conns w)) (evt w) (heap w ++ [mk_block bs Owned])
                          (lock w) (timeouts w) (EvAlloc MAX (Some p) :: trace w)).
      exists None, w', [EvAlloc MAX (Some p)].
      assert (Hrun : write_step3 env (Some i) d (Z.of_nat (length d)) w = Ok None w').
      { unfold w', c', bs, p. destruct w as [cs ev hp lk ts tr]. cbn in Hi, Hok, Hi'.
        cbn [conns evt heap lock timeouts trace].
        unfold write_step3. mcbv. rewrite Hi. mcbv. rewrite Hb. mcbv.
        rewrite size_mul_max by done. fold MAX. rewrite Hok. mcbv. rewrite Hi. mcbv.
        destruct (Z.of_nat (length d) =? 0) eqn:H0.
        - apply Z.eqb_eq in H0. unfold set_buff_ptr, set_buff_len, set_buff_buff.
          cbn [num val_id status_active status_client status_in_closing buff_buff buff_len buff_ptr].
          unfold MAX_DATA_LEN. fold MAX. by rewrite H0.
        - rewrite list_lookup_insert_eq by done.
          cbn [buff_buff set_buff_ptr set_buff_len set_buff_buff].
          rewrite list_lookup_middle by done. cbn [blk_state blk_bytes].
          replace (Z.of_nat (length d) <=? Z.of_nat (length d)) with true
            by (symmetry; apply Z.leb_le; lia).
          replace (0 + Z.of_nat (length d) <=? Z.of_nat (length (replicate (Z.to_nat MAX) x00)))
            with true by (symmetry; apply Z.leb_le; rewrite length_replicate; lia).
          rewrite insert_snoc. rewrite list_lookup_insert_eq by done.
          rewrite list_insert_insert_eq.
          unfold set_buff_ptr, set_buff_len, set_buff_buff, MAX_DATA_LEN.
          cbn [num val_id status_active status_client status_in_closing buff_buff buff_len buff_ptr].
          reflexivity. }
      assert (Hbs : length bs = n).
      { unfold bs. destruct (Z.of_nat (length d) =? 0) eqn:H0.
        - unfold zeros. by rewrite length_replicate.
        - change (Z.to_nat 0) with 0%nat. rewrite take_0. cbn [app].
          rewrite Z.add_0_l. fold k.
          rewrite length_app, length_take, length_drop. unfold zeros.
          rewrite length_replicate. unfold n, k. lia. }
      split; [exact Hrun|].
      split.
      { eapply (wf_attach env w w' i c c' bs); try done.
        - unfold c'. cbn [buff_ptr buff_len]. lia.
        - unfold c'. cbn [buff_len]. lia.
        - rewrite Hbs. unfold c', n. cbn [buff_len]. lia. }
      split; [done|]. split; [done|].
      intros c0 Hc0. unfold w' in Hc0. cbn [conns] in Hc0.
      rewrite list_lookup_insert_eq in Hc0 by done. by injection Hc0 as <-.
    + set (c' := mk_conn (num c) (val_id c) (status_active c) (status_client c)
                         (status_in_closing c) None MAX 0).
      set (w' := mk_world (<[i := c']> (conns w)) (evt w) (heap w)
                          (lock w) (timeouts w) (EvAlloc MAX None :: trace w)).
      exists (if Z.of_nat (length d) =? 0 then None else Some gsmERRMEM), w',
        [EvAlloc MAX None].
      split.
      { unfold w', c'. destruct w as [cs ev hp lk ts tr]. cbn in Hi, Hok, Hi'.
        cbn [conns evt heap lock timeouts trace].
        unfold write_step3. mcbv. rewrite Hi. mcbv. rewrite Hb. mcbv.
        rewrite size_mul_max by done. fold MAX. rewrite Hok. mcbv. rewrite Hi. mcbv.
        unfold set_buff_ptr, set_buff_len, set_buff_buff, MAX_DATA_LEN.
        cbn [num val_id status_active status_client status_in_closing buff_buff buff_len buff_ptr].
        fold MAX.
        destruct (Z.of_nat (length d) =? 0) eqn:H0; [done|].
        rewrite list_lookup_insert_eq by done. done. }
      split; [by eapply (wf_unbuffered env w w' i c c')|].
      split; [done|]. split; [done|]. done.
Qed.

(** Step 4 of [gsm_conn_write] and the report. *)
Lemma write_step4_run (i : nat) (c : gsm_conn_t) (flush : Z) (mem : option Z) (w : World) :
  world_wf env w → conns w !! i = Some c →
  ∃ a w' new,
    write_step4 env (Some i) flush mem w = Ok a w'
    ∧ world_wf env w'
    ∧ trace w' = new ++ trace w
    ∧ Forall (write_dispatch env flush) (dispatches new)
    ∧ (flush = 0 → w' = w ∧ new = []).
Proof.
  intros Hw Hi.
  assert (Hi' : (i < length (conns w))%nat) by (by eapply lookup_lt_Some).
  destruct (negb (flush =? 0) && is_some (buff_buff c)) eqn:Ht.
  - apply andb_prop in Ht as [Hfl Hsome].
    apply negb_true_iff in Hfl. pose proof Hfl as Hne. apply Z.eqb_neq in Hne.
    destruct (flush_buff_run i c w Hi (wf_conn env w i c Hw Hi))
      as (r & w1 & flushed & Hrun & Hcs & _ & Htr & _ & Hdis & _).
    pose proof (flush_buff_wf i c w w1 r Hw Hi Hrun) as Hw1.
    assert (Hi1 : conns w1 !! i = Some (set_buff_buff None c)).
    { rewrite Hcs. by apply list_lookup_insert_eq. }
    assert (Heq : ∃ a, write_step4 env (Some i) flush mem w = Ok a w1).
    { clear -Hi Hfl Hsome Hrun Hi1.
      destruct w as [cs ev hp lk ts tr]. cbn in Hi.
      unfold write_step4. mcbv. rewrite Hi. mcbv. rewrite Hfl. mcbv.
      destruct (buff_buff c); [|done]. mcbv.
      rewrite Hrun. destruct w1 as [cs1 ev1 hp1 lk1 ts1 tr1]. cbn in Hi1.
      mcbv. rewrite Hi1. by eexists. }
    destruct Heq as [a Heq]. exists a, w1, flushed.
    split; [done|]. split; [done|]. split; [done|].
    split; [|done]. rewrite Hdis. apply flush_of_dispatch. done.
  - assert (Heq : ∃ a, write_step4 env (Some i) flush mem w = Ok a w).
    { clear -Hi Ht. destruct w as [cs ev hp lk ts tr]. cbn in Hi.
      unfold write_step4. mcbv. rewrite Hi. mcbv.
      destruct (flush =? 0); destruct (buff_buff c); cbn in Ht; try discriminate;
        mcbv; rewrite ?Hi; by eexists. }
    destruct Heq as [a Heq]. exists a, w, [].
    split; [done|]. split; [done|]. split; [done|]. by split.
Qed.

(** [gsm_conn_write] as a whole. *)
Lemma gsm_conn_write_run (i : nat) (c : gsm_conn_t) (data : list byte) (flush : Z)
    (mem : option Z) (w : World) :
  env_wf env → world_wf env w → conns w !! i = Some c →
  Z.of_nat (length data) < size_mod env →
  ∃ r m w' c' new,
    gsm_conn_write env (Some i) data (Z.of_nat (length data)) flush mem w = Ok (r, m) w'
    ∧ world_wf env w'
    ∧ conns w' !! i = Some c'
    ∧ same_core w w'
    ∧ trace w' = new ++ trace w
    ∧ Forall (write_dispatch env flush) (dispatches new)
    ∧ (r = gsmOK → m = reported mem c')
    ∧ (r = gsmOK → flush = 0 → buff_buff c' = None → existsb alloc_failed new = true).
Proof.
  intros Hwf Hw Hi Hsz.
  pose proof (wf_conn env w i c Hw Hi) as Hbwf.
  (* step 1 *)
  destruct (write_step1_spec env i c data flush w Hi Hbwf Hsz)
    as (d1 & w1 & c1 & new1 & Hrun1 & Hi1 & Hbwf1 & _ & Hcore1 & Htr1 & _ & Hnil1 & _ & Hle1).
  destruct (write_step1_run i c data flush w Hw Hi Hsz)
    as (a1 & w1' & n1 & Hrun1' & Hw1 & Htr1' & Hdis1).
  rewrite Hrun1 in Hrun1'. injection Hrun1' as <- <-.
  rewrite Htr1 in Htr1'. apply app_inv_tail in Htr1'. subst n1.
  (* step 2 *)
  assert (Hsz1 : Z.of_nat (length d1) < size_mod env) by lia.
  destruct (write_step2_spec env (length d1) i c1 d1 w1 Hwf Hi1 Hsz1 (le_n _))
    as (res & w2 & new2 & Hrun2 & Hcs2 & Hcore2 & _ & Htr2 & Hres).
  destruct (write_step2_run (length d1) i c1 d1 w1 Hwf Hw1 Hi1 Hsz1 (le_n _))
    as (res' & w2' & n2 & Hrun2' & Hw2 & Htr2' & Hdis2).
  rewrite Hrun2 in Hrun2'. injection Hrun2' as <- <-.
  rewrite Htr2 in Htr2'. apply app_inv_tail in Htr2'. subst n2.
  apply (write_dispatch_weaken flush) in Hdis2.
  assert (Hi2 : conns w2 !! i = Some c1) by (by rewrite Hcs2).
  assert (Hrun : gsm_conn_write env (Some i) data (Z.of_nat (length data)) flush mem w =
            match res with
            | inl r => Ok (r, mem) w2
            | inr (d, btw) =>
                (write_step3 env (Some i) d btw ≫= λ r3,
                 match r3 with
                 | Some r => mret (r, mem)
                 | None => write_step4 env (Some i) flush mem
                 end) w2
            end).
  { unfold gsm_conn_write. cbn [is_none].
    rewrite (bind_run _ _ _ _ _ Hrun1). cbv beta iota.
    rewrite Nat2Z.id. rewrite (bind_run _ _ _ _ _ Hrun2).
    destruct res as [r|[d btw]]; reflexivity. }
  rewrite Hrun. clear Hrun.
  destruct res as [r|[d2 btw2]].
  { subst r. exists gsmERRMEM, mem, w2, c1, (new2 ++ new1).
    split; [done|]. split; [done|]. split; [done|].
    split; [by eapply same_core_trans|].
    split; [by rewrite Htr2, Htr1, app_assoc|].
    split; [rewrite dispatches_app; by apply Forall_app|].
    by split. }
  destruct Hres as (-> & Hlt2 & Hhd2 & _).
  assert (Hnil2 : buff_buff c1 ≠ None → d2 = []).
  { intros Hb. specialize (Hnil1 Hb). subst d1.
    destruct new2 as [|e new2], d2 as [|x d2]; try done.
    cbn in Hhd2. destruct (handed new2 ++ handed_by e); done. }
  (* step 3 *)
  destruct (write_step3_run i c1 d2 w2 Hwf Hw2 Hi2 Hlt2 Hnil2)
    as (r3 & w3 & new3 & Hrun3 & Hw3 & Htr3 & Hdis3 & Hal3).
  destruct (write_step3_spec env i c1 d2 w2 Hwf Hi2 (wf_conn env w2 i c1 Hw2 Hi2) Hlt2 Hnil2)
    as (r3' & w3' & c3 & n3 & Hrun3' & Hi3 & _ & _ & Hcore3 & _ & _ & _ & _ & _ & Hres3).
  rewrite Hrun3 in Hrun3'. injection Hrun3' as <- <-.
  rewrite (bind_run _ _ _ _ _ Hrun3).
  destruct r3 as [r|].
  { subst r. exists gsmERRMEM, mem, w3, c3, (new3 ++ new2 ++ new1).
    split; [done|]. split; [done|]. split; [done|].
    split; [eauto using same_core_trans|].
    split; [by rewrite Htr3, Htr2, Htr1, !app_assoc|].
    split.
    { rewrite !dispatches_app, Hdis3, app_nil_r. by apply Forall_app. }
    by split. }
  (* step 4 *)
  destruct (write_step4_run i c3 flush mem w3 Hw3 Hi3)
    as (a4 & w4 & new4 & Hrun4 & Hw4 & Htr4 & Hdis4 & Hnf4).
  destruct (write_step4_spec env i c3 flush mem w3 Hi3 (wf_conn env w3 i c3 Hw3 Hi3))
    as (w4' & c4 & n4 & Hrun4' & Hi4 & _ & _ & Hcore4 & _ & _ & _ & _ & Hsame4 & _).
  rewrite Hrun4 in Hrun4'. injection Hrun4' as -> <-.
  exists gsmOK, (reported mem c4), w4, c4, (new4 ++ new3 ++ new2 ++ new1).
  split; [done|]. split; [done|]. split; [done|].
  split; [eauto using same_core_trans|].
  split; [by rewrite Htr4, Htr3, Htr2, Htr1, !app_assoc|].
  split.
  { rewrite !dispatches_app, Hdis3, app_nil_r. apply Forall_app. split; [|done].
    by apply Forall_app. }
  split; [done|].
  intros _ Hf Hnone. destruct (Hnf4 Hf) as [-> ->]. destruct (Hsame4 Hf) as (_ & -> & _).
  rewrite !existsb_app. rewrite (Hal3 c3 Hi3 Hnone). done.
Qed.

(** ** Sending past and through the write buffer *)

Lemma conn_send_keep (i : nat) (c : gsm_conn_t) ip port data btw bw blocking (w : World) :
  conns w !! i = Some c → is_null data = false → 0 < btw →
  ∃ r new,
    conn_send env (Some i) ip port data btw bw 0 blocking w
      = Ok (r, bw_reset bw)
           (mk_world (conns w) (evt w) (heap w) (lock w) (timeouts w) (new ++ trace w))
    ∧ dispatches new = [(payload w data btw, 0, blocking)]
    ∧ close_commands new = 0%nat
    ∧ (env_serves env → r = gsmOK).
Proof.
  intros Hi Hd Hb. rewrite (conn_send_eq env i c) by done. cbv zeta.
  destruct (msg_alloc_ok env _) eqn:Hok.
  - set (r := mbox_result env _ _ _ _).
    exists r, [EvSubmit (conn_send_msg (Some i) ip port data btw bw 0 (val_id c))
                 blocking 60000 (lock w) r;
               EvReadValId i (val_id c) (S (lock w)); EvMsgAlloc true;
               EvConnSend (Some i) (payload w data btw) 0 blocking].
    split; [by destruct (is_ok r), data|].
    split; [done|]. split; [done|]. intros (_ & _ & Hm). apply Hm.
  - eexists _, [_; _]. split; [reflexivity|]. split; [done|]. split; [done|].
    intros (_ & Hm & _). by rewrite Hm in Hok.
Qed.

Lemma conn_send_rejects conn ip port data btw bw fau blocking (w : World) :
  is_null data || (btw <=? 0) = true →
  conn_send env conn ip port data btw bw fau blocking w = Ok (gsmPARERR, bw) w.
Proof.
  intros H. unfold conn_send. destruct conn; [|done]. cbn [is_none].
  destruct (is_null data); [done|]. cbn in H. apply Z.leb_le in H.
  replace (0 <? btw) with false by (symmetry; apply Z.ltb_ge; lia). done.
Qed.

Lemma gsm_conn_sendto_run (i : nat) (c : gsm_conn_t) ip port data btw bw blocking
    (w : World) :
  conns w !! i = Some c → buff_wf env w c →
  ∃ r bw' w' new,
    gsm_conn_sendto env (Some i) ip port data btw bw blocking w = Ok (r, bw') w'
    ∧ conns w' = <[i := set_buff_buff None c]> (conns w)
    ∧ same_core w w'
    ∧ released c (heap w) (heap w')
    ∧ trace w' = new ++ trace w
    ∧ if is_null data || (btw <=? 0) then
        r = gsmPARERR ∧ bw' = bw ∧ dispatches new = flush_of w i
      else
        bw' = bw_reset bw
        ∧ dispatches new = flush_of w i ++ [(payload w' data btw, 0, blocking)]
        ∧ (env_serves env → r = gsmOK).
Proof.
  intros Hi Hwf.
  destruct (flush_buff_run i c w Hi Hwf)
    as (r0 & w1 & flushed & Hfl & Hcs & Hcore & Htr & _ & Hd & _ & Hrel & _).
  unfold gsm_conn_sendto. cbn [is_none]. rewrite (bind_run _ _ _ _ _ Hfl).
  destruct (is_null data || (btw <=? 0)) eqn:Hbad.
  - rewrite conn_send_rejects by done.
    exists gsmPARERR, bw, w1, flushed.
    split; [done|]. split; [done|]. split; [done|]. split; [done|]. split; [done|]. done.
  - apply orb_false_elim in Hbad as [Hnull Hpos]. apply Z.leb_gt in Hpos.
    assert (Hi1 : conns w1 !! i = Some (set_buff_buff None c)).
    { rewrite Hcs. apply list_lookup_insert_eq. by eapply lookup_lt_Some. }
    destruct (conn_send_keep i _ ip port data btw bw blocking w1 Hi1 Hnull Hpos)
      as (r & new & Hsend & Hd1 & _ & Hserve).
    rewrite Hsend. eexists r, _, _, (new ++ flushed). split; [reflexivity|].
    destruct Hcore as (Hl & He & Hts).
    cbn [conns heap trace]. split; [done|]. split; [by repeat split|].
    split; [done|]. split; [by rewrite Htr, app_assoc|].
    split; [done|]. split; [|done].
    by rewrite dispatches_app, Hd, Hd1.
Qed.

Lemma gsm_conn_send_run (i : nat) (c : gsm_conn_t) (d : list byte) bw blocking (w : World) :
  conns w !! i = Some c → buff_wf env w c →
  (0 < length d)%nat → Z.of_nat (length d) < size_mod env →
  let room := match buff_buff c with
              | Some _ => buff_len c - buff_ptr c
              | None => 0
              end in
  let k := Z.to_nat (Z.min (Z.of_nat (length d)) room) in
  ∃ r bw' w' c' new,
    gsm_conn_send env (Some i) (Some d) (Z.of_nat (length d)) bw blocking w = Ok (r, bw') w'
    ∧ conns w' = <[i := c']> (conns w) ∧ buff_buff c' = None ∧ same_static c c'
    ∧ same_core w w'
    ∧ trace w' = new ++ trace w
    ∧ handed new = staged w i ++ d
    ∧ dispatches new
      = match staged w i ++ take k d with
        | [] => []
        | s => [(s, 1, 0)]
        end
        ++ match drop k d with
           | [] => []
           | s => [(s, 0, blocking)]
           end
    ∧ bw' = match drop k d with
            | [] => bw
            | _ => bw_reset bw
            end
    ∧ (env_serves env → r = gsmOK)
    ∧ match buff_buff c with
      | Some p => ∃ blk, blk_state blk ≠ Owned ∧ heap w' = <[p := blk]> (heap w)
      | None => heap w' = heap w
      end.
Proof.
  intros Hi Hwf Hd0 Hd room k.
  assert (Hi' : (i < length (conns w))%nat) by (by eapply lookup_lt_Some).
  assert (Hpos : (0 <? Z.of_nat (length d)) = true) by (apply Z.ltb_lt; lia).
  (* the copy into the room of the buffer *)
  assert (Hcopy : ∃ c1 w1,
            gsm_conn_send env (Some i) (Some d) (Z.of_nat (length d)) bw blocking w
            = (flush_buff env (Some i) ≫= λ res,
               (if negb (Z.of_nat (length (drop k d)) =? 0)
                then conn_send env (Some i) None 0 (DUser (drop k d))
                               (Z.of_nat (length (drop k d))) bw 0 blocking
                else mret (res, bw))) w1
            ∧ conns w1 = <[i := c1]> (conns w) ∧ buff_wf env w1 c1
            ∧ same_static c c1 ∧ same_core w w1 ∧ trace w1 = trace w
            ∧ buff_buff c1 = buff_buff c
            ∧ staged w1 i = staged w i ++ take k d
            ∧ match buff_buff c with
              | Some p => ∃ blk, heap w1 = <[p := blk]> (heap w)
              | None => heap w1 = heap w
              end).
  { unfold buff_wf in Hwf. subst room k. destruct (buff_buff c) as [p|] eqn:Hb.
    - destruct Hwf as (b & Hp & Hst & Hlen & Hptr & Hcap).
      assert (Hp' : (p < length (heap w))%nat) by (by eapply lookup_lt_Some).
      set (n := Z.min (Z.of_nat (length d)) (buff_len c - buff_ptr c)).
      destruct (Z.eq_dec n 0) as [Hn|Hn].
      + exists c, w. rewrite Hn. change (Z.to_nat 0) with 0%nat. rewrite drop_0, take_0, app_nil_r.
        rewrite list_insert_id by done.
        split.
        { destruct w as [cs ev hp lk ts tr]. cbn in Hi, Hp.
          unfold gsm_conn_send. cbn [is_none]. rewrite Hpos. mcbv. rewrite Hi. mcbv.
          rewrite Hb. rewrite size_sub_small by lia. rewrite GSM_MIN_spec. fold n.
          rewrite Hn. mcbv. reflexivity. }
        split; [done|]. split; [unfold buff_wf; rewrite Hb; by exists b|].
        split; [done|]. split; [done|]. split; [done|]. split; [done|]. split; [done|].
        exists b. by rewrite list_insert_id.
      + set (blk1 := mk_block (take (Z.to_nat (buff_ptr c)) (blk_bytes b)
                                 ++ take (Z.to_nat n) d
                                 ++ drop (Z.to_nat (buff_ptr c + n)) (blk_bytes b)) Owned).
        set (c1 := set_buff_ptr (buff_ptr c + n) c).
        exists c1, (mk_world (<[i := c1]> (conns w)) (evt w) (<[p := blk1]> (heap w))
                             (lock w) (timeouts w) (trace w)).
        assert (Hto : Z.to_nat (buff_ptr c + n) = (Z.to_nat (buff_ptr c) + Z.to_nat n)%nat)
          by (apply Z2Nat.inj_add; lia).
        split.
        { destruct w as [cs ev hp lk ts tr]. cbn in Hi, Hp, Hi', Hp'.
          unfold gsm_conn_send. cbn [is_none]. rewrite Hpos. mcbv. rewrite Hi. mcbv.
          rewrite Hb. rewrite size_sub_small by lia. rewrite GSM_MIN_spec. fold n.
          replace (n =? 0) with false by (symmetry; by apply Z.eqb_neq).
          mcbv. rewrite Hp, Hst.
          replace (n <=? Z.of_nat (length d)) with true by (symmetry; apply Z.leb_le; lia).
          replace (buff_ptr c + n <=? Z.of_nat (length (blk_bytes b))) with true
            by (symmetry; apply Z.leb_le; lia).
          mcbv. rewrite Hi. mcbv.
          rewrite size_add_small by lia. rewrite size_sub_small by lia.
          replace (Z.of_nat (length d) - n) with (Z.of_nat (length (drop (Z.to_nat n) d)))
            by (rewrite length_drop; lia).
          reflexivity. }
        cbn [conns heap trace]. split; [done|].
        split.
        { unfold buff_wf. cbn [c1 buff_buff set_buff_ptr]. rewrite Hb.
          exists blk1. split; [by apply list_lookup_insert_eq|]. split; [done|].
          unfold c1, blk1. cbn [buff_len buff_ptr set_buff_ptr blk_bytes].
          split; [|lia]. rewrite Hto, splice_length; lia. }
        split; [done|]. split; [done|]. split; [done|]. split; [done|].
        split; [|by exists blk1].
        unfold staged. cbn [conns heap]. rewrite list_lookup_insert_eq by done.
        cbn [c1 buff_buff set_buff_ptr buff_ptr]. rewrite Hb.
        rewrite list_lookup_insert_eq by done. rewrite Hi, Hb, Hp.
        unfold blk1. cbn [blk_bytes]. rewrite Hto. apply splice_take; lia.
    - exists c, w. replace (Z.min (Z.of_nat (length d)) 0) with 0 by lia.
      change (Z.to_nat 0) with 0%nat. rewrite drop_0, take_0, app_nil_r.
      rewrite list_insert_id by done.
      split; [|repeat split; try done; by unfold buff_wf; rewrite Hb].
      destruct w as [cs ev hp lk ts tr]. cbn in Hi.
      unfold gsm_conn_send. cbn [is_none]. rewrite Hpos. mcbv. rewrite Hi. mcbv.
      rewrite Hb. mcbv. reflexivity. }
  destruct Hcopy as (c1 & w1 & Hrun & Hcs1 & Hwf1 & Hstat1 & Hcore1 & Htr1 & Hb1 & Hst1 & Hh1).
  rewrite Hrun. clear Hrun.
  assert (Hi1 : conns w1 !! i = Some c1) by (rewrite Hcs1; by apply list_lookup_insert_eq).
  destruct (flush_buff_run i c1 w1 Hi1 Hwf1)
    as (r0 & w2 & flushed & Hfl & Hcs2 & Hcore2 & Htr2 & Hh2 & Hd2 & _ & Hrel2 & Hserve2 & _).
  rewrite (bind_run _ _ _ _ _ Hfl).
  rewrite Hcs1, list_insert_insert_eq in Hcs2.
  assert (Hi2 : conns w2 !! i = Some (set_buff_buff None c1)).
  { rewrite Hcs2. by apply list_lookup_insert_eq. }
  assert (Hstat2 : same_static c (set_buff_buff None c1)) by (by destruct Hstat1 as (?&?&?&?&?)).
  assert (Hheap2 : match buff_buff c with
                   | Some p => ∃ blk, blk_state blk ≠ Owned ∧ heap w2 = <[p := blk]> (heap w)
                   | None => heap w2 = heap w
                   end).
  { unfold released in Hrel2. rewrite Hb1 in Hrel2. destruct (buff_buff c) as [p|].
    - destruct Hrel2 as (b & st & _ & Hst & ->). destruct Hh1 as [blk ->].
      rewrite list_insert_insert_eq. exists (mk_block (blk_bytes b) st). by split.
    - congruence. }
  unfold flush_of in Hd2. rewrite Hst1 in Hd2, Hh2, Hserve2.
  destruct (drop k d) as [|x rest] eqn:Hdrop.
  - (* everything went into the buffer *)
    cbn [length Z.of_nat Z.eqb negb].
    exists r0, bw, w2, (set_buff_buff None c1), flushed.
    split; [reflexivity|]. split; [done|]. split; [done|]. split; [done|].
    split; [by eapply same_core_trans|]. split; [by rewrite Htr2, Htr1|].
    assert (Hall : take k d = d).
    { rewrite <- (take_drop k d) at 2. by rewrite Hdrop, app_nil_r. }
    split; [by rewrite Hh2, Hall|]. split; [by rewrite app_nil_r|]. split; [done|].
    split; [|done].
    intros Hs. apply Hserve2; [done|]. rewrite Hall. destruct d; [cbn in Hd0; lia|].
    by destruct (staged w i).
  - assert (Hlen : 0 < Z.of_nat (length (x :: rest))) by (cbn; lia).
    replace (Z.of_nat (length (x :: rest)) =? 0) with false by (symmetry; apply Z.eqb_neq; lia).
    cbn [negb].
    destruct (conn_send_keep i _ None 0 (DUser (x :: rest)) _ bw blocking w2 Hi2 eq_refl Hlen)
      as (r & new & Hsend & Hd3 & _ & Hserve3).
    rewrite Hsend.
    eexists r, _, _, (set_buff_buff None c1), (new ++ flushed).
    split; [reflexivity|]. cbn [conns trace heap].
    split; [done|]. split; [done|]. split; [done|].
    split.
    { eapply same_core_trans; [exact Hcore1|].
      destruct Hcore2 as (?&?&?). by repeat split. }
    split; [by rewrite Htr2, Htr1, app_assoc|].
    assert (Hpay : take (Z.to_nat (Z.of_nat (length (x :: rest)))) (x :: rest) = x :: rest).
    { apply take_ge. lia. }
    split.
    { rewrite handed_chunks. unfold chunks. rewrite dispatches_app, Hd2, Hd3.
      cbn [payload]. rewrite Hpay, map_app, concat_app. cbn [map concat fst app].
      rewrite app_nil_r. rewrite <- (take_drop k d) at 2. rewrite Hdrop, app_assoc. f_equal.
      destruct (staged w i ++ take k d); cbn; by rewrite ?app_nil_r. }
    split; [rewrite dispatches_app, Hd2, Hd3; cbn [payload]; by rewrite Hpay|].
    split; [done|]. split; [done|done].
Qed.

(** ** A close request on an active connection that is not closing *)

Lemma gsm_conn_close_run (i : nat) (c : gsm_conn_t) (blocking : Z) (w : World) :
  conns w !! i = Some c → buff_wf env w c →
  status_active c = true → status_in_closing c = false →
  if msg_alloc_ok env (trace w) then
    ∃ r w1 flushed,
      gsm_conn_close env (Some i) blocking w = Ok r w1
      ∧ conns w1
        = <[i := if is_ok r && (blocking =? 0)
                 then set_in_closing true (set_buff_buff None c)
                 else set_buff_buff None c]> (conns w)
      ∧ same_core w w1
      ∧ released c (heap w) (heap w1)
      ∧ trace w1 = EvSubmit (close_msg i c) blocking 1000 (lock w) r
                     :: flushed
                     ++ [EvReadValId i (val_id c) (S (lock w)); EvMsgAlloc true]
                     ++ trace w
      ∧ handed flushed = staged w i
      ∧ close_commands flushed = 0%nat
      ∧ (env_serves env → r = gsmOK)
  else
    gsm_conn_close env (Some i) blocking w = Ok gsmERRMEM (emit (EvMsgAlloc false) w).
Proof.
  intros Hi Hbwf Hact Hcl.
  assert (Hlt : (i < length (conns w))%nat) by (by eapply lookup_lt_Some).
  destruct (msg_alloc_ok env (trace w)) eqn:Hok.
  2: { destruct w as [cs ev hp lk ts tr]. cbn in Hi, Hok.
       unfold gsm_conn_close. mcbv. rewrite Hi. mcbv. rewrite Hcl, Hact. mcbv.
       by rewrite Hok. }
  set (w0 := mk_world (conns w) (evt w) (heap w) (lock w) (timeouts w)
                      (EvReadValId i (val_id c) (S (lock w)) :: EvMsgAlloc true :: trace w)).
  assert (Hrun : gsm_conn_close env (Some i) blocking w =
            (flush_buff env (Some i) ≫= λ _,
             gsmi_send_msg_to_producer_mbox env (close_msg i c) blocking 1000 ≫= λ res,
             (if is_ok res && (blocking =? 0) then
                GSM_CORE_PROTECT;;
                conn_update (Some i) (set_in_closing true);;
                GSM_CORE_UNPROTECT
              else mret tt);;
             mret res) w0).
  { unfold w0. destruct w as [cs ev hp lk ts tr]. cbn in Hi, Hok.
    unfold gsm_conn_close. mcbv. rewrite Hi. mcbv. rewrite Hcl, Hact. mcbv.
    rewrite Hok. mcbv. rewrite Hi. reflexivity. }
  rewrite Hrun. clear Hrun.
  assert (Hi0 : conns w0 !! i = Some c) by done.
  assert (Hbwf0 : buff_wf env w0 c) by done.
  destruct (flush_buff_run i c w0 Hi0 Hbwf0)
    as (r0 & w1 & flushed & Hfl & Hcs & Hcore & Htr & Hh & _ & Hnc & Hrel & _).
  rewrite (bind_run _ _ _ _ _ Hfl).
  assert (Hst0 : staged w0 i = staged w i) by done. rewrite Hst0 in Hh.
  destruct Hcore as (Hl & He & Hts).
  destruct w1 as [cs1 ev1 hp1 lk1 ts1 tr1]. cbn [conns trace lock evt timeouts heap] in *.
  subst lk1 ev1 ts1 tr1 cs1. mcbv.
  exists (mbox_result env (flushed ++ trace w0) (close_msg i c) blocking 1000).
  destruct (mbox_result env _ (close_msg i c) blocking 1000) eqn:Hr; mcbv.
  1: destruct (blocking =? 0) eqn:Hbl; mcbv;
       rewrite ?list_lookup_insert_eq by done; mcbv; rewrite ?list_insert_insert_eq.
  all: eexists _, flushed; split; [reflexivity|]; cbn [conns trace heap].
  all: split; [done|]; split; [done|]; split; [done|].
  all: split; [done|]; split; [done|]; split; [done|].
  all: try done.
  all: intros (_ & _ & Hm); by rewrite Hm in Hr.
Qed.

End Runs.

Section Safety.

Variable env : Env.

(** ** Every call keeps the state sound *)

Lemma flush_buff_null (w : World) : flush_buff env None w = Ok gsmOK w.
Proof. by destruct w. Qed.

Lemma gsm_conn_start_run conn_out type host port a evt_fn blocking (w : World) :
  ∃ r w', gsm_conn_start env conn_out type host port a evt_fn blocking w = Ok r w'
          ∧ conns w' = conns w ∧ heap w' = heap w.
Proof.
  destruct w as [cs ev hp lk ts tr]. unfold gsm_conn_start.
  destruct host as [h|]; [|by eexists _, _].
  destruct (0 <? port); [|by eexists _, _]. cbn [negb].
  destruct evt_fn as [fn|]; [|by eexists _, _].
  mcbv. destruct (msg_alloc_ok env tr); mcbv; [|by eexists _, _].
  destruct (mbox_result env _ _ _ _); by eexists _, _.
Qed.

Lemma gsm_get_conns_status_run blocking (w : World) :
  ∃ r w', gsm_get_conns_status env blocking w = Ok r w'
          ∧ conns w' = conns w ∧ heap w' = heap w.
Proof.
  destruct w as [cs ev hp lk ts tr]. unfold gsm_get_conns_status.
  mcbv. destruct (msg_alloc_ok env tr); mcbv; [|by eexists _, _].
  destruct (mbox_result env _ _ _ _); by eexists _, _.
Qed.

Lemma run_call_safe (k : api_call) (w : World) :
  env_wf env → world_wf env w → call_ok env (length (conns w)) k →
  ∃ w', run_call env k w = Ok tt w' ∧ world_wf env w'.
Proof.
  intros Hwf Hw Hok.
  destruct k as [conn ip port data btw bw fau blocking | conn
                | conn_out type host port a evt_fn blocking | conn blocking
                | conn ip port data btw bw blocking | conn data btw bw blocking
                | blocking | conn data btw flush mem];
    cbn [call_ok run_call] in *.
  - (* conn_send, not freeing after use *)
    destruct Hok as [Hh ->]. destruct conn as [i|]; [|by exists w].
    cbn in Hh. apply lookup_lt_is_Some in Hh as [c Hi].
    destruct (is_null data || (btw <=? 0)) eqn:Hbad.
    + rewrite (bind_run _ _ _ _ _ (conn_send_rejects env _ _ _ _ _ _ _ _ w Hbad)). by exists w.
    + apply orb_false_elim in Hbad as [Hnull Hpos]. apply Z.leb_gt in Hpos.
      destruct (conn_send_keep env i c ip port data btw bw blocking w Hi Hnull Hpos)
        as (r & new & Hrun & _).
      rewrite (bind_run _ _ _ _ _ Hrun). eexists. split; [reflexivity|].
      by eapply wf_same.
  - (* flush_buff *)
    destruct conn as [i|].
    2: { rewrite (bind_run _ _ _ _ _ (flush_buff_null w)). by exists w. }
    cbn in Hok. apply lookup_lt_is_Some in Hok as [c Hi].
    destruct (flush_buff_run env i c w Hi (wf_conn env w i c Hw Hi))
      as (r & w1 & flushed & Hrun & _).
    rewrite (bind_run _ _ _ _ _ Hrun). exists w1. split; [done|].
    by eapply flush_buff_wf.
  - (* gsm_conn_start *)
    destruct (gsm_conn_start_run conn_out type host port a evt_fn blocking w)
      as (r & w' & Hrun & Hc & Hh).
    rewrite (bind_run _ _ _ _ _ Hrun). exists w'. split; [done|]. by eapply wf_same.
  - (* gsm_conn_close *)
    destruct conn as [i|]; [|by exists w].
    cbn in Hok. apply lookup_lt_is_Some in Hok as [c Hi].
    pose proof (wf_conn env w i c Hw Hi) as Hbwf.
    destruct (status_in_closing c || negb (status_active c)) eqn:Hst.
    { rewrite (bind_run _ _ _ _ _ (gsm_conn_close_rejected env i c blocking w Hi Hst)).
      by exists w. }
    apply orb_false_elim in Hst as [Hcl Hact]. apply negb_false_iff in Hact.
    pose proof (gsm_conn_close_run env i c blocking w Hi Hbwf Hact Hcl) as Hrun.
    destruct (msg_alloc_ok env (trace w)).
    + destruct Hrun as (r & w1 & flushed & Hrun & Hcs & _ & Hrel & _).
      rewrite (bind_run _ _ _ _ _ Hrun). exists w1. split; [done|].
      eapply (wf_released env w w1 i c); try done.
      by destruct (is_ok r && (blocking =? 0)).
    + rewrite (bind_run _ _ _ _ _ Hrun). eexists. split; [reflexivity|].
      by eapply wf_same.
  - (* gsm_conn_sendto *)
    destruct conn as [i|]; [|by exists w].
    cbn in Hok. apply lookup_lt_is_Some in Hok as [c Hi].
    destruct (gsm_conn_sendto_run env i c ip port data btw bw blocking w Hi
                (wf_conn env w i c Hw Hi))
      as (r & bw' & w' & new & Hrun & Hcs & _ & Hrel & _).
    rewrite (bind_run _ _ _ _ _ Hrun). exists w'. split; [done|].
    by eapply (wf_released env w w' i c).
  - (* gsm_conn_send *)
    destruct Hok as [Hh Hdata]. destruct conn as [i|]; [|by exists w].
    destruct data as [d|]; [|by exists w].
    destruct (Hdata d eq_refl) as [-> Hsz].
    cbn in Hh. apply lookup_lt_is_Some in Hh as [c Hi].
    destruct d as [|x d].
    { exists w. split; [|done]. unfold gsm_conn_send. by destruct w. }
    destruct (gsm_conn_send_run env i c (x :: d) bw blocking w Hi (wf_conn env w i c Hw Hi))
      as (r & bw' & w' & c' & new & Hrun & Hcs & Hnone & _ & _ & _ & _ & _ & _ & _ & Hheap);
      [cbn; lia | done |].
    rewrite (bind_run _ _ _ _ _ Hrun). exists w'. split; [done|].
    destruct (buff_buff c) as [p|] eqn:Hb.
    + destruct Hheap as (blk & Hst & Hheap). by eapply (wf_release env w w' i c c' p blk).
    + by eapply (wf_unbuffered env w w' i c c').
  - (* gsm_get_conns_status *)
    destruct (gsm_get_conns_status_run blocking w) as (r & w' & Hrun & Hc & Hh).
    rewrite (bind_run _ _ _ _ _ Hrun). exists w'. split; [done|]. by eapply wf_same.
  - (* gsm_conn_write *)
    destruct Hok as (Hh & -> & Hsz). destruct conn as [i|]; [|by exists w].
    cbn in Hh. apply lookup_lt_is_Some in Hh as [c Hi].
    destruct (gsm_conn_write_run env i c data flush mem w Hwf Hw Hi Hsz)
      as (r & m & w' & c' & new & Hrun & Hw' & _).
    exists w'. split; [|done]. exact (bind_run _ (λ _, mret tt) _ _ _ Hrun).
Qed.

Lemma vals_length (w w' : World) : vals w' = vals w → length (conns w') = length (conns w).
Proof.
  unfold vals. intros H. apply (f_equal length) in H. by rewrite !length_fmap in H.
Qed.

(** X10.  From a sound state, any sequence of calls whose handles are
    [NULL] or valid and whose lengths are those of their data runs to
    its end without a fault: no [NULL] or stray pointer is followed, no
    copy leaves its block, no block is used or freed after it was given
    away, the core lock is never released more often than taken, and
    the loop of [gsm_conn_write] ends.  The state it leaves is sound
    again (every buffer a live block of its own with room left, no
    block of this layer without a connection), the core lock is back at
    its depth and the connection table has kept its size. *)
Theorem calls_keep_state_sound (ks : list api_call) (w : World) :
  env_wf env → world_wf env w → Forall (call_ok env (length (conns w))) ks →
  ∃ w',
    run_calls env ks w = Ok tt w'
    ∧ world_wf env w'
    ∧ lock w' = lock w
    ∧ length (conns w') = length (conns w).
Proof.
  intros Hwf. revert w. induction ks as [|k ks IH]; intros w Hw Hok.
  - by exists w.
  - inversion Hok as [|? ? Hk Hks]; subst.
    destruct (run_call_safe k w Hwf Hw Hk) as (w1 & Hrun & Hw1).
    destruct (run_call_good env k w w1 Hrun) as (Hl1 & Hv1 & _).
    apply vals_length in Hv1.
    destruct (IH w1 Hw1) as (w' & Hruns & Hw' & Hl' & Hn'); [by rewrite Hv1|].
    exists w'. cbn [run_calls]. rewrite (bind_run _ _ _ _ _ Hrun).
    split; [done|]. split; [done|]. split; congruence.
Qed.

End Safety.

Section Paths.

Variable env : Env.

(** ** One flush, and a second one *)

(** X5.  [flush_buff] on a connection with a buffer returns and gives
    the buffer away exactly once: the reference is cleared, the block
    belongs to the executor when the send was accepted ([gsmOK]) and is
    freed otherwise.  The used bytes go to the dispatcher in one
    non-blocking free-after-use call; an empty buffer sends nothing and
    yields [gsmERR].  A second flush changes nothing and returns
    [gsmOK]. *)
Theorem flush_buff_releases_once (i : nat) (c : gsm_conn_t) (p : nat) (b : block) (w : World) :
  conns w !! i = Some c → buff_buff c = Some p →
  heap w !! p = Some b → blk_state b = Owned → 0 ≤ buff_ptr c →
  ∃ r w' new,
    flush_buff env (Some i) w = Ok r w'
    ∧ trace w' = new ++ trace w
    ∧ conns w' = <[i := set_buff_buff None c]> (conns w)
    ∧ heap w' = <[p := mk_block (blk_bytes b) (if is_ok r then Queued else Freed)]> (heap w)
    ∧ frees new = (if is_ok r then [] else [p])
    ∧ dispatches new
      = (if buff_ptr c =? 0 then []
         else [(take (Z.to_nat (buff_ptr c)) (blk_bytes b), 1, 0)])
    ∧ (buff_ptr c = 0 → r = gsmERR)
    ∧ flush_buff env (Some i) w' = Ok gsmOK w'.
Proof.
  intros Hi Hb Hp Hst Hptr.
  assert (Hlt : (i < length (conns w))%nat) by (by eapply lookup_lt_Some).
  assert (Hagain : ∀ w', conns w' = <[i := set_buff_buff None c]> (conns w) →
                         flush_buff env (Some i) w' = Ok gsmOK w').
  { intros w' Hc. apply (flush_buff_none env i (set_buff_buff None c)); [|done].
    rewrite Hc. by apply list_lookup_insert_eq. }
  rewrite (flush_buff_eq env i c p b) by assumption. cbv zeta.
  destruct (buff_ptr c =? 0) eqn:H0.
  - eexists _, _, [_]. split; [reflexivity|]. repeat split; auto.
  - apply Z.eqb_neq in H0. destruct (msg_alloc_ok env _).
    + destruct (mbox_result env _ _ 0 60000) eqn:Hr; cbn [is_ok].
      1: eexists _, _, [_; _; _; _]; split; [reflexivity|]; repeat split; auto; done.
      all: eexists _, _, [_; _; _; _; _]; split; [reflexivity|]; repeat split; auto; done.
    + eexists _, _, [_; _; _]. split; [reflexivity|]. repeat split; auto. done.
Qed.

(** ** A close request, step by step *)


(** X7.  In an accepted close request the validation id is read first,
    then the write buffer is flushed, and only then the close command
    is submitted, with a time limit of 1000: every staged byte has gone
    to the dispatcher before the close command enters the producer
    mailbox, and the buffer reference is cleared.  When the envelope
    cannot be allocated the request returns [gsmERRMEM] before any of
    this: the staged bytes stay staged. *)
Theorem close_flushes_before_submitting (i : nat) (c : gsm_conn_t)
    (blocking : Z) (w : World) :
  conns w !! i = Some c → buff_wf env w c →
  status_active c = true → status_in_closing c = false →
  ∃ r w1 c1,
    gsm_conn_close env (Some i) blocking w = Ok r w1
    ∧ conns w1 !! i = Some c1
    ∧ if msg_alloc_ok env (trace w) then
        buff_buff c1 = None
        ∧ ∃ flushed,
            trace w1 = EvSubmit (close_msg i c) blocking 1000 (lock w) r
                         :: flushed
                         ++ [EvReadValId i (val_id c) (S (lock w)); EvMsgAlloc true]
                         ++ trace w
            ∧ handed flushed = staged w i
            ∧ close_commands flushed = 0%nat
      else
        r = gsmERRMEM ∧ c1 = c ∧ heap w1 = heap w
        ∧ trace w1 = EvMsgAlloc false :: trace w.
Proof.
  intros Hi Hbwf Hact Hcl.
  assert (Hlt : (i < length (conns w))%nat) by (by eapply lookup_lt_Some).
  pose proof (gsm_conn_close_run env i c blocking w Hi Hbwf Hact Hcl) as Hrun.
  destruct (msg_alloc_ok env (trace w)) eqn:Hok.
  - destruct Hrun as (r & w1 & flushed & Hrun & Hcs & _ & _ & Htr & Hh & Hnc & _).
    eexists r, w1, _. split; [done|].
    split; [rewrite Hcs; by apply list_lookup_insert_eq|].
    split; [by destruct (is_ok r && (blocking =? 0))|].
    by exists flushed.
  - exists gsmERRMEM, (emit (EvMsgAlloc false) w), c. by repeat split.
Qed.

(** ** Sending past the write buffer *)

(** X8.  [gsm_conn_sendto] flushes the write buffer first and sends the
    caller's data after it, as one call of the dispatcher that does not
    free after use and blocks as the caller asked: the staged bytes
    leave before the new ones, and the buffer reference is cleared.
    The data pointer and the length are only checked after the flush:
    with [NULL] data or a zero length the call has flushed the buffer
    and returns [gsmPARERR] with the output cell untouched, whereas
    [gsm_conn_send] rejects a zero length before it touches
    anything. *)
Theorem sendto_flushes_then_sends (i : nat) (c : gsm_conn_t) ip port data btw bw blocking
    (w : World) :
  conns w !! i = Some c → buff_wf env w c →
  (∃ r bw' w' new,
     gsm_conn_sendto env (Some i) ip port data btw bw blocking w = Ok (r, bw') w'
     ∧ conns w' = <[i := set_buff_buff None c]> (conns w)
     ∧ same_core w w'
     ∧ released c (heap w) (heap w')
     ∧ trace w' = new ++ trace w
     ∧ if is_null data || (btw <=? 0) then
         r = gsmPARERR ∧ bw' = bw ∧ dispatches new = flush_of w i
       else
         bw' = bw_reset bw
         ∧ dispatches new = flush_of w i ++ [(payload w' data btw, 0, blocking)]
         ∧ (env_serves env → r = gsmOK))
  ∧ (∀ d, btw ≤ 0 → gsm_conn_send env (Some i) d btw bw blocking w = Ok (gsmPARERR, bw) w).
Proof.
  intros Hi Hwf. split; [by apply (gsm_conn_sendto_run env i c)|].
  intros d Hb. unfold gsm_conn_send. cbn [is_none]. destruct d; [|done].
  replace (0 <? btw) with false by (symmetry; apply Z.ltb_ge; lia). done.
Qed.

(** ** Sending through the write buffer *)

(** X9.  [gsm_conn_send] on a sound connection returns, and every
    staged byte and every byte of the input, in this order, has gone to
    the dispatcher: the input first fills the room left in the write
    buffer, the buffer is flushed (free after use, not blocking), and
    what did not fit is sent directly from the caller's memory (not
    freed, blocking as asked).  No buffer is left.  The output cell is
    zeroed only when something is sent directly. *)
Theorem send_hands_staged_then_input (i : nat) (c : gsm_conn_t) (d : list byte) bw blocking
    (w : World) :
  conns w !! i = Some c → buff_wf env w c →
  (0 < length d)%nat → Z.of_nat (length d) < size_mod env →
  let room := match buff_buff c with
              | Some _ => buff_len c - buff_ptr c
              | None => 0
              end in
  let k := Z.to_nat (Z.min (Z.of_nat (length d)) room) in
  ∃ r bw' w' c' new,
    gsm_conn_send env (Some i) (Some d) (Z.of_nat (length d)) bw blocking w = Ok (r, bw') w'
    ∧ conns w' !! i = Some c' ∧ buff_buff c' = None ∧ same_static c c'
    ∧ same_core w w'
    ∧ trace w' = new ++ trace w
    ∧ handed new = staged w i ++ d
    ∧ dispatches new
      = match staged w i ++ take k d with
        | [] => []
        | s => [(s, 1, 0)]
        end
        ++ match drop k d with
           | [] => []
           | s => [(s, 0, blocking)]
           end
    ∧ bw' = match drop k d with
            | [] => bw
            | _ => bw_reset bw
            end
    ∧ (env_serves env → r = gsmOK).
Proof.
  intros Hi Hwf Hd0 Hd room k.
  destruct (gsm_conn_send_run env i c d bw blocking w Hi Hwf Hd0 Hd)
    as (r & bw' & w' & c' & new & Hrun & Hcs & Hnone & Hstat & Hcore & Htr & Hh & Hdis
        & Hbw & Hserve & _).
  exists r, bw', w', c', new. split; [done|].
  split; [rewrite Hcs; apply list_lookup_insert_eq; by eapply lookup_lt_Some|].
  do 7 (split; [done|]). done.
Qed.

(** ** Writing in chunks *)

Lemma staged_at_rest (i : nat) (w : World) :
  env_wf env → world_wf env w →
  Z.of_nat (length (staged w i)) < GSM_CFG_CONN_MAX_DATA_LEN env.
Proof.
  intros Hwf Hw. unfold env_wf in Hwf. unfold staged.
  destruct (conns w !! i) as [c|] eqn:Hi; [|cbn; lia].
  pose proof (wf_conn env w i c Hw Hi) as Hb.
  pose proof (wf_at_rest env w i c Hw Hi) as Hr.
  unfold buff_wf in Hb. unfold buff_at_rest in Hr.
  destruct (buff_buff c) as [p|]; [|cbn; lia].
  destruct Hb as (b & -> & _ & Hlen & Hptr & _). rewrite length_take. lia.
Qed.

(** X11.  Without a flush, [gsm_conn_write] on a sound state hands the
    dispatcher full chunks only, each to be freed after use and not
    blocking, and leaves less than a chunk staged: whatever the sizes
    of the writes, the commands carry [GSM_CFG_CONN_MAX_DATA_LEN] bytes
    each. *)
Theorem write_without_flush_sends_full_chunks (i : nat) (c : gsm_conn_t) (data : list byte)
    (mem : option Z) (w : World) :
  env_wf env → world_wf env w → conns w !! i = Some c →
  Z.of_nat (length data) < size_mod env →
  ∃ r m w' new,
    gsm_conn_write env (Some i) data (Z.of_nat (length data)) 0 mem w = Ok (r, m) w'
    ∧ trace w' = new ++ trace w
    ∧ Forall (λ x, Z.of_nat (length x.1.1) = GSM_CFG_CONN_MAX_DATA_LEN env
                   ∧ x.1.2 = 1 ∧ x.2 = 0) (dispatches new)
    ∧ Z.of_nat (length (staged w' i)) < GSM_CFG_CONN_MAX_DATA_LEN env.
Proof.
  intros Hwf Hw Hi Hsz.
  destruct (gsm_conn_write_run env i c data 0 mem w Hwf Hw Hi Hsz)
    as (r & m & w' & c' & new & Hrun & Hw' & _ & _ & Htr & Hdis & _).
  exists r, m, w', new. split; [done|]. split; [done|].
  split; [|by apply staged_at_rest].
  eapply Forall_impl; [|exact Hdis]. intros x (? & ? & Hx). cbn. auto.
Qed.

Lemma full_chunks_length (xs : list (list byte * Z * Z)) :
  Forall (write_dispatch env 0) xs →
  Z.of_nat (length (concat (map (λ x, x.1.1) xs)))
  = GSM_CFG_CONN_MAX_DATA_LEN env * Z.of_nat (length xs).
Proof.
  induction 1 as [|x xs (_ & _ & Hx) _ IH]; cbn [map concat length]; [lia|].
  rewrite length_app, Nat2Z.inj_add, IH, (Hx eq_refl). lia.
Qed.

(** X18.  Without a flush, a successful [gsm_conn_write] on a sound
    state with [s] bytes staged and [n] bytes of input hands the
    dispatcher exactly [(s + n) / GSM_CFG_CONN_MAX_DATA_LEN] chunks and
    leaves [(s + n) mod GSM_CFG_CONN_MAX_DATA_LEN] bytes staged. *)
Theorem write_without_flush_chunk_count (i : nat) (c : gsm_conn_t) (data : list byte)
    (mem : option Z) (w : World) :
  env_wf env → world_wf env w → conns w !! i = Some c →
  Z.of_nat (length data) < size_mod env →
  let total := Z.of_nat (length (staged w i)) + Z.of_nat (length data) in
  ∃ r m w' new,
    gsm_conn_write env (Some i) data (Z.of_nat (length data)) 0 mem w = Ok (r, m) w'
    ∧ trace w' = new ++ trace w
    ∧ (r = gsmOK →
       Z.of_nat (length (dispatches new)) = total / GSM_CFG_CONN_MAX_DATA_LEN env
       ∧ Z.of_nat (length (staged w' i)) = total mod GSM_CFG_CONN_MAX_DATA_LEN env).
Proof.
  intros Hwf Hw Hi Hsz total.
  destruct (gsm_conn_write_run env i c data 0 mem w Hwf Hw Hi Hsz)
    as (r & m & w' & c' & new & Hrun & Hw' & _ & _ & Htr & Hdis & _).
  destruct (gsm_conn_write_spec env i c data 0 mem w Hwf Hi (wf_conn env w i c Hw Hi) Hsz)
    as (r' & m' & w'' & c'' & new' & Hrun' & _ & _ & _ & _ & Htr' & _ & Hh & _).
  rewrite Hrun in Hrun'. injection Hrun' as <- <- <-.
  rewrite Htr in Htr'. apply app_inv_tail in Htr'. subst new'.
  exists r, m, w', new. split; [done|]. split; [done|].
  intros Hr. specialize (Hh Hr).
  pose proof (staged_at_rest i w' Hwf Hw') as Hlt.
  pose proof (full_chunks_length _ Hdis) as Hlen.
  rewrite handed_chunks in Hh. unfold chunks in Hh.
  apply (f_equal length) in Hh. rewrite !length_app in Hh.
  set (MAX := GSM_CFG_CONN_MAX_DATA_LEN env) in *.
  assert (Htot : total = MAX * Z.of_nat (length (dispatches new))
                         + Z.of_nat (length (staged w' i))) by (unfold total; lia).
  unfold env_wf in Hwf. fold MAX in Hwf.
  apply Z.div_mod_unique with (b := MAX).
  - left. lia.
  - left. apply Z.mod_pos_bound. lia.
  - rewrite <- Htot. apply Z.div_mod. lia.
Qed.

(** X12.  A successful [gsm_conn_write] on a sound state reports 0
    available bytes exactly when it leaves the connection without
    buffer, and that happens only when a flush was asked for or the
    allocation of the next buffer failed; in every other case it
    reports room for at least one byte. *)
Theorem write_reports_zero_iff_no_buffer (i : nat) (c : gsm_conn_t) (data : list byte)
    (flush v0 : Z) (w : World) :
  env_wf env → world_wf env w → conns w !! i = Some c →
  Z.of_nat (length data) < size_mod env →
  ∃ r m w' c' new,
    gsm_conn_write env (Some i) data (Z.of_nat (length data)) flush (Some v0) w = Ok (r, m) w'
    ∧ conns w' !! i = Some c'
    ∧ trace w' = new ++ trace w
    ∧ (r = gsmOK →
       (m = Some 0 ↔ buff_buff c' = None)
       ∧ (buff_buff c' ≠ None → ∃ n, m = Some n ∧ 0 < n)
       ∧ (buff_buff c' = None → flush ≠ 0 ∨ existsb alloc_failed new = true)).
Proof.
  intros Hwf Hw Hi Hsz.
  destruct (gsm_conn_write_run env i c data flush (Some v0) w Hwf Hw Hi Hsz)
    as (r & m & w' & c' & new & Hrun & Hw' & Hi' & _ & Htr & _ & Hrep & Hfail).
  exists r, m, w', c', new. split; [done|]. split; [done|]. split; [done|].
  intros Hr. rewrite (Hrep Hr). unfold reported.
  pose proof (wf_at_rest env w' i c' Hw' Hi') as Hrest. unfold buff_at_rest in Hrest.
  destruct (buff_buff c') as [p|] eqn:Hb.
  - destruct Hrest as [_ Hroom]. split; [|split; [|done]].
    + split; [|done]. intros [= H0]. lia.
    + intros _. eexists. split; [done|]. lia.
  - split; [done|]. split; [done|]. intros _.
    destruct (Z.eq_dec flush 0) as [H0|H0]; [right|by left]. by apply Hfail.
Qed.

(** X13.  With a flush asked for, a successful [gsm_conn_write] leaves
    nothing behind: the bytes staged before and the input have all
    gone to the dispatcher, in this order, the connection has no
    buffer and the report, when asked for, is 0. *)
Theorem write_with_flush_hands_everything (i : nat) (c : gsm_conn_t) (data : list byte)
    (flush : Z) (mem : option Z) (w : World) :
  env_wf env → conns w !! i = Some c → buff_wf env w c →
  Z.of_nat (length data) < size_mod env → flush ≠ 0 →
  ∃ r m w' c' new,
    gsm_conn_write env (Some i) data (Z.of_nat (length data)) flush mem w = Ok (r, m) w'
    ∧ conns w' !! i = Some c'
    ∧ trace w' = new ++ trace w
    ∧ (r = gsmOK →
       handed new = staged w i ++ data
       ∧ staged w' i = []
       ∧ buff_buff c' = None
       ∧ m = match mem with Some _ => Some 0 | None => None end).
Proof.
  intros Hwf Hi Hbwf Hsz Hfl.
  destruct (gsm_conn_write_spec env i c data flush mem w Hwf Hi Hbwf Hsz)
    as (r & m & w' & c' & new & Hrun & Hi' & _ & _ & _ & Htr & _ & Hh & Hrep & _ & _ & Hnone).
  exists r, m, w', c', new. split; [done|]. split; [done|]. split; [done|].
  intros Hr. specialize (Hnone Hr Hfl).
  assert (Hst : staged w' i = []) by (unfold staged; by rewrite Hi', Hnone).
  specialize (Hh Hr). rewrite Hst, app_nil_r in Hh.
  split; [done|]. split; [done|]. split; [done|].
  rewrite (Hrep Hr). unfold reported. by rewrite Hnone.
Qed.

End Paths.

Section Envelopes.

Variable env : Env.

(** ** Every envelope is submitted *)

Ltac level_tac :=
  repeat match goal with w0 : World |- _ => destruct w0 end;
  unfold level, submissions, envelopes in *; cbn in *; lia.

Ltac level_by_cases H :=
  mcbv in H;
  repeat (case_match; try discriminate); simplify_eq.

Lemma conn_send_level conn ip port data btw bw fau blocking (w w' : World) a :
  conn_send env conn ip port data btw bw fau blocking w = Ok a w' → level w w'.
Proof.
  intros H. destruct w as [cs ev hp lk ts tr].
  unfold conn_send in H. level_by_cases H; level_tac.
Qed.

Ltac callee_level :=
  repeat match goal with
    | Hs : conn_send _ _ _ _ _ _ _ _ _ _ = Ok _ _ |- _ => apply conn_send_level in Hs
    end.

Lemma flush_buff_level conn (w w' : World) r :
  flush_buff env conn w = Ok r w' → level w w'.
Proof.
  intros H. destruct w as [cs ev hp lk ts tr].
  unfold flush_buff in H. level_by_cases H; callee_level; level_tac.
Qed.

Ltac callees_level :=
  repeat match goal with
    | Hs : conn_send _ _ _ _ _ _ _ _ _ _ = Ok _ _ |- _ => apply conn_send_level in Hs
    | Hs : flush_buff _ _ _ = Ok _ _ |- _ => apply flush_buff_level in Hs
    end.

Lemma gsm_conn_start_level conn_out type host port uarg evt_fn blocking (w w' : World) a :
  gsm_conn_start env conn_out type host port uarg evt_fn blocking w = Ok a w' → level w w'.
Proof.
  intros H. destruct w as [cs ev hp lk ts tr].
  unfold gsm_conn_start in H. level_by_cases H; level_tac.
Qed.

Lemma gsm_get_conns_status_level blocking (w w' : World) a :
  gsm_get_conns_status env blocking w = Ok a w' → level w w'.
Proof.
  intros H. destruct w as [cs ev hp lk ts tr].
  unfold gsm_get_conns_status in H. level_by_cases H; level_tac.
Qed.

Lemma gsm_conn_close_level conn blocking (w w' : World) a :
  gsm_conn_close env conn blocking w = Ok a w' → level w w'.
Proof.
  intros H. destruct w as [cs ev hp lk ts tr].
  unfold gsm_conn_close in H. level_by_cases H; callees_level; level_tac.
Qed.

Lemma gsm_conn_sendto_level conn ip port data btw bw blocking (w w' : World) a :
  gsm_conn_sendto env conn ip port data btw bw blocking w = Ok a w' → level w w'.
Proof.
  intros H. destruct w as [cs ev hp lk ts tr].
  unfold gsm_conn_sendto in H. level_by_cases H; callees_level; level_tac.
Qed.

Lemma gsm_conn_send_level conn data btw bw blocking (w w' : World) a :
  gsm_conn_send env conn data btw bw blocking w = Ok a w' → level w w'.
Proof.
  intros H. destruct w as [cs ev hp lk ts tr].
  unfold gsm_conn_send in H. level_by_cases H; callees_level; level_tac.
Qed.

Lemma write_step1_1_level conn (w w' : World) a :
  write_step1_1 env conn w = Ok a w' → level w w'.
Proof.
  intros H. destruct w as [cs ev hp lk ts tr].
  unfold write_step1_1 in H. level_by_cases H; callees_level; level_tac.
Qed.

Lemma write_step1_level conn d btw flush (w w' : World) a :
  write_step1 env conn d btw flush w = Ok a w' → level w w'.
Proof.
  intros H. destruct w as [cs ev hp lk ts tr].
  unfold write_step1 in H. level_by_cases H.
  all: repeat match goal with
         | Hs : write_step1_1 _ _ _ = Ok _ _ |- _ => apply write_step1_1_level in Hs
         end.
  all: level_tac.
Qed.

Lemma write_step2_level fuel conn d btw (w w' : World) a :
  write_step2 env fuel conn d btw w = Ok a w' → level w w'.
Proof.
  revert d btw w. induction fuel as [|fuel IH]; intros d btw w H;
    rewrite write_step2_unfold in H.
  - destruct (btw <? MAX_DATA_LEN env); [|done].
    apply ret_Ok in H as [_ <-]. done.
  - destruct (btw <? MAX_DATA_LEN env).
    { apply ret_Ok in H as [_ <-]. done. }
    destruct w as [cs ev hp lk ts tr]. level_by_cases H.
    all: try match goal with
           | Hr : write_step2 _ _ _ _ _ _ = Ok _ _ |- _ => apply IH in Hr
           end.
    all: callees_level; level_tac.
Qed.

Lemma write_step3_level conn d btw (w w' : World) a :
  write_step3 env conn d btw w = Ok a w' → level w w'.
Proof.
  intros H. destruct w as [cs ev hp lk ts tr].
  unfold write_step3 in H. level_by_cases H; level_tac.
Qed.

Lemma write_step4_level conn flush mem (w w' : World) a :
  write_step4 env conn flush mem w = Ok a w' → level w w'.
Proof.
  intros H. destruct w as [cs ev hp lk ts tr].
  unfold write_step4 in H. level_by_cases H; callees_level; level_tac.
Qed.

Lemma gsm_conn_write_level conn data btw flush mem (w w' : World) a :
  gsm_conn_write env conn data btw flush mem w = Ok a w' → level w w'.
Proof.
  intros H. destruct w as [cs ev hp lk ts tr].
  unfold gsm_conn_write in H. level_by_cases H.
  all: repeat match goal with
         | Hs : write_step1 _ _ _ _ _ _ = Ok _ _ |- _ => apply write_step1_level in Hs
         | Hs : write_step2 _ _ _ _ _ _ = Ok _ _ |- _ => apply write_step2_level in Hs
         | Hs : write_step3 _ _ _ _ _ = Ok _ _ |- _ => apply write_step3_level in Hs
         | Hs : write_step4 _ _ _ _ _ = Ok _ _ |- _ => apply write_step4_level in Hs
         end.
  all: level_tac.
Qed.

Lemma run_call_level (k : api_call) (w w' : World) :
  run_call env k w = Ok tt w' → level w w'.
Proof.
  intros H. destruct k; cbn [run_call] in H;
    apply bind_Ok in H as (a & w1 & H & Hret); apply ret_Ok in Hret as [_ <-].
  - by eapply conn_send_level.
  - by eapply flush_buff_level.
  - by eapply gsm_conn_start_level.
  - by eapply gsm_conn_close_level.
  - by eapply gsm_conn_sendto_level.
  - by eapply gsm_conn_send_level.
  - by eapply gsm_get_conns_status_level.
  - by eapply gsm_conn_write_level.
Qed.

Lemma submissions_app (new old : list event) :
  submissions (new ++ old) = (submissions new + submissions old)%nat.
Proof. unfold submissions. by rewrite List.filter_app, length_app. Qed.

Lemma envelopes_app (new old : list event) :
  envelopes (new ++ old) = (envelopes new + envelopes old)%nat.
Proof. unfold envelopes. by rewrite List.filter_app, length_app. Qed.

(** X14.  Whatever operation of the file runs, it submits exactly as
    many commands to the producer mailbox as it has allocated
    envelopes: no command is submitted without an envelope of its own,
    and no envelope that was allocated is kept back or dropped on the
    way, whatever the allocator and the mailbox answer. *)
Theorem every_envelope_is_submitted (k : api_call) (w w' : World) :
  run_call env k w = Ok tt w' →
  ∃ new, trace w' = new ++ trace w ∧ submissions new = envelopes new.
Proof.
  intros H. pose proof (run_call_level k w w' H) as Hlv.
  apply run_call_good in H as (_ & _ & new & Htr & _).
  exists new. split; [done|]. unfold level in Hlv.
  rewrite Htr, submissions_app, envelopes_app in Hlv. lia.
Qed.

End Envelopes.

Section Commands.

Variable env : Env.

(** ** The command of a full chunk *)

(** The one round of step 2 that a write of exactly one chunk makes,
    once its block is allocated: what it does to the trace and to the
    heap, by the answers of the envelope allocator and of the mailbox. *)
Lemma write_step2_one_chunk (fuel i : nat) (c : gsm_conn_t) (d : list byte) (w : World) :
  env_wf env → conns w !! i = Some c →
  Z.of_nat (length d) = GSM_CFG_CONN_MAX_DATA_LEN env →
  mem_alloc_ok env (trace w) (GSM_CFG_CONN_MAX_DATA_LEN env) = true →
  let MAX := GSM_CFG_CONN_MAX_DATA_LEN env in
  let p := length (heap w) in
  let cmd := conn_send_msg (Some i) None 0 (DHeap p) MAX None 1 (val_id c) in
  let tr1 := EvConnSend (Some i) d 1 0 :: EvAlloc MAX (Some p) :: trace w in
  let tr3 := EvReadValId i (val_id c) (S (lock w)) :: EvMsgAlloc true :: tr1 in
  let r := mbox_result env tr3 cmd 0 60000 in
  write_step2 env (S fuel) (Some i) d (Z.of_nat (length d)) w =
    if msg_alloc_ok env tr1 then
      if is_ok r then
        Ok (inr ([], 0))
           (mk_world (conns w) (evt w) (heap w ++ [mk_block d Queued]) (lock w) (timeouts w)
                     (EvSubmit cmd 0 60000 (lock w) r :: tr3))
      else
        Ok (inl gsmERRMEM)
           (mk_world (conns w) (evt w) (heap w ++ [mk_block d Freed]) (lock w) (timeouts w)
                     (EvFree p :: EvSubmit cmd 0 60000 (lock w) r :: tr3))
    else
      Ok (inl gsmERRMEM)
         (mk_world (conns w) (evt w) (heap w ++ [mk_block d Freed]) (lock w) (timeouts w)
                   (EvFree p :: EvMsgAlloc false :: tr1)).
Proof.
  intros Hwf Hi Hd Hok MAX p cmd tr1 tr3 r. pose proof Hwf as Hwf'. unfold env_wf in Hwf'.
  fold MAX in Hwf', Hd, Hok.
  rewrite write_step2_unfold. rewrite size_mul_max by done.
  unfold MAX_DATA_LEN. fold MAX.
  replace (Z.of_nat (length d) <? MAX) with false by (symmetry; apply Z.ltb_ge; lia).
  rewrite size_sub_small by (fold MAX; lia).
  set (n := Z.to_nat MAX).
  assert (Hn : n = length d) by (unfold n; lia).
  set (zeros := replicate n x00).
  assert (Hbs : take (Z.to_nat 0) zeros ++ take n d ++ drop (Z.to_nat (0 + MAX)) zeros = d).
  { change (Z.to_nat 0) with 0%nat. rewrite take_0. cbn [app].
    rewrite take_ge by lia. rewrite drop_ge; [by rewrite app_nil_r|].
    unfold zeros. rewrite length_replicate. unfold n. lia. }
  set (w2 := mk_world (conns w) (evt w) (heap w ++ [mk_block d Owned]) (lock w) (timeouts w)
                      (EvAlloc MAX (Some p) :: trace w)).
  assert (Hpay : payload w2 (DHeap p) MAX = d).
  { unfold payload, w2. cbn [heap]. unfold p. rewrite list_lookup_middle by done.
    cbn [blk_bytes]. apply take_ge. fold n. lia. }
  pose proof (conn_send_eq env i c None 0 (DHeap p) MAX None 1 0 w2 Hi eq_refl ltac:(lia))
    as Hsend.
  rewrite Hpay in Hsend. cbv zeta in Hsend.
  assert (Hho : hand_over (conn_send_msg (Some i) None 0 (DHeap p) MAX None 1 (val_id c)) (heap w2)
                = heap w ++ [mk_block d Queued]) by apply hand_over_snoc.
  rewrite Hho in Hsend. clear Hho.
  replace (drop n d) with (@nil byte) by (symmetry; apply drop_ge; lia).
  replace (Z.of_nat (length d) - MAX) with 0 by lia.
  assert (Hend : ∀ fuel' w', write_step2 env fuel' (Some i) [] 0 w' = Ok (inr ([], 0)) w').
  { intros fuel' w'. rewrite write_step2_unfold. unfold MAX_DATA_LEN. fold MAX.
    by replace (0 <? MAX) with true by (symmetry; apply Z.ltb_lt; lia). }
  unfold r, tr3, tr1, cmd. clear r tr3 tr1 cmd.
  destruct w as [cs ev hp lk ts tr]. cbn in Hi, Hok. cbn [heap conns evt lock timeouts trace] in *.
  mcbv. rewrite Hok. mcbv.
  rewrite list_lookup_middle by done. cbn [blk_state blk_bytes].
  replace (MAX <=? Z.of_nat (length d)) with true by (symmetry; apply Z.leb_le; lia).
  replace (0 + MAX <=? Z.of_nat (length (replicate (Z.to_nat MAX) x00))) with true
    by (symmetry; apply Z.leb_le; rewrite length_replicate; lia).
  rewrite insert_snoc. fold n zeros. rewrite Hbs. fold p. fold w2.
  rewrite Hsend. clear Hsend.
  destruct (msg_alloc_ok env _) eqn:Hma.
  - destruct (mbox_result env _ _ 0 60000) eqn:Hr; cbn [is_ok negb]; [apply Hend|..].
    all: unfold w2, p; mcbv;
      rewrite list_lookup_middle by done; cbn [blk_state blk_bytes];
      by rewrite insert_snoc.
  - unfold w2, p. mcbv.
    rewrite list_lookup_middle by done; cbn [blk_state blk_bytes].
    by rewrite insert_snoc.
Qed.

(** Step 3 with nothing left to copy, on a connection without buffer:
    it asks for the next buffer and takes what it gets. *)
Lemma write_step3_next_buffer (i : nat) (c : gsm_conn_t) (w : World) :
  env_wf env → conns w !! i = Some c → buff_buff c = None →
  let MAX := GSM_CFG_CONN_MAX_DATA_LEN env in
  let p := length (heap w) in
  write_step3 env (Some i) [] 0 w =
    if mem_alloc_ok env (trace w) MAX then
      Ok None
         (mk_world (<[i := set_buff_ptr 0 (set_buff_len MAX (set_buff_buff (Some p) c))]> (conns w))
                   (evt w) (heap w ++ [mk_block (replicate (Z.to_nat MAX) x00) Owned])
                   (lock w) (timeouts w) (EvAlloc MAX (Some p) :: trace w))
    else
      Ok None
         (mk_world (<[i := set_buff_ptr 0 (set_buff_len MAX (set_buff_buff None c))]> (conns w))
                   (evt w) (heap w) (lock w) (timeouts w) (EvAlloc MAX None :: trace w)).
Proof.
  intros Hwf Hi Hb MAX p.
  assert (Hi' : (i < length (conns w))%nat) by (eapply lookup_lt_Some; eauto).
  unfold p. clear p.
  destruct w as [cs ev hp lk ts tr]. cbn [conns heap trace evt lock timeouts] in *.
  unfold write_step3. mcbv. rewrite Hi. mcbv. rewrite Hb. mcbv.
  rewrite size_mul_max by done. unfold MAX_DATA_LEN. fold MAX.
  destruct (mem_alloc_ok env tr MAX) eqn:Hok; mcbv; rewrite Hi; mcbv; reflexivity.
Qed.

(** Step 4 without flush reports and changes nothing. *)
Lemma write_step4_report (i : nat) (c : gsm_conn_t) (mem : option Z) (w : World) :
  conns w !! i = Some c →
  write_step4 env (Some i) 0 mem w
  = Ok (gsmOK, match mem with
               | Some _ =>
                   match buff_buff c with
                   | Some _ => Some (size_sub env (buff_len c) (buff_ptr c))
                   | None => Some 0
                   end
               | None => None
               end) w.
Proof.
  intros Hi. destruct w as [cs ev hp lk ts tr]. cbn [conns] in Hi.
  unfold write_step4. mcbv. rewrite Hi. mcbv. cbn [Z.eqb]. mcbv. by rewrite Hi.
Qed.

(** C5.  One [gsm_conn_write] of exactly [GSM_CFG_CONN_MAX_DATA_LEN]
    bytes, without flush, on a connection without buffer: the call
    returns [gsmOK] or [gsmERRMEM], and [gsmOK] whenever the allocator
    and the mailbox never refuse.  When it returns [gsmOK], the
    dispatcher was called exactly once, with the whole input as a
    free-after-use, non-blocking send, and this one dispatch went all
    the way: the call allocated one block [p], submitted exactly one
    command, the send command whose envelope names the connection,
    points at [p] with the full chunk length, has the free-after-use
    flag set and carries the validation id read just before under the
    lock; the mailbox accepted it, so block [p], which holds exactly
    the input bytes, is the executor's now and was not freed here.
    The only other action is the request for the next buffer: no byte
    is staged, and the buffer the connection ends with, if it got one,
    has used length 0 and full capacity. *)
Theorem write_full_chunk_once (i : nat) (c : gsm_conn_t) (data : list byte)
    (mem : option Z) (w : World) :
  env_wf env → conns w !! i = Some c → buff_buff c = None →
  Z.of_nat (length data) = GSM_CFG_CONN_MAX_DATA_LEN env →
  let MAX := GSM_CFG_CONN_MAX_DATA_LEN env in
  let p := length (heap w) in
  let cmd := conn_send_msg (Some i) None 0 (DHeap p) MAX None 1 (val_id c) in
  ∃ r m w' c' new,
    gsm_conn_write env (Some i) data (Z.of_nat (length data)) 0 mem w = Ok (r, m) w'
    ∧ conns w' !! i = Some c'
    ∧ trace w' = new ++ trace w
    ∧ (r = gsmOK ∨ r = gsmERRMEM)
    ∧ (env_serves env → r = gsmOK)
    ∧ (r = gsmOK →
       dispatches new = [(data, 1, 0)]
       ∧ staged w' i = []
       ∧ (buff_buff c' ≠ None →
          buff_ptr c' = 0 ∧ buff_len c' = GSM_CFG_CONN_MAX_DATA_LEN env)
       ∧ new = [EvAlloc MAX (buff_buff c');
                EvSubmit cmd 0 60000 (lock w) gsmOK;
                EvReadValId i (val_id c) (S (lock w));
                EvMsgAlloc true;
                EvConnSend (Some i) data 1 0;
                EvAlloc MAX (Some p)]
       ∧ heap w' !! p = Some (mk_block data Queued)
       ∧ frees new = []).
Proof.
  intros Hwf Hi Hb Hlen MAX p cmd. pose proof Hwf as Hwf'. unfold env_wf in Hwf'.
  fold MAX in Hwf', Hlen.
  assert (Hi' : (i < length (conns w))%nat) by (eapply lookup_lt_Some; eauto).
  assert (Hfuel : ∃ fuel, Z.to_nat (Z.of_nat (length data)) = S fuel).
  { exists (pred (length data)). lia. }
  destruct Hfuel as [fuel Hfuel].
  assert (Hrun : gsm_conn_write env (Some i) data (Z.of_nat (length data)) 0 mem w =
            (write_step2 env (S fuel) (Some i) data (Z.of_nat (length data)) ≫= λ r2,
             match r2 with
             | inl r => mret (r, mem)
             | inr (d, btw) =>
                 write_step3 env (Some i) d btw ≫= λ r3,
                 match r3 with
                 | Some r => mret (r, mem)
                 | None => write_step4 env (Some i) 0 mem
                 end
             end) w).
  { unfold gsm_conn_write. cbn [is_none].
    rewrite (bind_run _ _ _ _ _ (write_step1_none env i c data _ 0 w Hi Hb)).
    cbv beta iota. by rewrite Hfuel. }
  rewrite Hrun. clear Hrun.
  destruct (mem_alloc_ok env (trace w) MAX) eqn:Hok.
  2: { rewrite (bind_run _ _ _ _ _
                  (write_step2_refused env fuel (Some i) data w Hwf ltac:(fold MAX; lia) Hok)).
       exists gsmERRMEM, mem, (emit (EvAlloc MAX None) w), c, [EvAlloc MAX None].
       split; [done|]. split; [done|]. split; [done|]. split; [by right|].
       split; [|done]. intros (Ha & _). rewrite Ha in Hok. discriminate. }
  pose proof (write_step2_one_chunk fuel i c data w Hwf Hi Hlen Hok) as Hrun2.
  cbv zeta in Hrun2. fold MAX p cmd in Hrun2.
  set (tr1 := EvConnSend (Some i) data 1 0 :: EvAlloc MAX (Some p) :: trace w) in *.
  set (tr3 := EvReadValId i (val_id c) (S (lock w)) :: EvMsgAlloc true :: tr1) in *.
  destruct (msg_alloc_ok env tr1) eqn:Hma.
  2: { rewrite (bind_run _ _ _ _ _ Hrun2).
       eexists gsmERRMEM, mem, _, c, [_; _; _; _].
       split; [reflexivity|]. split; [done|]. split; [done|]. split; [by right|].
       split; [|done]. intros (_ & Hm & _). rewrite Hm in Hma. discriminate. }
  destruct (is_ok (mbox_result env tr3 cmd 0 60000)) eqn:Hr.
  2: { rewrite (bind_run _ _ _ _ _ Hrun2).
       eexists gsmERRMEM, mem, _, c, [_; _; _; _; _; _].
       split; [reflexivity|]. split; [done|]. split; [done|]. split; [by right|].
       split; [|done]. intros (_ & _ & Hm). by rewrite Hm in Hr. }
  assert (Hr' : mbox_result env tr3 cmd 0 60000 = gsmOK)
    by (by destruct (mbox_result env tr3 cmd 0 60000)).
  rewrite Hr' in Hrun2. clear Hr.
  rewrite (bind_run _ _ _ _ _ Hrun2). cbv beta iota.
  set (w1 := mk_world (conns w) (evt w) (heap w ++ [mk_block data Queued]) (lock w)
                      (timeouts w) (EvSubmit cmd 0 60000 (lock w) gsmOK :: tr3)).
  pose proof (write_step3_next_buffer i c w1 Hwf Hi Hb) as Hrun3.
  cbv zeta in Hrun3. fold MAX in Hrun3.
  assert (Hp : (heap w ++ [mk_block data Queued]) !! p = Some (mk_block data Queued))
    by (by apply list_lookup_middle).
  destruct (mem_alloc_ok env (trace w1) MAX) eqn:Hok3.
  - rewrite (bind_run _ _ _ _ _ Hrun3). cbv beta iota.
    set (c3 := set_buff_ptr 0 (set_buff_len MAX (set_buff_buff (Some (length (heap w1))) c))).
    rewrite (write_step4_report i c3); [|by apply list_lookup_insert_eq].
    eexists gsmOK, _, _, c3, [_; _; _; _; _; _].
    split; [reflexivity|]. split; [by apply list_lookup_insert_eq|].
    split; [reflexivity|]. split; [by left|]. split; [done|]. intros _.
    split; [done|].
    split.
    { unfold staged. cbn [conns heap]. rewrite list_lookup_insert_eq by done.
      unfold c3. cbn [buff_buff set_buff_ptr set_buff_len set_buff_buff buff_ptr].
      by rewrite list_lookup_middle. }
    split; [done|]. split; [done|].
    split; [|done]. cbn [heap w1]. by apply lookup_app_l_Some.
  - rewrite (bind_run _ _ _ _ _ Hrun3). cbv beta iota.
    set (c3 := set_buff_ptr 0 (set_buff_len MAX (set_buff_buff None c))).
    rewrite (write_step4_report i c3); [|by apply list_lookup_insert_eq].
    eexists gsmOK, _, _, c3, [_; _; _; _; _; _].
    split; [reflexivity|]. split; [by apply list_lookup_insert_eq|].
    split; [reflexivity|]. split; [by left|]. split; [done|]. intros _.
    split; [done|].
    split.
    { unfold staged. cbn [conns heap]. by rewrite list_lookup_insert_eq by done. }
    split; [done|]. split; [done|]. done.
Qed.

(** ** The validation id in an envelope *)

Lemma id_read_for_app (m : gsm_msg_t) (b : Z) (d : nat) (l l' : list event) :
  id_read_for m b d l → id_read_for m b d (l ++ l').
Proof.
  unfold id_read_for. destruct (msg m); try done.
  - intros (i & fl & rest & -> & -> & Hfl).
    exists i, fl, (rest ++ l'). split; [done|]. split; [|done].
    by rewrite <- app_assoc.
  - intros (i & bs & rest & -> & ->). by exists i, bs, (rest ++ l').
Qed.

Lemma ids_read_app (new old : list event) :
  ids_read new → ids_read old → ids_read (new ++ old).
Proof.
  intros Hn Ho. induction new as [|e new IH]; [done|].
  destruct Hn as [He Hn]. split; [|by apply IH].
  destruct e; try done. by apply id_read_for_app.
Qed.

Lemma grown_read_nil (tr : list event) : grown_read tr tr.
Proof. by exists []. Qed.

Lemma grown_read_cons (tr l : list event) (e : event) :
  is_submit e = false → grown_read tr l → grown_read tr (e :: l).
Proof.
  intros He (new & -> & Hn). exists (e :: new). split; [done|].
  split; [|done]. by destruct e.
Qed.

Lemma grown_read_unsigned (tr l : list event) (m : gsm_msg_t) (b t : Z) (d : nat) (r : gsmr_t) :
  (∀ before, id_read_for m b d before) →
  grown_read tr l → grown_read tr (EvSubmit m b t d r :: l).
Proof.
  intros He (new & -> & Hn). exists (EvSubmit m b t d r :: new). split; [done|].
  split; [apply He|done].
Qed.

Lemma grown_read_app (tr l new : list event) :
  ids_read new → grown_read tr l → grown_read tr (new ++ l).
Proof.
  intros Hn (new' & -> & Hn'). exists (new ++ new'). split; [by rewrite app_assoc|].
  by apply ids_read_app.
Qed.

Lemma grown_read_out (tr l : list event) :
  grown_read tr l → ∃ new, l = new ++ tr ∧ ids_read new.
Proof. done. Qed.

Ltac by_cases H :=
  mcbv in H;
  repeat (case_match; try discriminate); simplify_eq.

Ltac grow_read :=
  apply grown_read_out;
  repeat first
    [ apply grown_read_nil
    | apply grown_read_app; [assumption|]
    | apply grown_read_cons; [reflexivity|]
    | apply grown_read_unsigned; [done|] ].

Ltac worlds :=
  repeat match goal with w0 : World |- _ => destruct w0 end;
  cbn [lock conns trace] in *; simplify_eq.

(** The dispatcher reads the id for the envelope it submits. *)
Lemma conn_send_read conn ip port data btw bw fau blocking (w w' : World) a :
  conn_send env conn ip port data btw bw fau blocking w = Ok a w' →
  ∃ new, trace w' = new ++ trace w ∧ ids_read new.
Proof.
  intros H. destruct w as [cs ev hp lk ts tr].
  unfold conn_send in H. by_cases H; cbn [trace].
  all: try by grow_read.
  all: eexists [_; _; _; _]; split; [reflexivity|].
  all: split; [|done]; by eexists _, _, _.
Qed.

(** So does the flush, one level deeper. *)
Lemma flush_buff_read conn (w w' : World) r :
  flush_buff env conn w = Ok r w' →
  lock w' = lock w
  ∧ ∃ new, trace w' = new ++ trace w ∧ Forall (deeper (lock w)) new ∧ ids_read new.
Proof.
  intros H. destruct w as [cs ev hp lk ts tr].
  unfold flush_buff, conn_send in H. by_cases H; cbn [trace lock].
  all: split; [done|].
  all: first [ exists (@nil event); split; [reflexivity|]
             | eexists [_]; split; [reflexivity|]
             | eexists [_; _]; split; [reflexivity|]
             | eexists [_; _; _]; split; [reflexivity|]
             | eexists [_; _; _; _]; split; [reflexivity|]
             | eexists [_; _; _; _; _]; split; [reflexivity|] ].
  all: split; [repeat constructor; cbn; lia|].
  all: cbn; repeat split; try done.
  all: by eexists _, _, _.
Qed.

Ltac callee_read :=
  repeat match goal with
    | Hs : conn_send _ _ _ _ _ _ _ _ _ _ = Ok _ _ |- _ =>
        apply conn_send_read in Hs; destruct Hs as (? & ? & ?)
    | Hs : flush_buff _ _ _ = Ok _ _ |- _ =>
        apply flush_buff_read in Hs; destruct Hs as (? & ? & ? & ? & ?)
    end;
  worlds.

Lemma gsm_conn_start_read conn_out type host port uarg evt_fn blocking (w w' : World) a :
  gsm_conn_start env conn_out type host port uarg evt_fn blocking w = Ok a w' →
  ∃ new, trace w' = new ++ trace w ∧ ids_read new.
Proof.
  intros H. destruct w as [cs ev hp lk ts tr].
  unfold gsm_conn_start in H. by_cases H; cbn [trace]; grow_read.
Qed.

Lemma gsm_get_conns_status_read blocking (w w' : World) a :
  gsm_get_conns_status env blocking w = Ok a w' →
  ∃ new, trace w' = new ++ trace w ∧ ids_read new.
Proof.
  intros H. destruct w as [cs ev hp lk ts tr].
  unfold gsm_get_conns_status in H. by_cases H; cbn [trace]; grow_read.
Qed.

(** The close request reads the id, flushes, and submits. *)
Lemma gsm_conn_close_read conn blocking (w w' : World) a :
  gsm_conn_close env conn blocking w = Ok a w' →
  ∃ new, trace w' = new ++ trace w ∧ ids_read new.
Proof.
  intros H. destruct w as [cs ev hp lk ts tr].
  unfold gsm_conn_close in H. by_cases H; callee_read; cbn [trace].
  all: try by grow_read.
  all: match goal with
       | Hn : ids_read ?new |- context [EvSubmit ?m ?b ?t ?d ?r :: ?new ++ ?e1 :: ?e2 :: ?tr] =>
           exists (EvSubmit m b t d r :: new ++ [e1; e2]);
           split; [cbn; by rewrite <- app_assoc|];
           split; [by eexists _, new, [] | by apply ids_read_app]
       end.
Qed.

Lemma gsm_conn_sendto_read conn ip port data btw bw blocking (w w' : World) a :
  gsm_conn_sendto env conn ip port data btw bw blocking w = Ok a w' →
  ∃ new, trace w' = new ++ trace w ∧ ids_read new.
Proof.
  intros H. destruct w as [cs ev hp lk ts tr].
  unfold gsm_conn_sendto in H. by_cases H; callee_read; cbn [trace]; grow_read.
Qed.

Lemma gsm_conn_send_read conn data btw bw blocking (w w' : World) a :
  gsm_conn_send env conn data btw bw blocking w = Ok a w' →
  ∃ new, trace w' = new ++ trace w ∧ ids_read new.
Proof.
  intros H. destruct w as [cs ev hp lk ts tr].
  unfold gsm_conn_send in H. by_cases H; callee_read; cbn [trace]; grow_read.
Qed.

Lemma write_step1_1_read conn (w w' : World) a :
  write_step1_1 env conn w = Ok a w' →
  ∃ new, trace w' = new ++ trace w ∧ ids_read new.
Proof.
  intros H. destruct w as [cs ev hp lk ts tr].
  unfold write_step1_1 in H. by_cases H; callee_read; cbn [trace]; grow_read.
Qed.

Lemma write_step1_read conn d btw flush (w w' : World) a :
  write_step1 env conn d btw flush w = Ok a w' →
  ∃ new, trace w' = new ++ trace w ∧ ids_read new.
Proof.
  intros H. destruct w as [cs ev hp lk ts tr].
  unfold write_step1 in H. by_cases H.
  all: repeat match goal with
         | Hs : write_step1_1 _ _ _ = Ok _ _ |- _ =>
             apply write_step1_1_read in Hs; destruct Hs as (? & ? & ?)
         end.
  all: worlds; cbn [trace]; grow_read.
Qed.

Lemma write_step2_read fuel conn d btw (w w' : World) a :
  write_step2 env fuel conn d btw w = Ok a w' →
  ∃ new, trace w' = new ++ trace w ∧ ids_read new.
Proof.
  revert d btw w. induction fuel as [|fuel IH]; intros d btw w H;
    rewrite write_step2_unfold in H.
  - destruct (btw <? MAX_DATA_LEN env); [|done].
    apply ret_Ok in H as [_ <-]. by exists [].
  - destruct (btw <? MAX_DATA_LEN env).
    { apply ret_Ok in H as [_ <-]. by exists []. }
    destruct w as [cs ev hp lk ts tr]. by_cases H.
    all: try match goal with
           | Hr : write_step2 _ _ _ _ _ _ = Ok _ _ |- _ =>
               apply IH in Hr; destruct Hr as (? & ? & ?)
           end.
    all: callee_read; cbn [trace]; grow_read.
Qed.

Lemma write_step3_read conn d btw (w w' : World) a :
  write_step3 env conn d btw w = Ok a w' →
  ∃ new, trace w' = new ++ trace w ∧ ids_read new.
Proof.
  intros H. destruct w as [cs ev hp lk ts tr].
  unfold write_step3 in H. by_cases H; cbn [trace]; grow_read.
Qed.

Lemma write_step4_read conn flush mem (w w' : World) a :
  write_step4 env conn flush mem w = Ok a w' →
  ∃ new, trace w' = new ++ trace w ∧ ids_read new.
Proof.
  intros H. destruct w as [cs ev hp lk ts tr].
  unfold write_step4 in H. by_cases H; callee_read; cbn [trace]; grow_read.
Qed.

Lemma gsm_conn_write_read conn data btw flush mem (w w' : World) a :
  gsm_conn_write env conn data btw flush mem w = Ok a w' →
  ∃ new, trace w' = new ++ trace w ∧ ids_read new.
Proof.
  intros H. destruct w as [cs ev hp lk ts tr].
  unfold gsm_conn_write in H. by_cases H.
  all: repeat match goal with
         | Hs : write_step1 _ _ _ _ _ _ = Ok _ _ |- _ =>
             apply write_step1_read in Hs; destruct Hs as (? & ? & ?)
         | Hs : write_step2 _ _ _ _ _ _ = Ok _ _ |- _ =>
             apply write_step2_read in Hs; destruct Hs as (? & ? & ?)
         | Hs : write_step3 _ _ _ _ _ = Ok _ _ |- _ =>
             apply write_step3_read in Hs; destruct Hs as (? & ? & ?)
         | Hs : write_step4 _ _ _ _ _ = Ok _ _ |- _ =>
             apply write_step4_read in Hs; destruct Hs as (? & ? & ?)
         end.
  all: worlds; cbn [trace]; grow_read.
Qed.

Lemma run_call_read (k : api_call) (w w' : World) :
  run_call env k w = Ok tt w' → ∃ new, trace w' = new ++ trace w ∧ ids_read new.
Proof.
  intros H. destruct k; cbn [run_call] in H;
    apply bind_Ok in H as (a & w1 & H & Hret); apply ret_Ok in Hret as [_ <-].
  - by eapply conn_send_read.
  - apply flush_buff_read in H as (_ & new & ? & _ & ?). by exists new.
  - by eapply gsm_conn_start_read.
  - by eapply gsm_conn_close_read.
  - by eapply gsm_conn_sendto_read.
  - by eapply gsm_conn_send_read.
  - by eapply gsm_get_conns_status_read.
  - by eapply gsm_conn_write_read.
Qed.

(** An accepted close request, action by action: the envelope, the
    read of the id under the lock, the flush nested one level deeper,
    the submission of the close command with that id. *)
Lemma gsm_conn_close_sent (i : nat) (c : gsm_conn_t) (blocking : Z) (w : World) :
  conns w !! i = Some c → buff_wf env w c →
  status_active c = true → status_in_closing c = false →
  msg_alloc_ok env (trace w) = true →
  ∃ r w1 flushed,
    gsm_conn_close env (Some i) blocking w = Ok r w1
    ∧ vals w1 = vals w ∧ lock w1 = lock w
    ∧ trace w1 = EvSubmit (close_msg i c) blocking 1000 (lock w) r
                   :: flushed
                   ++ [EvReadValId i (val_id c) (S (lock w)); EvMsgAlloc true]
                   ++ trace w
    ∧ dispatches flushed = flush_of w i
    ∧ Forall (deeper (lock w)) flushed.
Proof.
  intros Hi Hbwf Hact Hcl Hok.
  assert (Hlt : (i < length (conns w))%nat) by (by eapply lookup_lt_Some).
  set (w0 := mk_world (conns w) (evt w) (heap w) (lock w) (timeouts w)
                      (EvReadValId i (val_id c) (S (lock w)) :: EvMsgAlloc true :: trace w)).
  assert (Hrun : gsm_conn_close env (Some i) blocking w =
            (flush_buff env (Some i) ≫= λ _,
             gsmi_send_msg_to_producer_mbox env (close_msg i c) blocking 1000 ≫= λ res,
             (if is_ok res && (blocking =? 0) then
                GSM_CORE_PROTECT;;
                conn_update (Some i) (set_in_closing true);;
                GSM_CORE_UNPROTECT
              else mret tt);;
             mret res) w0).
  { unfold w0. destruct w as [cs ev hp lk ts tr]. cbn in Hi, Hok.
    unfold gsm_conn_close. mcbv. rewrite Hi. mcbv. rewrite Hcl, Hact. mcbv.
    rewrite Hok. mcbv. rewrite Hi. reflexivity. }
  rewrite Hrun. clear Hrun.
  assert (Hi0 : conns w0 !! i = Some c) by done.
  assert (Hbwf0 : buff_wf env w0 c) by done.
  destruct (flush_buff_run env i c w0 Hi0 Hbwf0)
    as (r0 & w1 & flushed & Hfl & Hcs & Hcore & Htr & _ & Hdis & _).
  destruct (flush_buff_read _ _ _ _ Hfl) as (_ & new & Htr' & Hdeep & _).
  rewrite Htr in Htr'. apply app_inv_tail in Htr'. subst new.
  rewrite (bind_run _ _ _ _ _ Hfl).
  assert (Hst0 : flush_of w0 i = flush_of w i) by done. rewrite Hst0 in Hdis.
  destruct Hcore as (Hl & He & Hts).
  destruct w1 as [cs1 ev1 hp1 lk1 ts1 tr1]. cbn [conns trace lock evt timeouts heap] in *.
  subst lk1 ev1 ts1 tr1 cs1. mcbv.
  exists (mbox_result env (flushed ++ trace w0) (close_msg i c) blocking 1000).
  destruct (mbox_result env _ (close_msg i c) blocking 1000) eqn:Hr; mcbv.
  1: destruct (blocking =? 0) eqn:Hbl; mcbv;
       rewrite ?list_lookup_insert_eq by done; mcbv; rewrite ?list_insert_insert_eq.
  all: eexists _, flushed; split; [reflexivity|]; cbn [conns trace heap lock].
  all: split; [unfold vals; cbn [conns]; by eapply vals_insert|].
  all: done.
Qed.

(** C3.  The dispatcher [conn_send], called with a connection, data
    and a positive length, returns, and when its envelope is allocated
    it does exactly this: it reads the validation id of the connection
    with the core lock held (one level deeper than it was entered
    with) and then submits the send command whose envelope carries
    that id; without envelope it returns [gsmERRMEM] and submits
    nothing.  [gsm_conn_close] on an active connection that is not
    closing yet returns, and when its envelope is allocated it reads
    the id in the same way, flushes (everything the flush does is
    nested one level deeper in the lock) and submits the close command
    whose envelope carries that id.  And on every path through the
    file (the dispatcher itself, a buffer flush, start, close, sendto,
    send, status, write) no validation id changes, each send or close
    command submitted names a connection and carries the id that
    connection has, each read of an id is made with the lock held, and
    each submission has the id of its envelope from such a read: for a
    send command the read is the action right before the submission,
    right after the allocation of the envelope and the entry into the
    dispatcher; for a close command only the flush lies between. *)
Theorem submissions_carry_val_id :
  (∀ (i : nat) (c : gsm_conn_t) ip port data btw bw fau blocking (w : World),
     conns w !! i = Some c → is_null data = false → 0 < btw →
     let entry := EvConnSend (Some i) (payload w data btw) fau blocking in
     ∃ r w',
       conn_send env (Some i) ip port data btw bw fau blocking w = Ok (r, bw_reset bw) w'
       ∧ vals w' = vals w ∧ lock w' = lock w
       ∧ if msg_alloc_ok env (entry :: trace w) then
           trace w' = EvSubmit (conn_send_msg (Some i) ip port data btw bw fau (val_id c))
                               blocking 60000 (lock w) r
                        :: EvReadValId i (val_id c) (S (lock w))
                        :: EvMsgAlloc true :: entry :: trace w
         else
           r = gsmERRMEM ∧ trace w' = EvMsgAlloc false :: entry :: trace w)
  ∧ (∀ (i : nat) (c : gsm_conn_t) blocking (w : World),
       conns w !! i = Some c → buff_wf env w c →
       status_active c = true → status_in_closing c = false →
       ∃ r w',
         gsm_conn_close env (Some i) blocking w = Ok r w'
         ∧ vals w' = vals w ∧ lock w' = lock w
         ∧ if msg_alloc_ok env (trace w) then
             ∃ flushed,
               trace w' = EvSubmit (close_msg i c) blocking 1000 (lock w) r
                            :: flushed
                            ++ [EvReadValId i (val_id c) (S (lock w)); EvMsgAlloc true]
                            ++ trace w
               ∧ dispatches flushed = flush_of w i
               ∧ Forall (deeper (lock w)) flushed
           else
             r = gsmERRMEM ∧ trace w' = EvMsgAlloc false :: trace w)
  ∧ (∀ (k : api_call) (w w' : World),
       run_call env k w = Ok tt w' →
       vals w' = vals w
       ∧ ∃ new, trace w' = new ++ trace w
                ∧ Forall (carries_val_id (vals w) (lock w)) new
                ∧ ids_read new).
Proof.
  split; [|split].
  - intros i c ip port data btw bw fau blocking w Hi Hd Hb entry.
    pose proof (conn_send_eq env i c ip port data btw bw fau blocking w Hi Hd Hb) as Heq.
    cbv zeta in Heq. fold entry in Heq.
    destruct (msg_alloc_ok env (entry :: trace w)).
    + by eexists _, _.
    + by eexists _, _.
  - intros i c blocking w Hi Hbwf Hact Hcl.
    destruct (msg_alloc_ok env (trace w)) eqn:Hok.
    + destruct (gsm_conn_close_sent i c blocking w Hi Hbwf Hact Hcl Hok)
        as (r & w1 & flushed & Hrun & Hv & Hl & Htr & Hdis & Hdeep).
      exists r, w1. split; [done|]. split; [done|]. split; [done|]. by exists flushed.
    + pose proof (gsm_conn_close_run env i c blocking w Hi Hbwf Hact Hcl) as Hrun.
      rewrite Hok in Hrun. by exists gsmERRMEM, (emit (EvMsgAlloc false) w).
  - intros k w w' H.
    destruct (run_call_read k w w' H) as (new' & Ht' & Hread).
    apply run_call_good in H as (_ & Hv & new & Ht & Hf).
    rewrite Ht in Ht'. apply app_inv_tail in Ht'. subst new'.
    split; [done|]. exists new. split; [done|]. split; [|done].
    eapply Forall_impl; [|exact Hf]. intros e. destruct e; cbn; tauto.
Qed.

End Commands.

(** ** The further theorems at concrete inputs *)

Lemma w_idle_nums : ∀ i c, conns w_idle !! i = Some c → 0 ≤ num c < 128.
Proof. intros [|i] c H; [injection H as <-; cbn; lia | discriminate]. Defined.

Lemma w_staged_sound : world_wf env_ok w_staged.
Proof.
  split; [|split].
  - intros [|i] c H; [|discriminate]. injection H as <-. split.
    + exact w_staged_wf.
    + cbn. lia.
  - intros [|i] [|j] c c' p Hi Hj; try discriminate. done.
  - intros [|p] b Hp Hst; [|discriminate]. by exists 0%nat, conn_staged.
Defined.

Lemma three_calls_ok : Forall (call_ok env_ok (length (conns w_staged))) three_calls.
Proof.
  repeat constructor; cbn; try lia; by simplify_eq.
Defined.

Lemma getnum_fails_iff_no_slot_witness :
  ∃ n, gsm_conn_getnum (Some 0%nat) w_idle = Ok n w_idle
       ∧ (n = -1 ↔ conns w_idle !! 0%nat = None)
       ∧ ∀ i c, Some 0%nat = Some i → conns w_idle !! i = Some c → n = num c.
Proof. exact (getnum_fails_iff_no_slot (Some 0%nat) w_idle w_idle_nums). Defined.

Lemma poll_event_yields_connection_witness :
  ∃ w' e,
    conn_timeout_cb env_ok (Some 0%nat) w_idle = Ok tt w'
    ∧ evt w' = e
    ∧ trace w' = EvTimeoutAdd 500 (Some 0%nat) :: EvConnCb (Some 0%nat) e :: trace w_idle
    ∧ gsm_conn_get_from_evt e = Some 0%nat
    ∧ ∀ x, gsm_conn_get_from_evt (mk_evt GSM_EVT_NONE x) = None.
Proof. exact (poll_event_yields_connection env_ok 0 conn_idle w_idle eq_refl eq_refl). Defined.

Lemma poll_timer_chain_witness :
  ∃ w' new,
    (gsmi_conn_start_timeout env_ok (Some 0%nat);; gsm_timeout_fires env_ok 3) w_idle = Ok tt w'
    ∧ conns w' = conns w_idle ∧ heap w' = heap w_idle ∧ lock w' = lock w_idle
    ∧ trace w' = new ++ EvTimeoutAdd 500 (Some 0%nat) :: trace w_idle
    ∧ polls new = 3%nat
    ∧ timeouts w' = [(500, Some 0%nat)].
Proof. exact (poll_timer_chain env_ok 3 0 conn_idle w_idle eq_refl eq_refl). Defined.

Lemma flush_buff_releases_once_witness :
  ∃ r w' new,
    flush_buff env_ok (Some 0%nat) w_staged = Ok r w'
    ∧ trace w' = new ++ trace w_staged
    ∧ conns w' = [set_buff_buff None conn_staged]
    ∧ heap w' = [mk_block [x01; x00; x00; x00] (if is_ok r then Queued else Freed)]
    ∧ frees new = (if is_ok r then [] else [0%nat])
    ∧ dispatches new = [([x01], 1, 0)]
    ∧ (1 = 0 → r = gsmERR)
    ∧ flush_buff env_ok (Some 0%nat) w' = Ok gsmOK w'.
Proof.
  apply (flush_buff_releases_once env_ok 0 conn_staged 0 (mk_block [x01; x00; x00; x00] Owned)
           w_staged eq_refl eq_refl eq_refl eq_refl).
  cbn. lia.
Defined.


Lemma close_flushes_before_submitting_witness :
  ∃ r w1 c1,
    gsm_conn_close env_ok (Some 0%nat) 1 w_staged = Ok r w1
    ∧ conns w1 !! 0%nat = Some c1
    ∧ buff_buff c1 = None
    ∧ ∃ flushed,
        trace w1 = EvSubmit (close_msg 0 conn_staged) 1 1000 0 r
                     :: flushed ++ [EvReadValId 0 7 1; EvMsgAlloc true] ++ trace w_staged
        ∧ handed flushed = staged w_staged 0
        ∧ close_commands flushed = 0%nat.
Proof.
  exact (close_flushes_before_submitting env_ok 0 conn_staged 1 w_staged
           eq_refl w_staged_wf eq_refl eq_refl).
Defined.

Lemma sendto_flushes_then_sends_witness :
  (∃ r bw' w' new,
     gsm_conn_sendto env_ok (Some 0%nat) None 0 (DUser [x02]) 1 None 0 w_staged = Ok (r, bw') w'
     ∧ conns w' = [set_buff_buff None conn_staged]
     ∧ same_core w_staged w'
     ∧ released conn_staged (heap w_staged) (heap w')
     ∧ trace w' = new ++ trace w_staged
     ∧ bw' = None
     ∧ dispatches new = flush_of w_staged 0 ++ [(payload w' (DUser [x02]) 1, 0, 0)]
     ∧ (env_serves env_ok → r = gsmOK))
  ∧ (∀ d, 1 ≤ 0 → gsm_conn_send env_ok (Some 0%nat) d 1 None 0 w_staged
                  = Ok (gsmPARERR, None) w_staged).
Proof.
  exact (sendto_flushes_then_sends env_ok 0 conn_staged None 0 (DUser [x02]) 1 None 0 w_staged
           eq_refl w_staged_wf).
Defined.

Lemma send_hands_staged_then_input_witness :
  ∃ r bw' w' c' new,
    gsm_conn_send env_ok (Some 0%nat) (Some [x02; x03; x04; x05]) 4 None 0 w_staged
      = Ok (r, bw') w'
    ∧ conns w' !! 0%nat = Some c' ∧ buff_buff c' = None ∧ same_static conn_staged c'
    ∧ same_core w_staged w'
    ∧ trace w' = new ++ trace w_staged
    ∧ handed new = [x01; x02; x03; x04; x05]
    ∧ dispatches new = [([x01; x02; x03; x04], 1, 0); ([x05], 0, 0)]
    ∧ bw' = None
    ∧ (env_serves env_ok → r = gsmOK).
Proof.
  apply (send_hands_staged_then_input env_ok 0 conn_staged [x02; x03; x04; x05] None 0 w_staged
           eq_refl w_staged_wf).
  - cbn. lia.
  - unfold size_mod. cbn. lia.
Defined.

Lemma calls_keep_state_sound_witness :
  ∃ w',
    run_calls env_ok three_calls w_staged = Ok tt w'
    ∧ world_wf env_ok w'
    ∧ lock w' = lock w_staged
    ∧ length (conns w') = length (conns w_staged).
Proof.
  exact (calls_keep_state_sound env_ok three_calls w_staged env_ok_wf w_staged_sound
           three_calls_ok).
Defined.

Lemma write_without_flush_sends_full_chunks_witness :
  ∃ r m w' new,
    gsm_conn_write env_ok (Some 0%nat) [x02; x03; x04; x05] 4 0 None w_staged = Ok (r, m) w'
    ∧ trace w' = new ++ trace w_staged
    ∧ Forall (λ x, Z.of_nat (length x.1.1) = 4 ∧ x.1.2 = 1 ∧ x.2 = 0) (dispatches new)
    ∧ Z.of_nat (length (staged w' 0)) < 4.
Proof.
  apply (write_without_flush_sends_full_chunks env_ok 0 conn_staged [x02; x03; x04; x05] None
           w_staged env_ok_wf w_staged_sound eq_refl).
  unfold size_mod. cbn. lia.
Defined.

Lemma write_without_flush_chunk_count_witness :
  ∃ r m w' new,
    gsm_conn_write env_ok (Some 0%nat) [x02; x03; x04; x05] 4 0 None w_staged = Ok (r, m) w'
    ∧ trace w' = new ++ trace w_staged
    ∧ (r = gsmOK →
       Z.of_nat (length (dispatches new)) = 1
       ∧ Z.of_nat (length (staged w' 0)) = 1).
Proof.
  apply (write_without_flush_chunk_count env_ok 0 conn_staged [x02; x03; x04; x05] None
           w_staged env_ok_wf w_staged_sound eq_refl).
  unfold size_mod. cbn. lia.
Defined.

Lemma write_reports_zero_iff_no_buffer_witness :
  ∃ r m w' c' new,
    gsm_conn_write env_ok (Some 0%nat) [x02] 1 0 (Some 9) w_staged = Ok (r, m) w'
    ∧ conns w' !! 0%nat = Some c'
    ∧ trace w' = new ++ trace w_staged
    ∧ (r = gsmOK →
       (m = Some 0 ↔ buff_buff c' = None)
       ∧ (buff_buff c' ≠ None → ∃ n, m = Some n ∧ 0 < n)
       ∧ (buff_buff c' = None → 0 ≠ 0 ∨ existsb alloc_failed new = true)).
Proof.
  apply (write_reports_zero_iff_no_buffer env_ok 0 conn_staged [x02] 0 9 w_staged
           env_ok_wf w_staged_sound eq_refl).
  unfold size_mod. cbn. lia.
Defined.

Lemma write_with_flush_hands_everything_witness :
  ∃ r m w' c' new,
    gsm_conn_write env_ok (Some 0%nat) [x02] 1 1 (Some 9) w_staged = Ok (r, m) w'
    ∧ conns w' !! 0%nat = Some c'
    ∧ trace w' = new ++ trace w_staged
    ∧ (r = gsmOK →
       handed new = [x01; x02]
       ∧ staged w' 0 = []
       ∧ buff_buff c' = None
       ∧ m = Some 0).
Proof.
  apply (write_with_flush_hands_everything env_ok 0 conn_staged [x02] 1 (Some 9) w_staged
           env_ok_wf eq_refl w_staged_wf).
  - unfold size_mod. cbn. lia.
  - lia.
Defined.

Lemma every_envelope_is_submitted_witness :
  ∃ new, trace w_staged_flushed = new ++ trace w_staged ∧ submissions new = envelopes new.
Proof.
  apply (every_envelope_is_submitted env_ok (call_flush_buff (Some 0%nat))).
  vm_compute. reflexivity.
Defined.

Lemma arg_set_then_get_witness :
  ∃ ci' x',
    gsm_conn_set_arg (Some 0%nat) 9 ci_one w_idle = Ok (gsmOK, ci') w_idle
    ∧ gsm_conn_get_arg (Some 0%nat) ci' w_idle = Ok 9 w_idle
    ∧ ci' !! 0%nat = Some x'
    ∧ remote_ip x' = [x0a; x00; x00; x01] ∧ remote_port x' = 80
    ∧ local_port x' = 1024 ∧ tcp_available_data x' = 3
    ∧ ∀ j, j ≠ 0%nat →
        ci' !! j = ci_one !! j
        ∧ gsm_conn_get_arg (Some j) ci' w_idle = gsm_conn_get_arg (Some j) ci_one w_idle.
Proof. exact (arg_set_then_get 0 9 info_one ci_one w_idle eq_refl). Defined.

Lemma recved_counter_witness :
  gsm_conn_recved env_ok true (Some 0%nat) 2 ci_one w_idle
    = Ok (gsmOK, [set_tcp_available_data 1 info_one]) w_idle
  ∧ 1 ≤ 3 ∧ (0 < 3 → 0 < 1).
Proof.
  apply (recved_counter env_ok true 0 info_one 2 ci_one w_idle eq_refl).
  - lia.
  - unfold size_mod. cbn. lia.
Defined.

Lemma submissions_carry_val_id_witness :
  (∃ r w',
     conn_send env_ok (Some 0%nat) None 0 (DUser [x01]) 1 (Some 5) 0 1 w_idle = Ok (r, Some 0) w'
     ∧ vals w' = vals w_idle ∧ lock w' = lock w_idle
     ∧ trace w' = [EvSubmit (conn_send_msg (Some 0%nat) None 0 (DUser [x01]) 1 (Some 5) 0 7)
                            1 60000 0 r;
                   EvReadValId 0 7 1; EvMsgAlloc true;
                   EvConnSend (Some 0%nat) [x01] 0 1])
  ∧ (∃ r w',
       gsm_conn_close env_ok (Some 0%nat) 0 w_staged = Ok r w'
       ∧ vals w' = vals w_staged ∧ lock w' = lock w_staged
       ∧ ∃ flushed,
           trace w' = EvSubmit (close_msg 0 conn_staged) 0 1000 0 r
                        :: flushed ++ [EvReadValId 0 7 1; EvMsgAlloc true] ++ []
           ∧ dispatches flushed = [([x01], 1, 0)]
           ∧ Forall (deeper 0) flushed)
  ∧ (vals w_staged_flushed = vals w_staged
     ∧ ∃ new, trace w_staged_flushed = new ++ trace w_staged
              ∧ Forall (carries_val_id (vals w_staged) (lock w_staged)) new
              ∧ ids_read new).
Proof.
  destruct (submissions_carry_val_id env_ok) as (Hsend & Hclose & Hall).
  split; [|split].
  - apply (Hsend 0%nat conn_idle None 0 (DUser [x01]) 1 (Some 5) 0 1 w_idle);
      [reflexivity | reflexivity | lia].
  - apply (Hclose 0%nat conn_staged 0 w_staged); [reflexivity | exact w_staged_wf | reflexivity..].
  - apply (Hall (call_flush_buff (Some 0%nat))). vm_compute. reflexivity.
Defined.

Lemma write_full_chunk_once_witness :
  ∃ r m w' c' new,
    gsm_conn_write env_ok (Some 0%nat) [x01; x02; x03; x04] 4 0 None w_idle = Ok (r, m) w'
    ∧ conns w' !! 0%nat = Some c'
    ∧ trace w' = new ++ trace w_idle
    ∧ (r = gsmOK ∨ r = gsmERRMEM)
    ∧ (env_serves env_ok → r = gsmOK)
    ∧ (r = gsmOK →
       dispatches new = [([x01; x02; x03; x04], 1, 0)]
       ∧ staged w' 0 = []
       ∧ (buff_buff c' ≠ None → buff_ptr c' = 0 ∧ buff_len c' = 4)
       ∧ new = [EvAlloc 4 (buff_buff c');
                EvSubmit (conn_send_msg (Some 0%nat) None 0 (DHeap 0) 4 None 1 7)
                         0 60000 0 gsmOK;
                EvReadValId 0 7 1;
                EvMsgAlloc true;
                EvConnSend (Some 0%nat) [x01; x02; x03; x04] 1 0;
                EvAlloc 4 (Some 0%nat)]
       ∧ heap w' !! 0%nat = Some (mk_block [x01; x02; x03; x04] Queued)
       ∧ frees new = []).
Proof.
  exact (write_full_chunk_once env_ok 0 conn_idle [x01; x02; x03; x04] None w_idle
           env_ok_wf eq_refl eq_refl eq_refl).
Defined.
